(** * mgz.fast.header: a shallow embedding of the recorded-game header parser

    The development follows [src/mgz/fast/header.py] function by function.
    Python values are dynamically typed, so parsed records are kept as
    dictionaries of tagged values; the byte stream is an [io.BytesIO]
    (a buffer and a position); exceptions are an explicit outcome.
    Logging calls have no effect on the parse and are left out. *)

From Stdlib Require Import ZArith List Bool String Ascii Lia SpecFloat DecimalString.
From Stdlib.Strings Require Import Byte.
From Stdlib Require DecimalPos.
Import ListNotations.
Set Warnings "-register-all".
Local Open Scope Z_scope.
Local Open Scope list_scope.

(* ================================================================== *)
(** ** Python runtime: bytes, integers, floats, text                    *)
(* ================================================================== *)

Module Py.

Definition bytes := list byte.

Definition len {A} (l : list A) : Z := Z.of_nat (List.length l).

Definition ord (b : byte) : Z := Z.of_N (Byte.to_N b).

Definition bytes_eqb (a b : bytes) : bool :=
  if list_eq_dec Byte.byte_eq_dec a b then true else false.

(** Python normalises a slice bound against the length of the sequence. *)
Definition clamp_index (n i : Z) : Z :=
  let i := if i <? 0 then i + n else i in
  if i <? 0 then 0 else if n <? i then n else i.

(** [data[a:b]]. *)
Definition slice {A} (data : list A) (a b : Z) : list A :=
  let n := len data in
  let a := clamp_index n a in
  let b := clamp_index n b in
  firstn (Z.to_nat (b - a)) (skipn (Z.to_nat a) data).

(** [data[a:]]. *)
Definition slice_from {A} (data : list A) (a : Z) : list A :=
  skipn (Z.to_nat (clamp_index (len data) a)) data.

Fixpoint is_prefix (p s : bytes) : bool :=
  match p, s with
  | [], _ => true
  | _ :: _, [] => false
  | x :: p', y :: s' => Byte.eqb x y && is_prefix p' s'
  end.

(** First index at or after [i] where [sub] occurs in [s], counting from [i]. *)
Fixpoint find_from (sub s : bytes) (i : Z) : Z :=
  if is_prefix sub s then i
  else match s with
       | [] => -1
       | _ :: s' => find_from sub s' (i + 1)
       end.

(** [data.find(sub, start)]. *)
Definition find (sub data : bytes) (start : Z) : Z :=
  let n := len data in
  let start := if start <? 0 then Z.max 0 (start + n) else start in
  if n <? start then -1
  else find_from sub (skipn (Z.to_nat start) data) start.

(** [data.strip(b'\x00')]: the given byte removed from both ends. *)
Fixpoint lstrip (c : byte) (s : bytes) : bytes :=
  match s with
  | x :: s' => if Byte.eqb x c then lstrip c s' else s
  | [] => []
  end.

Definition strip (c : byte) (s : bytes) : bytes :=
  rev (lstrip c (rev (lstrip c s))).

(** Little-endian integers. *)
Fixpoint le_uint (bs : bytes) : Z :=
  match bs with
  | [] => 0
  | b :: r => ord b + 256 * le_uint r
  end.

Definition le_int (bs : bytes) : Z :=
  let u := le_uint bs in
  let w := 8 * len bs in
  if u <? 2 ^ (w - 1) then u else u - 2 ^ w.

(** *** Exceptions *)

Inductive exn_class :=
| struct_error | zlib_error | AssertionError | MemoryError
| ValueError | UnicodeDecodeError
| RuntimeError | IndexError | KeyError | TypeError | OverflowError.

Record exn := Exn { exn_class_of : exn_class; exn_msg : string }.

(** [Diverge] is the outcome of a loop that ran out of fuel, for the one
    loop of the module that has no bound. *)
Inductive result (A : Type) :=
| Ok (a : A)
| Raise (e : exn)
| Diverge.
Arguments Ok {A} a.
Arguments Raise {A} e.
Arguments Diverge {A}.

Definition builtin {A} (c : exn_class) : result A := Raise (Exn c "").

(** *** Floats: IEEE-754 binary64, as the interpreter's [float] *)

Definition float := spec_float.
Definition prec : Z := 53.
Definition emax : Z := 1024.

Definition float_of_Z (n : Z) : float := binary_normalize prec emax n 0 false.

(** Correctly rounded quotient of two integers ([int / int], and the
    value of a decimal literal [m / 10^k]). *)
Definition truediv (a b : Z) : float :=
  match a, b with
  | _, Z0 => S754_nan
  | Z0, _ => S754_zero false
  | Zpos p, Zpos q => SFdiv prec emax (S754_finite false p 0) (S754_finite false q 0)
  | Zneg p, Zpos q => SFdiv prec emax (S754_finite true p 0) (S754_finite false q 0)
  | Zpos p, Zneg q => SFdiv prec emax (S754_finite false p 0) (S754_finite true q 0)
  | Zneg p, Zneg q => SFdiv prec emax (S754_finite true p 0) (S754_finite true q 0)
  end.

Definition is_digit (c : ascii) : bool :=
  let n := Z.of_nat (nat_of_ascii c) in (48 <=? n) && (n <=? 57).
Definition digit (c : ascii) : Z := Z.of_nat (nat_of_ascii c) - 48.

(** A decimal literal of the source, such as [66.3]: digits with at most
    one point.  [lit_scan s m k] returns the digits as an integer and the
    power of ten below the point. *)
Fixpoint lit_scan (s : string) (m : Z) (k : option Z) : Z * Z :=
  match s with
  | EmptyString => (m, match k with Some k => k | None => 1 end)
  | String c r =>
      if is_digit c then
        lit_scan r (10 * m + digit c) (option_map (Z.mul 10) k)
      else lit_scan r m (Some 1)
  end.

Definition flt (s : string) : float :=
  let '(m, k) := lit_scan s 0 None in truediv m k.

Definition fge (a b : float) : bool := SFleb b a.   (* a >= b *)
Definition fgt (a b : float) : bool := SFltb b a.   (* a >  b *)
Definition flt_ (a b : float) : bool := SFltb a b.  (* a <  b *)
Definition fle (a b : float) : bool := SFleb a b.   (* a <= b *)
Definition feq (a b : float) : bool := SFeqb a b.   (* a == b *)

(** [float] of the 32 bits of a C float (struct code [f]). *)
Definition float_of_bits32 (u : Z) : float :=
  let s := Z.testbit u 31 in
  let e := Z.land (Z.shiftr u 23) 255 in
  let m := Z.land u (2 ^ 23 - 1) in
  if e =? 255 then (if m =? 0 then S754_infinity s else S754_nan)
  else if e =? 0 then binary_normalize prec emax (cond_Zopp s m) (-149) s
  else binary_normalize prec emax (cond_Zopp s (m + 2 ^ 23)) (e - 150) s.

(** [float] of the 64 bits of a C double (struct code [d]). *)
Definition float_of_bits64 (u : Z) : float :=
  let s := Z.testbit u 63 in
  let e := Z.land (Z.shiftr u 52) 2047 in
  let m := Z.land u (2 ^ 52 - 1) in
  if e =? 2047 then (if m =? 0 then S754_infinity s else S754_nan)
  else if e =? 0 then binary_normalize prec emax (cond_Zopp s m) (-1074) s
  else binary_normalize prec emax (cond_Zopp s (m + 2 ^ 52)) (e - 1075) s.

(** The 64 bits of a [float] ([struct.pack('<d', x)] lays them out
    little-endian). *)
Definition bits64_of_float (x : float) : Z :=
  let sign (s : bool) := if s then 2 ^ 63 else 0 in
  match x with
  | S754_zero s => sign s
  | S754_infinity s => sign s + 2047 * 2 ^ 52
  | S754_nan => 2047 * 2 ^ 52 + 2 ^ 51
  | S754_finite s m e =>
      if 2 ^ 52 <=? Zpos m
      then sign s + (e + 1075) * 2 ^ 52 + (Zpos m - 2 ^ 52)
      else sign s + Zpos m
  end.

Fixpoint le_bytes (n : nat) (u : Z) : bytes :=
  match n with
  | O => []
  | S n' =>
      match Byte.of_N (Z.to_N (u mod 256)) with
      | Some b => b :: le_bytes n' (u / 256)
      | None => []
      end
  end.

Definition pack_d (x : float) : bytes := le_bytes 8 (bits64_of_float x).

(** [int(x)]: truncation towards zero. *)
Definition int_of_float (x : float) : result Z :=
  match x with
  | S754_zero _ => Ok 0
  | S754_infinity _ => builtin OverflowError
  | S754_nan => builtin ValueError
  | S754_finite s m e =>
      Ok (cond_Zopp s (if 0 <=? e then Zpos m * 2 ^ e else Zpos m / 2 ^ (- e)))
  end.

(** [round(x, 2)]: the value is rounded to two decimals exactly (ties to
    even) and the decimal result converted back to the nearest float. *)
Definition round_half_even (num den : Z) : Z :=
  let q := num / den in
  let r := num mod den in
  match 2 * r ?= den with
  | Lt => q
  | Gt => q + 1
  | Eq => if Z.even q then q else q + 1
  end.

Definition round2 (x : float) : float :=
  match x with
  | S754_finite s m e =>
      let n := if 0 <=? e then 100 * Zpos m * 2 ^ e
               else round_half_even (100 * Zpos m) (2 ^ (- e)) in
      if n =? 0 then S754_zero s else truediv (cond_Zopp s n) 100
  | _ => x
  end.

(** *** Text *)

(** A Python [str] is a sequence of code points. *)
Definition str := list Z.

Fixpoint u (s : string) : str :=
  match s with
  | EmptyString => []
  | String c r => Z.of_nat (nat_of_ascii c) :: u r
  end.

Definition str_eqb (a b : str) : bool :=
  if list_eq_dec Z.eq_dec a b then true else false.

(** [str(n)] for an integer, as text of the host language. *)
Definition dec (n : Z) : string := NilZero.string_of_int (Z.to_int n).

Definition hex_digit (n : Z) : ascii :=
  ascii_of_nat (Z.to_nat (if n <? 10 then 48 + n else 87 + n)).

(** [b.hex()]. *)
Fixpoint hex (b : bytes) : string :=
  match b with
  | [] => EmptyString
  | x :: r => String (hex_digit (ord x / 16)) (String (hex_digit (ord x mod 16)) (hex r))
  end.

(** The code points of ASCII bytes, if all of them are. *)
Fixpoint ascii_points (b : bytes) : option str :=
  match b with
  | [] => Some []
  | x :: r =>
      if ord x <? 128 then option_map (cons (ord x)) (ascii_points r) else None
  end.

Definition cont (b : byte) : bool := (128 <=? ord b) && (ord b <? 192).
Definition low6 (b : byte) : Z := ord b - 128.

(** The code points of strict UTF-8: overlong forms, surrogates and code
    points above U+10FFFF are refused. *)
Fixpoint utf8_points (b : bytes) : option str :=
  match b with
  | [] => Some []
  | b0 :: r0 =>
      let c0 := ord b0 in
      if c0 <? 128 then option_map (cons c0) (utf8_points r0)
      else if (194 <=? c0) && (c0 <? 224) then
        match r0 with
        | b1 :: r1 =>
            if cont b1
            then option_map (cons ((c0 - 192) * 64 + low6 b1)) (utf8_points r1)
            else None
        | _ => None
        end
      else if (224 <=? c0) && (c0 <? 240) then
        match r0 with
        | b1 :: b2 :: r2 =>
            let c := (c0 - 224) * 4096 + low6 b1 * 64 + low6 b2 in
            if cont b1 && cont b2 && (2048 <=? c)
               && negb ((55296 <=? c) && (c <? 57344))
            then option_map (cons c) (utf8_points r2)
            else None
        | _ => None
        end
      else if (240 <=? c0) && (c0 <? 245) then
        match r0 with
        | b1 :: b2 :: b3 :: r3 =>
            let c := (c0 - 240) * 262144 + low6 b1 * 4096 + low6 b2 * 64 + low6 b3 in
            if cont b1 && cont b2 && cont b3 && (65536 <=? c) && (c <? 1114112)
            then option_map (cons c) (utf8_points r3)
            else None
        | _ => None
        end
      else None
  end.

Definition decoded (points : option str) : result str :=
  match points with
  | Some s => Ok s
  | None => builtin UnicodeDecodeError
  end.

(** [b.decode('ascii')]. *)
Definition decode_ascii (b : bytes) : result str := decoded (ascii_points b).

(** [b.decode('utf-8')]. *)
Definition decode_utf8 (b : bytes) : result str := decoded (utf8_points b).

(** [s.split(sep)] for a one-character separator: never empty. *)
Fixpoint split (sep : Z) (s : str) : list str :=
  match s with
  | [] => [[]]
  | c :: r =>
      if c =? sep then [] :: split sep r
      else match split sep r with
           | w :: ws => (c :: w) :: ws
           | [] => [[c]]
           end
  end.

(** [sep.join(parts)]. *)
Fixpoint join (sep : str) (parts : list str) : str :=
  match parts with
  | [] => []
  | [p] => p
  | p :: ps => p ++ sep ++ join sep ps
  end.

End Py.

(* ================================================================== *)
(** ** Values, streams and the parser monad                            *)
(* ================================================================== *)

Module Rt.
Import Py.

(** Modelled from the spec: [mgz.util.Version], the closed set of game
    editions "{AOK, AOC, USERPATCH15, HD, DE, MCP, TRIAL, ...}"; a
    member the spec does not name is kept with its name, as in
    [Version.USERPATCH12]. *)
Inductive Version :=
| AOK | AOC | USERPATCH15 | HD | DE | MCP | TRIAL
| OtherVersion (name : string).

Definition Version_eqb (a b : Version) : bool :=
  match a, b with
  | AOK, AOK | AOC, AOC | USERPATCH15, USERPATCH15 | HD, HD
  | DE, DE | MCP, MCP | TRIAL, TRIAL => true
  | OtherVersion n, OtherVersion m => String.eqb n m
  | _, _ => false
  end.

(** [version in (Version.DE, Version.HD)]. *)
Definition de_or_hd (v : Version) : bool := Version_eqb v DE || Version_eqb v HD.

(** Python objects, as far as the parser builds them. *)
Inductive val :=
| VNone
| VBool (b : bool)
| VInt (n : Z)
| VFloat (x : float)
| VBytes (b : bytes)
| VStr (s : str)
| VTuple (vs : list val)
| VList (vs : list val)
| VDict (kvs : list (string * val))
| VVersion (v : Version)
| VSha1 (data : bytes).        (* hashlib.sha1(data), not yet digested *)

(** Truth value of an object ([bool(x)], [if x], [not x]). *)
Definition truthy (v : val) : bool :=
  match v with
  | VNone => false
  | VBool b => b
  | VInt n => negb (n =? 0)
  | VFloat x => negb (feq x (S754_zero false))
  | VBytes b => negb (len b =? 0)
  | VStr s => negb (len s =? 0)
  | VTuple vs | VList vs => negb (len vs =? 0)
  | VDict kvs => negb (len kvs =? 0)
  | VVersion _ | VSha1 _ => true
  end.

Definition dict := list (string * val).

(** [d.get(k)]. *)
Fixpoint dict_get (d : dict) (k : string) : val :=
  match d with
  | [] => VNone
  | (k', v) :: r => if String.eqb k k' then v else dict_get r k
  end.

Fixpoint has_key (d : dict) (k : string) : bool :=
  match d with
  | [] => false
  | (k', _) :: r => String.eqb k k' || has_key r k
  end.

(** [dict(d, key=value)]: a copy of [d] with one more entry. *)
Fixpoint dict_set (d : dict) (k : string) (v : val) : dict :=
  match d with
  | [] => [(k, v)]
  | (k', v') :: r => if String.eqb k k' then (k, v) :: r else (k', v') :: dict_set r k v
  end.

(** *** io.BytesIO *)

Record BytesIO := mkBytesIO { getvalue : bytes; position : Z }.

(** [io.BytesIO(b)]. *)
Definition BytesIO_of (b : bytes) : BytesIO := mkBytesIO b 0.

(** An outcome on a stream, with the stream reduced to its position. *)
Definition at_position {A} (r : result (A * BytesIO)) : result (A * Z) :=
  match r with
  | Ok (a, d) => Ok (a, position d)
  | Raise e => Raise e
  | Diverge => Diverge
  end.

(** The bytes from the position on. *)
Definition remaining (d : BytesIO) : bytes :=
  skipn (Z.to_nat (position d)) (getvalue d).

(** A computation on one stream: it returns a value and the stream after
    it, raises, or runs out of fuel. *)
Definition M (A : Type) := BytesIO -> result (A * BytesIO).

Definition ret {A} (a : A) : M A := fun d => Ok (a, d).

Definition bind {A B} (c : M A) (k : A -> M B) : M B :=
  fun d => match c d with
           | Ok (a, d') => k a d'
           | Raise e => Raise e
           | Diverge => Diverge
           end.

Definition raise {A} (c : exn_class) (msg : string) : M A :=
  fun _ => Raise (Exn c msg).

Definition lift {A} (r : result A) : M A :=
  fun d => match r with
           | Ok a => Ok (a, d)
           | Raise e => Raise e
           | Diverge => Diverge
           end.

Declare Scope py_scope.
Delimit Scope py_scope with py.
Notation "x <- c ;; k" := (bind c (fun x => k))
  (at level 61, c at next level, right associativity) : py_scope.
Notation "' pat <- c ;; k" :=
  (bind c (fun v => match v with pat => k | _ => raise TypeError "" end))
  (at level 61, pat pattern, c at next level, right associativity) : py_scope.
Notation "' pat <-- c ;; k" := (bind c (fun v => let 'pat := v in k))
  (at level 61, pat pattern, c at next level, right associativity) : py_scope.
Notation "c ;; k" := (bind c (fun _ => k))
  (at level 61, right associativity) : py_scope.
Local Open Scope py_scope.

(** [data.tell()]. *)
Definition tell : M Z := fun d => Ok (position d, d).

(** A size is passed as a C [ssize_t]: an integer outside its range is
    refused with OverflowError. *)
Definition fits_ssize_t (n : Z) : bool := (- 2 ^ 63 <=? n) && (n <? 2 ^ 63).

(** [data.read(size)]; a negative size reads to the end. *)
Definition read (size : Z) : M bytes := fun d =>
  if negb (fits_ssize_t size) then builtin OverflowError
  else
    let n := len (getvalue d) - position d in
    let size := if (size <? 0) || (n <? size) then Z.max n 0 else size in
    Ok (slice (getvalue d) (position d) (position d + size),
        mkBytesIO (getvalue d) (position d + size)).

(** [data.read()]. *)
Definition read_all : M bytes := read (-1).

(** [data.seek(pos)]. *)
Definition seek (pos : Z) : M unit := fun d =>
  if pos <? 0 then Raise (Exn ValueError ("negative seek value " ++ dec pos)%string)
  else Ok (tt, mkBytesIO (getvalue d) pos).

(** [data.seek(off, 1)]: relative to the position, not below zero. *)
Definition seek_cur (off : Z) : M unit := fun d =>
  Ok (tt, mkBytesIO (getvalue d) (Z.max 0 (position d + off))).

(** [for i in range(n)] with a loop state. *)
Fixpoint for_ {S} (n : nat) (i : Z) (body : Z -> S -> M S) (s : S) : M S :=
  match n with
  | O => ret s
  | Datatypes.S n' => s' <- body i s ;; for_ n' (i + 1) body s'
  end.

Definition for_range {S} (n : Z) (body : Z -> S -> M S) (s : S) : M S :=
  for_ (Z.to_nat n) 0 body s.

(** [for _ in range(n): body] where the body keeps no state. *)
Definition repeat_ (n : Z) (body : M unit) : M unit :=
  for_range n (fun _ _ => body) tt.

(** [if c: body]. *)
Definition when (c : bool) (body : M unit) : M unit :=
  if c then body else ret tt.

(** Sequencing of outcomes outside a stream. *)
Definition and_then {A B} (r : result A) (k : A -> result B) : result B :=
  match r with
  | Ok a => k a
  | Raise e => Raise e
  | Diverge => Diverge
  end.

Notation "x <~ r ;; k" := (and_then r (fun x => k))
  (at level 61, r at next level, right associativity) : py_scope.
Notation "' pat <~ r ;; k" := (and_then r (fun v => let 'pat := v in k))
  (at level 61, pat pattern, r at next level, right associativity) : py_scope.

(** [v[i]] for a sequence and an index that is not negative. *)
Definition getitem (v : val) (i : Z) : result val :=
  let at_ {A} (l : list A) (f : A -> val) :=
    match nth_error l (Z.to_nat i) with
    | Some x => if 0 <=? i then Ok (f x) else builtin IndexError
    | None => builtin IndexError
    end in
  match v with
  | VTuple vs | VList vs => at_ vs (fun x => x)
  | VBytes b => at_ b (fun x => VInt (ord x))
  | VStr s => at_ s (fun c => VStr [c])
  | _ => builtin TypeError
  end.

(** [int(v)]. *)
Definition int_ (v : val) : result Z :=
  match v with
  | VInt n => Ok n
  | VBool b => Ok (if b then 1 else 0)
  | VFloat x => int_of_float x
  | _ => builtin TypeError
  end.

(** [list(s)] of a text: its characters. *)
Definition chars (s : str) : list str := map (fun c => [c]) s.

End Rt.

(* ================================================================== *)
(** ** The [struct] module                                             *)
(* ================================================================== *)

Module Struct.
Import Py Rt.
Local Open Scope py_scope.

(** Format codes.  Only the codes the parser writes are modelled; any
    other character of a format is refused, as a bad character is. *)
Inductive code := Cx | Cb | CB | Ch | CH | Ci | CI | Cq | CQ | Cf | Cd | Cs.

Definition code_of (c : ascii) : option code :=
  match c with
  | "x" => Some Cx | "b" => Some Cb | "B" => Some CB
  | "h" => Some Ch | "H" => Some CH | "i" => Some Ci | "I" => Some CI
  | "q" => Some Cq | "Q" => Some CQ | "f" => Some Cf | "d" => Some Cd
  | "s" => Some Cs
  | _ => None
  end%char.

Definition size (k : code) : Z :=
  match k with
  | Cx | Cb | CB | Cs => 1
  | Ch | CH => 2
  | Ci | CI | Cf => 4
  | Cq | CQ | Cd => 8
  end.

(** Items of a format after the byte-order character: a repeat count
    (one when absent) and a code.  A sign is a bad character, so a
    negative count written by an f-string makes the format invalid. *)
Fixpoint scan (s : string) (n : option Z) : option (list (Z * code)) :=
  match s with
  | EmptyString => match n with None => Some [] | Some _ => None end
  | String c r =>
      if is_digit c then
        scan r (Some (10 * (match n with Some n => n | None => 0 end) + digit c))
      else
        match code_of c with
        | Some k =>
            option_map (cons (match n with Some n => n | None => 1 end, k)) (scan r None)
        | None => None
        end
  end.

(** A format is little-endian without alignment when it starts with [<]
    and native otherwise; the native layout is that of a little-endian
    host, where every number is aligned to its size. *)
Definition parse_format (s : string) : option (bool * list (Z * code)) :=
  match s with
  | String "<"%char r => option_map (pair false) (scan r None)
  | String "@"%char r => option_map (pair true) (scan r None)
  | _ => option_map (pair true) (scan s None)
  end.

Definition align (native : bool) (k : code) (off : Z) : Z :=
  if native then (off + size k - 1) / size k * size k else off.

Fixpoint end_offset (native : bool) (items : list (Z * code)) (off : Z) : Z :=
  match items with
  | [] => off
  | (n, k) :: r => end_offset native r (align native k off + n * size k)
  end.

(** [struct.calcsize(fmt)]. *)
Definition calcsize (fmt : string) : option Z :=
  match parse_format fmt with
  | Some (native, items) => Some (end_offset native items 0)
  | None => None
  end.

Definition decode_one (k : code) (b : bytes) : val :=
  match k with
  | Cb | Ch | Ci | Cq => VInt (le_int b)
  | CB | CH | CI | CQ => VInt (le_uint b)
  | Cf => VFloat (float_of_bits32 (le_uint b))
  | Cd => VFloat (float_of_bits64 (le_uint b))
  | Cx | Cs => VBytes b
  end.

Definition range (n : Z) : list Z := map Z.of_nat (seq 0 (Z.to_nat n)).

Fixpoint decode (native : bool) (items : list (Z * code)) (off : Z) (chunk : bytes)
  : list val :=
  match items with
  | [] => []
  | (n, k) :: r =>
      let off := align native k off in
      match k with
      | Cx => decode native r (off + n) chunk
      | Cs => VBytes (slice chunk off (off + n)) :: decode native r (off + n) chunk
      | _ =>
          map (fun j => decode_one k (slice chunk (off + j * size k) (off + (j + 1) * size k)))
              (range n)
          ++ decode native r (off + n * size k) chunk
      end
  end.

(** [struct.unpack(fmt, chunk)]: the buffer must have exactly the size of
    the format. *)
Definition struct_unpack (fmt : string) (chunk : bytes) : result (list val) :=
  match parse_format fmt with
  | None => builtin struct_error
  | Some (native, items) =>
      if len chunk =? end_offset native items 0
      then Ok (decode native items 0 chunk)
      else builtin struct_error
  end.

(** [struct.unpack_from(fmt, data, offset)]. *)
Definition unpack_from (fmt : string) (data : bytes) (offset : Z) : result (list val) :=
  match calcsize fmt with
  | None => builtin struct_error
  | Some n =>
      if (0 <=? offset) && (offset + n <=? len data)
      then struct_unpack fmt (slice data offset (offset + n))
      else builtin struct_error
  end.

(** Modelled from the spec: [mgz.util.unpack], the cursor's
    [read_struct(fmt)]: it reads [calcsize(fmt)] bytes from the stream and
    unpacks them; a format of one value yields that value, any other a
    tuple. *)
Definition unpack (fmt : string) : M val :=
  match calcsize fmt with
  | None => raise struct_error ""
  | Some n =>
      chunk <- read n ;;
      output <- lift (struct_unpack fmt chunk) ;;
      match output with
      | [v] => ret v
      | _ => ret (VTuple output)
      end
  end.

End Struct.

(* ================================================================== *)
(** ** The [re] module, for the patterns of the parser                  *)
(* ================================================================== *)

Module Re.
Import Py.

(** The patterns of the parser are sequences of one-byte tests and
    negative lookaheads on literal bytes. *)
Inductive atom :=
| Lit (b : byte)              (* a literal byte *)
| Any                         (* [.] under re.DOTALL, [\x00-\xff] *)
| OneOf (bs : list byte)      (* (a|b|c) over single bytes *)
| Not (b : byte)              (* [^b] *)
| NotAhead (bs : bytes).      (* (?!bs) *)

Definition pattern := list atom.

Definition literal (bs : bytes) : pattern := map Lit bs.

(** The length of the match of [p] at the start of [s], if it matches. *)
Fixpoint match_here (p : pattern) (s : bytes) : option Z :=
  match p with
  | [] => Some 0
  | NotAhead bs :: p' => if is_prefix bs s then None else match_here p' s
  | a :: p' =>
      match s with
      | [] => None
      | c :: s' =>
          let ok := match a with
                    | Lit b => Byte.eqb b c
                    | Any => true
                    | OneOf bs => existsb (Byte.eqb c) bs
                    | Not b => negb (Byte.eqb b c)
                    | NotAhead _ => false
                    end in
          if ok then option_map (Z.add 1) (match_here p' s') else None
      end
  end.

Fixpoint search_from (p : pattern) (s : bytes) (i : Z) : option (Z * Z) :=
  match match_here p s with
  | Some n => Some (i, i + n)
  | None =>
      match s with
      | [] => None
      | _ :: s' => search_from p s' (i + 1)
      end
  end.

(** [p.search(data, pos, endpos)]: the first match that starts at or
    after [pos] in [data[:endpos]], as (start, end). *)
Definition search_in (p : pattern) (data : bytes) (pos endpos : Z) : option (Z * Z) :=
  let s := firstn (Z.to_nat endpos) data in
  let pos := Z.max 0 pos in
  if len s <? pos then None
  else search_from p (skipn (Z.to_nat pos) s) pos.

(** [re.search(p, data, re.DOTALL)]. *)
Definition search (p : pattern) (data : bytes) : option (Z * Z) :=
  search_from p data 0.

End Re.

(* ================================================================== *)
(** ** mgz/fast/header.py                                              *)
(* ================================================================== *)

Module Header.
Import Py Rt Struct Re.
Local Open Scope string_scope.
Local Open Scope Z_scope.
Local Open Scope list_scope.
Local Open Scope py_scope.

Definition ZLIB_WBITS : Z := -15.
Definition HEXDUMP_CONTEXT : Z := 500.

(** The marker is written as bytes and used as a pattern, where its
    ninth byte, [.] (0x2e), stands for any byte. *)
Definition PLAYER_END : pattern :=
  literal (repeat xff 8) ++ [Any] ++ literal (repeat x00 16) ++ [Lit x0b].

Definition CLASSES : list byte := [x0a; x1e; x46; x50; x14].
Definition BLOCK_END : bytes := [x00; x0b].

(** 647: junk DE object, thousands per file. *)
Definition SKIP_OBJECTS : list (bytes * Z) := [([x1e; x00; x87; x02], 252)].

(** [REGEXES[i]] as [_compile_object_search] fills it, for [i] in
    [range(9)]; any other key is missing. *)
Definition REGEXES (i : Z) : option pattern :=
  if (0 <=? i) && (i <? 9) then
    match Byte.of_N (Z.to_N i) with
    | Some b =>
        Some ([OneOf CLASSES; Lit b; NotAhead [xff; xff]; NotAhead [x00; x00];
               Any; Any; Any; Any; Lit xff; Lit xff; Lit xff; Lit xff; Not xff])
    | None => None
    end
  else None.

(** Read AOC string. *)
Definition aoc_string : M bytes :=
  '(VInt length) <- unpack "<h" ;;
  read length.

(** Read length prefixed (4 byte) string. *)
Definition int_prefixed_string : M bytes :=
  '(VInt length) <- unpack "<I" ;;
  read length.

Definition magic_mismatch (who : string) (pos : Z) (got : bytes) : string :=
  (who ++ " magic mismatch at pos " ++ dec pos ++ ": expected 60 0a, got '"
       ++ hex got ++ "'")%string.

(** Read DE string. *)
Definition de_string : M bytes :=
  pos <- tell ;;
  got <- read 2 ;;
  if negb (bytes_eqb got [x60; x0a]) then
    raise ValueError (magic_mismatch "de_string" pos got)
  else
    '(VInt length) <- unpack "<h" ;;
    '(VBytes s) <- unpack ("<" ++ dec length ++ "s")%string ;;
    ret s.

(** Read HD string. *)
Definition hd_string : M bytes :=
  '(VInt length) <- unpack "<h" ;;
  pos <- tell ;;
  got <- read 2 ;;
  if negb (bytes_eqb got [x60; x0a]) then
    raise ValueError (magic_mismatch "hd_string" pos got)
  else
    '(VBytes s) <- unpack ("<" ++ dec length ++ "s")%string ;;
    ret s.

(** Parse an object. *)
Definition parse_object (data : bytes) (offset : Z) : result dict :=
  fields <~ unpack_from "<bxH14xIxff" data offset ;;
  match fields with
  | [class_id; object_id; instance_id; pos_x; pos_y] =>
      Ok [("class_id", class_id);
          ("object_id", object_id);
          ("instance_id", instance_id);
          ("position", VDict [("x", pos_x); ("y", pos_y)])]
  | _ => builtin ValueError
  end.

(** The inner loop of [object_block]:
    [while end + 8 < offset: end += data.find(BLOCK_END, pos + end) - (pos + end) + len(BLOCK_END)].
    Nothing bounds it, so it runs on fuel. *)
Fixpoint next_block_end (fuel : nat) (data : bytes) (pos end_ offset : Z) : result Z :=
  if end_ + 8 <? offset then
    match fuel with
    | O => Diverge
    | S fuel' =>
        next_block_end fuel' data pos
          (end_ + (find BLOCK_END data (pos + end_) - (pos + end_) + len BLOCK_END)) offset
    end
  else Ok end_.

(** The [while True] loop of [object_block].  [offset] is [None] on every
    entry of the loop body (it starts so and is reset at the end of the
    body), so the block under [if not offset] always runs; the skip table
    is searched by the [for ... else]. *)
Fixpoint object_block_loop (fuel : nat) (data : bytes) (player_number : Z) (index : Z)
    (pos : Z) (objects : list val) : result (list val * Z) :=
  match fuel with
  | O => Diverge
  | S fuel' =>
      match REGEXES player_number with
      | None => builtin KeyError
      | Some regex =>
          let match_ := search_in regex data pos (pos + 10000) in
          let end_ := find BLOCK_END data pos - pos + len BLOCK_END in
          match match_ with
          | None => Ok (objects, pos + end_)
          | Some (match_start, _) =>
              let offset := match_start - pos in
              end_ <~ next_block_end fuel' data pos end_ offset ;;
              if end_ + 8 =? offset then Ok (objects, pos + end_)
              else
                let pos := pos + offset in
                (* Speed optimization: Skip specified fixed-length objects. *)
                let test := slice data pos (pos + 4) in
                objects <~ (if existsb (fun fp => bytes_eqb test (fst fp)) SKIP_OBJECTS
                            then Ok objects
                            else
                              o <~ parse_object data pos ;;
                              Ok (objects ++ [VDict (dict_set o "index" (VInt index))])) ;;
                let pos := pos + 31 in
                object_block_loop fuel' data player_number index pos objects
          end
      end
  end.

(** Parse a block of objects. *)
Definition object_block (fuel : nat) (data : bytes) (pos : Z) (player_number index : Z)
  : result (list val * Z) :=
  object_block_loop fuel data player_number index pos [].

(** Parse Userpatch mod version. *)
Definition parse_mod (num_players : Z) (version : Version) : M val :=
  cur <- tell ;;
  '(VInt name_length) <- unpack ("<xx" ++ dec num_players ++ "x36x5xh")%string ;;
  '(VInt resources) <- unpack ("<" ++ dec (name_length + 1) ++ "xIx")%string ;;
  values <- unpack ("<" ++ dec resources ++ "f")%string ;;
  seek cur ;;
  if Version_eqb version USERPATCH15 then
    x <- lift (getitem values 198) ;;
    number <- lift (int_ x) ;;
    ret (VTuple [VInt (number / 1000);
                 VStr (join (u ".") (chars (u (dec (number mod 1000)))))])
  else ret VNone.

(** The start of a player's objects:
    [b'\x0b\x00.\x00\x00\x00\x02\x00\x00'] under re.DOTALL. *)
Definition OBJECT_START : pattern :=
  [Lit x0b; Lit x00; Any; Lit x00; Lit x00; Lit x00; Lit x02; Lit x00; Lit x00].

Definition is_some {A} (o : option A) : bool :=
  match o with Some _ => true | None => false end.

(** First part of [parse_player]: the fixed fields and the object blocks,
    up to [header.seek(offset + end)].  It returns the fields of the
    player record. *)
Definition parse_player_objects (fuel : nat) (player_number num_players : Z) (save : float)
  : M dict :=
  let rep := if fge save (flt "61.5") then num_players else 9 in
  '(VTuple (type_ :: rest)) <-
     unpack ("<bx" ++ dec num_players ++ "x" ++ dec rep ++ "i5xh")%string ;;
  match rev rest with
  | VInt name_length :: rev_diplomacy =>
      let diplomacy := rev rev_diplomacy in
      '(VTuple [name; VInt resources]) <-
         unpack ("<" ++ dec (name_length - 1) ++ "s2xIx")%string ;;
      let resources_len := if fge save (flt "63") then 8 else 4 in
      _ <- read (resources * resources_len) ;;
      '(VTuple [start_x; start_y; civilization_id; color_id]) <- unpack "<xff9xb3xbx" ;;
      offset <- tell ;;
      data <- read_all ;;
      (* Skips thousands of bytes that are not easy to parse. *)
      match search OBJECT_START data with
      | None => raise RuntimeError "could not find object start"
      | Some (_, start) =>
          '(objects, end_) <-- lift (object_block fuel data start player_number 0) ;;
          '(sleeping, end_) <-- lift (object_block fuel data end_ player_number 1) ;;
          '(doppel, end_) <-- lift (object_block fuel data end_ player_number 2) ;;
          let end_ := if bytes_eqb (slice data (end_ + 8) (end_ + 10)) BLOCK_END
                      then end_ + 10 else end_ in
          let end_ := if bytes_eqb (slice data end_ (end_ + 2)) BLOCK_END
                      then end_ + 2 else end_ in
          seek (offset + end_) ;;
          ret [("number", VInt player_number);
               ("type", type_);
               ("name", name);
               ("diplomacy", VList diplomacy);
               ("civilization_id", civilization_id);
               ("color_id", color_id);
               ("objects", VList (objects ++ sleeping ++ doppel));
               ("position", VDict [("x", start_x); ("y", start_y)])]
      end
  | _ => raise ValueError "not enough values to unpack"
  end.

(** Second part of [parse_player], under [if save >= 37]: the device byte
    and the jump to the end of the player data. *)
Definition parse_player_end (player_number num_players : Z) : M val :=
  offset <- tell ;;
  data <- read 100 ;;
  device <- lift (getitem (VBytes data) 8) ;;
  (* Jump to the end of player data *)
  let player_end := search PLAYER_END data in
  '(offset, player_end) <--
     (if negb (is_some player_end) then
        (* Normally this is 26 bytes in, but in some cases it can be tens of
           thousands of bytes. So we have to read() everything *)
        offset <- tell ;;
        data <- read_all ;;
        let player_end := search PLAYER_END data in
        if negb (is_some player_end) && (player_number <? num_players - 1) then
          (* this issue happens on restored games: only a failure if this is
             not the last player, since we seek to the next block anyway *)
          raise RuntimeError "could not find player end"
        else ret (offset, player_end)
      else ret (offset, player_end)) ;;
  match player_end with
  | Some (_, e) => seek (offset + e) ;; ret device
  | None => ret device
  end.

(** Parse a player (and objects); the result is the record and the
    device. *)
Definition parse_player (fuel : nat) (player_number num_players : Z) (save : float)
  : M (val * val) :=
  player <- parse_player_objects fuel player_number num_players save ;;
  device <- (if fge save (flt "37") then parse_player_end player_number num_players
             else ret (VInt 0)) ;;
  ret (VDict player, device).

(** [data.read(n)] where the bytes are dropped. *)
Definition read_ (n : Z) : M unit := _ <- read n ;; ret tt.

(** Parse lobby data. *)
Definition parse_lobby (version : Version) (save : float) : M val :=
  when (Version_eqb version DE)
    (read_ 5 ;;
     when (fge save (flt "20.06")) (read_ 9) ;;
     when (fge save (flt "26.16")) (read_ 5) ;;
     when (fge save (flt "37")) (read_ 8) ;;
     when (fge save (flt "64.3")) (read_ 16) ;;
     when (fge save (flt "66.3")) (read_ 1)) ;;
  read_ 8 ;;
  when (negb (de_or_hd version)) (read_ 1) ;;
  '(VTuple [VInt reveal_map_id; VInt map_size; VInt population;
            VInt game_type_id; VInt lock_teams]) <- unpack "I4xIIbb" ;;
  when (de_or_hd version)
    (read_ 5 ;;
     when (fge save (flt "13.13")) (read_ 4) ;;
     when (fge save (flt "25.22")) (read_ 1)) ;;
  '(VInt chat_count) <- unpack "<I" ;;
  chat <- for_range chat_count
            (fun _ chat =>
               '(VInt n) <- unpack "<I" ;;
               raw <- read n ;;
               let message := strip x00 raw in
               ret (if 0 <? len message then chat ++ [VBytes message] else chat))
            [] ;;
  seed <- (if Version_eqb version DE then unpack "<i" else ret VNone) ;;
  ret (VDict
         [("reveal_map_id", VInt reveal_map_id);
          ("map_size", VInt map_size);
          ("population", VInt (population * (if negb (de_or_hd version) then 25 else 1)));
          ("game_type_id", VInt game_type_id);
          ("lock_teams", VBool (lock_teams =? 1));
          ("chat", VList chat);
          ("seed", seed)]).

(** Parse map. *)
Definition parse_map (version : Version) (save : float) : M val :=
  tile_format <-
    (if Version_eqb version DE then
       read_ 8 ;;
       ret (if fge save (flt "62.0") then "<bxxb6x" else "<bxb6x")
     else ret "<xbbx") ;;
  '(VTuple [VInt size_x; VInt size_y; VInt zone_num]) <- unpack "<III" ;;
  let tile_num := size_x * size_y in
  repeat_ zone_num
    (read_ (if de_or_hd version then 2048 + tile_num * 2 else 1275 + tile_num) ;;
     '(VInt num_floats) <- unpack "<I" ;;
     read_ (num_floats * 4) ;;
     read_ 4) ;;
  '(VInt all_visible) <- unpack "<bx" ;;
  tiles <- for_range tile_num
             (fun _ tiles => t <- unpack tile_format ;; ret (tiles ++ [t])) [] ;;
  '(VInt num_data) <- unpack "<I4x" ;;
  read_ (num_data * 4) ;;
  repeat_ num_data
    ('(VInt num_obs) <- unpack "<I" ;;
     read_ (num_obs * 8)) ;;
  '(VTuple [VInt x2; VInt y2]) <- unpack "<II" ;;
  read_ (x2 * y2 * 4) ;;
  when (fge save (flt "61.5")) (read_ (x2 * y2 * 4)) ;;
  restore_time <- unpack "<I" ;;
  ret (VDict
         [("all_visible", VBool (all_visible =? 1));
          ("restore_time", restore_time);
          ("dimension", VInt size_x);
          ("tiles", VList tiles)]).

(** The settings version a DE save is expected to carry. *)
Definition settings_version (save : float) : float :=
  if fge save (flt "66.3") then flt "4.5"
  else if fge save (flt "64.3") then flt "4.1"
  else if fge save (flt "63") then flt "3.9"
  else if fge save (flt "61.5") then flt "3.6"
  else if fge save (flt "37") then flt "3.5"
  else if fge save (flt "26.21") then flt "3.2"
  else if fge save (flt "26.16") then flt "3.0"
  else if fge save (flt "25.22") then flt "2.6"
  else if fge save (flt "25.06") then flt "2.5"
  else if fge save (flt "13.34") then flt "2.4"
  else flt "2.2".

(** The end of the scenario's fixed part in [parse_scenario]: the rest of
    the header is read, the settings version is looked for in it and the
    stream is moved back to just after it. *)
Definition settings_anchor (version : Version) (save : float) : M unit :=
  remainder <- read_all ;;
  let end_ :=
    if Version_eqb version DE
    then find (pack_d (settings_version save)) remainder 0 + 8
    else find [x9a; x99; x99; x99; x99; x99; xf9; x3f] remainder 0 + 13 in
  seek_cur (end_ - len remainder).

(** Parse scenario section. *)
Definition parse_scenario (num_players : Z) (version : Version) (save : float) : M val :=
  scenario_version <- unpack "<f" ;;
  read_ 4 ;;
  when (fge save (flt "61.5"))
    (read_ 4 ;;
     when (flt_ save (flt "66.6")) (read_ 4)) ;;
  read_ (16 * 256) ;;
  read_ (16 * 4) ;;
  when (fge save (flt "66.6"))
    (repeat_ 16
       (read_ 8 ;;
        _ <- de_string ;;
        _ <- de_string ;;
        read_ 4)) ;;
  when (fge save (flt "61.5") && flt_ save (flt "66.6")) (read_ 64) ;;
  when (flt_ save (flt "66.6"))
    (repeat_ 16
       (read_ 12 ;;
        when (fge save (flt "13.34")) (read_ 4) ;;
        read_ 4)) ;;
  read_ 1 ;;
  elapsed_time <- unpack "<f" ;;
  when (Version_eqb version DE) (read_ 64) ;;
  when (fge save (flt "66.6")) (read_ 68) ;;
  scenario_filename <- aoc_string ;;
  read_ 24 ;;
  instructions <- aoc_string ;;
  repeat_ 9 (_ <- aoc_string ;; ret tt) ;;
  read_ 78 ;;
  repeat_ 16 (_ <- aoc_string ;; ret tt) ;;
  read_ 196 ;;
  repeat_ 16
    (read_ 24 ;;
     when (de_or_hd version) (read_ 4)) ;;
  read_ 12672 ;;
  (if Version_eqb version DE then read_ 196
   else repeat_ 16 (read_ 332)) ;;
  when (Version_eqb version HD) (read_ 644) ;;
  read_ 88 ;;
  when (Version_eqb version HD) (read_ 16) ;;
  '(VTuple [map_id; difficulty_id]) <- unpack "<II" ;;
  settings_anchor version save ;;
  when (Version_eqb version DE)
    (read_ 1 ;;
     '(VInt n_triggers) <- unpack "<I" ;;
     repeat_ n_triggers
       (read_ 22 ;;
        read_ 4 ;;
        description <- int_prefixed_string ;;
        name <- int_prefixed_string ;;
        short_description <- int_prefixed_string ;;
        '(VInt n_effects) <- unpack "<I" ;;
        repeat_ n_effects
          (read_ 216 ;;
           text <- int_prefixed_string ;;
           sound <- int_prefixed_string ;;
           ret tt) ;;
        read_ (n_effects * 4) ;;
        '(VInt n_condition) <- unpack "<I" ;;
        read_ (n_condition * 125)) ;;
     trigger_list_order <- unpack ("<" ++ dec n_triggers ++ "I")%string ;;
     read_ 1032) ;;
  ret (VDict
         [("map_id", map_id);
          ("difficulty_id", difficulty_id);
          ("instructions", VBytes instructions);
          ("scenario_filename", VBytes scenario_filename)]).

(** The [while True] loop of [string_block]; every round reads four
    bytes, so the length of the buffer bounds it. *)
Fixpoint string_block_loop (fuel : nat) (strings : list (list str)) : M (list (list str)) :=
  match fuel with
  | O => fun _ => Diverge
  | S fuel' =>
      '(VInt crc) <- unpack "<I" ;;
      if (crc <? 255) && (0 <? crc) then ret strings
      else
        s <- de_string ;;
        text <- lift (decode_utf8 s) ;;
        string_block_loop fuel' (strings ++ [split 58 text])
  end.

(** Parse DE header string block. *)
Definition string_block : M (list (list str)) :=
  fun data => string_block_loop (S (List.length (getvalue data))) [] data.

(** One round of the player loop of [parse_de]. *)
Definition de_player_slot (save : float) : M val :=
  read_ 4 ;;
  color_id <- unpack "<i" ;;
  read_ 2 ;;
  team_id <- unpack "<b" ;;
  read_ 9 ;;
  civilization_id <- unpack "<I" ;;
  custom_civ_selection <-
    (if fge save (flt "61.5") then
       '(VInt custom_civ_count) <- unpack "<I" ;;
       if fge save (flt "63.0") && (0 <? custom_civ_count) then
         ids <- for_range custom_civ_count
                  (fun _ ids => id <- unpack "<I" ;; ret (ids ++ [id])) [] ;;
         ret (VList ids)
       else ret VNone
     else ret VNone) ;;
  _ <- de_string ;;
  read_ 1 ;;
  ai_name <- de_string ;;
  censored_name <- (if fge save (flt "66.3") then
                      s <- de_string ;; ret (VBytes s)
                    else ret VNone) ;;
  name <- de_string ;;
  type <- unpack "<I" ;;
  '(VTuple [profile_id; number]) <- unpack "<I4xi" ;;
  when (flt_ save (flt "25.22")) (read_ 8) ;;
  '(VInt prefer_random) <- unpack "b" ;;
  read_ 1 ;;
  when (fge save (flt "25.06")) (read_ 8) ;;
  when (fge save (flt "64.3")) (read_ 4) ;;
  when (fge save (flt "67.2")) (_ <- de_string ;; ret tt) ;;
  ret (VDict
         [("number", number);
          ("color_id", color_id);
          ("team_id", team_id);
          ("ai_name", VBytes ai_name);
          ("name", VBytes name);
          ("censored_name", if fge save (flt "66.3") then censored_name else VBytes name);
          ("type", type);
          ("profile_id", profile_id);
          ("civilization_id", civilization_id);
          ("custom_civ_selection", custom_civ_selection);
          ("prefer_random", VBool (prefer_random =? 1))]).

(** One round of the loop of [parse_de] over the empty player slots. *)
Definition de_empty_slot (save : float) : M unit :=
  when (fge save (flt "61.5")) (read_ 4) ;;
  read_ 12 ;;
  _ <- de_string ;;
  read_ 1 ;;
  _ <- de_string ;;
  _ <- de_string ;;
  read_ 38 ;;
  when (fge save (flt "64.3")) (read_ 4).

Definition str_at (s : list str) (i : nat) : result str :=
  match nth_error s i with
  | Some x => Ok x
  | None => builtin IndexError
  end.

(** The last loop of [parse_de]: the random-map entry of the string
    table, as ([rms_mod_id], [rms_filename]). *)
Fixpoint rms_entry (strings : list (list str)) (found : val * val) : result (val * val) :=
  match strings with
  | [] => Ok found
  | s :: rest =>
      s0 <~ str_at s 0 ;;
      if str_eqb s0 (u "SUBSCRIBEDMODS") then
        s1 <~ str_at s 1 ;;
        if str_eqb s1 (u "RANDOM_MAPS") then
          s3 <~ str_at s 3 ;;
          s2 <~ str_at s 2 ;;
          rms_entry rest (VStr (hd [] (split 95 s3)), VStr s2)
        else rms_entry rest found
      else rms_entry rest found
  end.

(** [str(uuid.UUID(bytes=guid))]. *)
Definition uuid_str (guid : bytes) : result str :=
  if len guid =? 16 then
    let h := hex guid in
    Ok (u (substring 0 8 h ++ "-" ++ substring 8 4 h ++ "-" ++ substring 12 4 h
           ++ "-" ++ substring 16 4 h ++ "-" ++ substring 20 12 h)%string)
  else Raise (Exn ValueError "bytes is not a 16-char string").

(** [x - 2 if x > 0 else 0]. *)
Definition age (x : Z) : Z := if 0 <? x then x - 2 else 0.

(** Parse DE-specific header. *)
Definition parse_de (version : Version) (save : float) (skip : bool) : M val :=
  if negb (Version_eqb version DE) then ret VNone
  else
  build <- (if fge save (flt "25.22") && negb skip then unpack "<I" else ret VNone) ;;
  timestamp <- (if fge save (flt "26.16") && negb skip then unpack "<I" else ret VNone) ;;
  read_ 12 ;;
  '(VInt dlc_count) <- unpack "<I" ;;
  dlc_ids <- for_range dlc_count
               (fun _ dlc_ids => id <- unpack "<I" ;; ret (dlc_ids ++ [id])) [] ;;
  read_ 4 ;;
  (* [map_dimension] from 61.5 on, [difficulty_id] before *)
  word <- unpack "<I" ;;
  let difficulty_id := if fge save (flt "61.5") then VNone else word in
  read_ 4 ;;
  rms_map_id <- unpack "<I" ;;
  read_ 4 ;;
  victory_type_id <- unpack "<I" ;;
  starting_resources_id <- unpack "<I" ;;
  '(VInt starting_age_id) <- unpack "<I" ;;
  '(VInt ending_age_id) <- unpack "<I" ;;
  read_ 12 ;;
  speed <- unpack "<f" ;;
  treaty_length <- unpack "<I" ;;
  population_limit <- unpack "<I" ;;
  '(VInt num_players) <- unpack "<I" ;;
  read_ 14 ;;
  difficulty_id <- (if fge save (flt "61.5") then unpack "<B" else ret difficulty_id) ;;
  '(VTuple [random_positions; all_technologies]) <- unpack "<bb" ;;
  read_ 1 ;;
  lock_teams <- unpack "<b" ;;
  lock_speed <- unpack "<b" ;;
  multiplayer <- unpack "<b" ;;
  cheats <- unpack "<b" ;;
  record_game <- unpack "<b" ;;
  animals_enabled <- unpack "<b" ;;
  predators_enabled <- unpack "<b" ;;
  turbo_enabled <- unpack "<b" ;;
  shared_exploration <- unpack "<b" ;;
  team_positions <- unpack "<b" ;;
  read_ 12 ;;
  when (fge save (flt "25.06")) (read_ 1) ;;
  when (fgt save (flt "50")) (read_ 1) ;;
  let num_player_entries :=
    if fgt (flt "66.3") save && fge save (flt "37") then num_players else 8 in
  players <- for_range num_player_entries
               (fun _ players => p <- de_player_slot save ;; ret (players ++ [p])) [] ;;
  read_ 12 ;;
  when (fgt (flt "66.3") save && fge save (flt "37"))
    (let empty_slots := 8 - num_players in
     repeat_ empty_slots (de_empty_slot save)) ;;
  read_ 4 ;;
  '(VInt rated) <- unpack "b" ;;
  allow_specs <- unpack "b" ;;
  visibility <- unpack "<I" ;;
  hidden_civs <- unpack "b" ;;
  read_ 1 ;;
  spec_delay <- unpack "<I" ;;
  read_ 1 ;;
  strings <- string_block ;;
  read_ 8 ;;
  strings <- for_range 20
               (fun _ strings => more <- string_block ;; ret (strings ++ more)) strings ;;
  read_ 4 ;;
  when (flt_ save (flt "25.22")) (read_ 236) ;;
  when (fge save (flt "25.22"))
    (seek_cur (-4) ;;
     '(VInt l) <- unpack "<I" ;;
     read_ (l * 4)) ;;
  '(VInt unknown_entries) <- unpack "<Q" ;;
  repeat_ unknown_entries
    (read_ 4 ;;
     _ <- de_string ;;
     read_ 4) ;;
  when (fge save (flt "25.02")) (read_ 8) ;;
  guid <- read 16 ;;
  lobby <- de_string ;;
  when (fge save (flt "25.22")) (read_ 8) ;;
  mod_ <- de_string ;;
  read_ 33 ;;
  when (fge save (flt "20.06")) (read_ 1) ;;
  when (fge save (flt "20.16")) (read_ 8) ;;
  when (fge save (flt "25.06")) (read_ 21) ;;
  when (fge save (flt "25.22")) (read_ 4) ;;
  when (fge save (flt "26.16")) (read_ 8) ;;
  when (fge save (flt "37")) (read_ 3) ;;
  when (fgt save (flt "50")) (read_ 8) ;;
  when (fge save (flt "61.5")) (read_ 1) ;;
  when (fge save (flt "63")) (read_ 5) ;;
  when (fge save (flt "66.3"))
    ('(VInt c) <- unpack "<I" ;;
     read_ 12 ;;
     read_ (c * 4)) ;;
  when (negb skip) (_ <- de_string ;; ret tt) ;;
  when (fge save (flt "67.2"))
    (_ <- de_string ;;
     _ <- de_string ;;
     ret tt) ;;
  read_ 8 ;;
  timestamp <- (if negb skip && fge save (flt "37") then
                  '(VTuple [timestamp; x]) <- unpack "<II" ;; ret timestamp
                else ret timestamp) ;;
  '(rms_mod_id, rms_filename) <-- lift (rms_entry strings (VNone, VNone)) ;;
  guid_str <- lift (uuid_str guid) ;;
  lobby_str <- lift (decode_utf8 lobby) ;;
  mod_str <- lift (decode_utf8 mod_) ;;
  ret (VDict
         [("players", VList players);
          ("guid", VStr guid_str);
          ("hash", VSha1 guid);
          ("lobby", VStr lobby_str);
          ("mod", VStr mod_str);
          ("difficulty_id", difficulty_id);
          ("victory_type_id", victory_type_id);
          ("starting_resources_id", starting_resources_id);
          ("starting_age_id", VInt (age starting_age_id));
          ("ending_age_id", VInt (age ending_age_id));
          ("speed", speed);
          ("population_limit", population_limit);
          ("treaty_length", treaty_length);
          ("team_together", VBool (negb (truthy random_positions)));
          ("all_technologies", VBool (truthy all_technologies));
          ("lock_teams", VBool (truthy lock_teams));
          ("lock_speed", VBool (truthy lock_speed));
          ("multiplayer", VBool (truthy multiplayer));
          ("cheats", VBool (truthy cheats));
          ("record_game", VBool (truthy record_game));
          ("animals_enabled", VBool (truthy animals_enabled));
          ("predators_enabled", VBool (truthy predators_enabled));
          ("turbo_enabled", VBool (truthy turbo_enabled));
          ("shared_exploration", VBool (truthy shared_exploration));
          ("team_positions", VBool (truthy team_positions));
          ("build", build);
          ("timestamp", timestamp);
          ("spec_delay", spec_delay);
          ("rated", VBool (rated =? 1));
          ("allow_specs", VBool (truthy allow_specs));
          ("hidden_civs", VBool (truthy hidden_civs));
          ("visibility_id", visibility);
          ("rms_mod_id", rms_mod_id);
          ("rms_map_id", rms_map_id);
          ("rms_filename", rms_filename);
          ("dlc_ids", VList dlc_ids)]).

(** One round of the player loop of [parse_hd]. *)
Definition hd_player_slot (players : list val) : M (list val) :=
  read_ 4 ;;
  color_id <- unpack "<i" ;;
  read_ 12 ;;
  civilization_id <- unpack "<I" ;;
  _ <- hd_string ;;
  read_ 1 ;;
  _ <- hd_string ;;
  name <- hd_string ;;
  read_ 4 ;;
  '(VTuple [steam_id; number]) <- unpack "<Qi" ;;
  read_ 8 ;;
  if truthy (VBytes name) then
    ret (players ++
         [VDict [("number", number);
                 ("color_id", color_id);
                 ("name", VBytes name);
                 ("profile_id", steam_id);
                 ("civilization_id", civilization_id)]])
  else ret players.

(** Parse HD-specifc header. *)
Definition parse_hd (version : Version) (save : float) : M val :=
  if negb (Version_eqb version HD) || fle save (flt "12.34") then ret VNone
  else
  read_ 12 ;;
  '(VInt dlc_count) <- unpack "<I" ;;
  read_ (dlc_count * 4) ;;
  read_ 4 ;;
  '(VTuple [difficulty_id; map_id]) <- unpack "<II" ;;
  read_ 80 ;;
  players <- for_range 8 (fun _ players => hd_player_slot players) [] ;;
  read_ 26 ;;
  _ <- hd_string ;;
  read_ 8 ;;
  _ <- hd_string ;;
  read_ 8 ;;
  _ <- hd_string ;;
  read_ 8 ;;
  guid <- read 16 ;;
  lobby <- hd_string ;;
  mod_ <- hd_string ;;
  read_ 8 ;;
  _ <- hd_string ;;
  read_ 4 ;;
  guid_str <- lift (uuid_str guid) ;;
  lobby_str <- lift (decode_utf8 lobby) ;;
  mod_str <- lift (decode_utf8 mod_) ;;
  ret (VDict
         [("players", VList players);
          ("guid", VStr guid_str);
          ("lobby", VStr lobby_str);
          ("mod", VStr mod_str);
          ("map_id", map_id);
          ("difficulty_id", difficulty_id)]).

Definition gaia (version : Version) : bytes :=
  if de_or_hd version then [x47; x61; x69; x61]    (* b'Gaia' *)
  else [x47; x41; x49; x41].                        (* b'GAIA' *)

(** The start of [parse_players]: the stream is moved to a fixed
    distance before the name of the first player, Gaia. *)
Definition seek_gaia (num_players : Z) (version : Version) (save : float) : M unit :=
  cur <- tell ;;
  rest <- read_all ;;
  let anchor := find ([x05; x00] ++ gaia version ++ [x00]) rest 0 in
  let rev := if fge save (flt "61.5") then 7 + num_players * 4 else 43 in
  let target := cur + anchor - num_players - rev in
  seek target.

(** The rest of [parse_players], from [parse_mod] on. *)
Definition parse_players_from_gaia (fuel : nat) (num_players : Z) (version : Version)
    (save : float) : M (val * val * val) :=
  mod_ <- parse_mod num_players version ;;
  players <- for_range num_players
               (fun number players =>
                  p <- parse_player fuel number num_players save ;;
                  ret (players ++ [p])) [] ;;
  cur <- tell ;;
  let pv := if fge save (flt "61.5") then [x66; x66; x06; x40] else [x00; x00; x00; x40] in
  rest <- read_all ;;
  let points_version := find pv rest 0 in
  seek cur ;;
  read_ points_version ;;
  repeat_ num_players
    (pver <- unpack "<f" ;;
     '(VInt entries) <- unpack "<i" ;;
     read_ (5 + entries * 44) ;;
     '(VInt points) <- unpack "<i" ;;
     read_ (8 + points * 32)) ;;
  match players with
  | (_, device) :: _ => ret (VList (map fst players), mod_, device)
  | [] => raise IndexError ""
  end.

(** Parse all players. *)
Definition parse_players (fuel : nat) (num_players : Z) (version : Version) (save : float)
  : M (val * val * val) :=
  seek_gaia num_players version save ;;
  parse_players_from_gaia fuel num_players version save.

(** Parse recorded game metadata; the result is the record and the
    number of players. *)
Definition parse_metadata (save : float) (skip_ai : bool) : M (val * Z) :=
  '(VInt ai) <- unpack "<I" ;;
  when (0 <? ai)
    (if negb skip_ai then raise RuntimeError "don't know how to parse ai"
     else
       offset <- tell ;;
       data <- read_all ;;
       (* Jump to the end of ai data *)
       match search (literal (repeat x00 4096)) data with
       | None => raise RuntimeError "could not find ai end"
       | Some (_, ai_end) => seek (offset + ai_end)
       end) ;;
  '(VTuple [game_speed; owner_id; VInt num_players; VInt cheats]) <- unpack "<24xf17xhbxb" ;;
  (if flt_ save (flt "61.5") then read_ 60
   else read_ (24 + num_players * 4)) ;;
  ret (VDict [("speed", game_speed);
              ("owner_id", owner_id);
              ("cheats", VBool (cheats =? 1))],
       num_players).

(** [str(version)], as the f-string of [parse] prints it: the name of
    the class and the name of the member. *)
Definition version_name (v : Version) : string :=
  match v with
  | AOK => "Version.AOK" | AOC => "Version.AOC"
  | USERPATCH15 => "Version.USERPATCH15" | HD => "Version.HD" | DE => "Version.DE"
  | MCP => "Version.MCP" | TRIAL => "Version.TRIAL"
  | OtherVersion name => ("Version." ++ name)%string
  end.

(** The exceptions that [parse] turns into its own. *)
Definition caught (c : exn_class) : bool :=
  match c with
  | struct_error | zlib_error | AssertionError | MemoryError
  | ValueError | UnicodeDecodeError => true
  | _ => false
  end.

Section Collaborators.

(** [zlib.decompress(b, wbits=ZLIB_WBITS)]: raw DEFLATE, [None] for a
    corrupt stream. *)
Variable inflate : bytes -> option bytes.

(** Modelled from the spec: [mgz.util.get_version], the table keyed on
    the game tag, the rounded save version and the log version ("the
    exact table is external data"). *)
Variable get_version : str -> float -> Z -> result Version.

(** Decompress header bytes: runs on the raw file and returns the stream
    of the header. *)
Definition decompress : M BytesIO :=
  let prefix_size := 8 in
  '(VTuple [VInt header_len; VInt chapter_address]) <- unpack "<II" ;;
  zlib_header <- read (header_len - prefix_size) ;;
  match inflate zlib_header with
  | Some decompressed => ret (BytesIO_of decompressed)
  | None => raise zlib_error ""
  end.

(** The reads of [parse_version] on the header. *)
Definition header_version (log : Z) : M (Version * str * float * Z) :=
  '(VTuple [VBytes game; VFloat save]) <- unpack "<7sxf" ;;
  save <- (if feq save (float_of_Z (-1)) then
             '(VInt save) <- unpack "<I" ;;
             ret (if save =? 37 then flt "37.0" else truediv save (2 ^ 16))
           else ret save) ;;
  game_version <- lift (decode_ascii game) ;;
  version <- lift (get_version game_version (round2 save) log) ;;
  ret (version, game_version, round2 save, log).

(** Parse and compute game version: runs on the raw file, and returns
    the header stream after its own reads as well. *)
Definition parse_version (header : BytesIO) : M (Version * str * float * Z * BytesIO) :=
  '(VInt log) <- unpack "<I" ;;
  '(version, game, save, log, header) <-- lift (header_version log header) ;;
  ret (version, game, save, log, header).

Definition supported (v : Version) : bool :=
  Version_eqb v USERPATCH15 || Version_eqb v DE || Version_eqb v HD.

(** The body of the [try] of [parse]. *)
Definition parse_try (fuel : nat) (data : BytesIO) : result dict :=
  '(header, data) <~ decompress data ;;
  '(version, game, save, log, header, data) <~ parse_version header data ;;
  if negb (supported version) then
    Raise (Exn RuntimeError (version_name version ++ " not supported")%string)
  else
    '(fields, header) <~
      (de <- parse_de version save false ;;
       hd <- parse_hd version save ;;
       '(metadata, num_players) <-- parse_metadata save true ;;
       map_ <- parse_map version save ;;
       '(players, mod_, device) <-- parse_players fuel num_players version save ;;
       scenario <- parse_scenario num_players version save ;;
       lobby <- parse_lobby version save ;;
       ret [("version", VVersion version);
            ("game_version", VStr game);
            ("save_version", VFloat save);
            ("log_version", VInt log);
            ("players", players);
            ("map", map_);
            ("de", de);
            ("hd", hd);
            ("mod", if truthy de
                    then match de with VDict d => dict_get d "dlc_ids" | _ => VNone end
                    else mod_);
            ("metadata", metadata);
            ("scenario", scenario);
            ("lobby", lobby);
            ("device", device)]) header ;;
    Ok fields.

(** Parse recorded game header. *)
Definition parse (fuel : nat) (data : BytesIO) : result val :=
  match parse_try fuel data with
  | Ok fields => Ok (VDict fields)
  | Raise e =>
      if caught (exn_class_of e)
      then Raise (Exn RuntimeError ("could not parse: " ++ exn_msg e)%string)
      else Raise e
  | Diverge => Diverge
  end.

End Collaborators.

End Header.

(* ================================================================== *)
(** ** mgz/cli/extract.py and mgz/cli/dump.py                          *)
(* ================================================================== *)

Module Cli.
Import Py Rt Struct Re Header.
Local Open Scope string_scope.
Local Open Scope Z_scope.
Local Open Scope list_scope.
Local Open Scope py_scope.

(** A function of the command-line tools returns a value or ends the
    process with [sys.exit(code)] after a message on stderr; the
    messages themselves are left out, as the logging is. *)
Inductive reply (A : Type) :=
| Returned (a : A)
| Exited (code : Z).
Arguments Returned {A} a.
Arguments Exited {A} code.

(** [x, = struct.unpack('<I', b)]. *)
Definition unpack_word (b : bytes) : result Z :=
  fields <~ struct_unpack "<I" b ;;
  match fields with
  | [VInt x] => Ok x
  | _ => builtin ValueError
  end.

Section Tools.

(** [zlib.decompress(b, wbits=-15)], as for [Header.decompress]. *)
Variable inflate : bytes -> option bytes.

(** *** extract.py *)

(** Return (header_length, chapter_address_bytes, compressed_data,
    body_data). *)
Definition split_header (raw : bytes) : result (reply (Z * bytes * bytes * bytes)) :=
  if len raw <? 4 then Ok (Exited 1)
  else
    header_length <~ unpack_word (slice raw 0 4) ;;
    if len raw <? header_length then Ok (Exited 1)
    else
      (* Peek at the next 4 bytes to decide whether chapter_address is present *)
      check <~ unpack_word (slice raw 4 8) ;;
      let '(chapter_address_bytes, compressed_data) :=
        if check <? 100000000
        then (slice raw 4 8, slice raw 8 header_length)
        else ([], slice raw 4 header_length) in
      let body_data := slice_from raw header_length in
      Ok (Returned (header_length, chapter_address_bytes, compressed_data, body_data)).

(** Decompress the zlib stream (no zlib framing, wbits=-15). *)
Definition decompress_header_data (compressed_data : bytes) : reply bytes :=
  match inflate compressed_data with
  | Some decompressed => Returned decompressed
  | None => Exited 1
  end.

(** [extract], from the bytes of the file on: the contents it writes to
    the header file and to the body file. *)
Definition extract (raw : bytes) : result (reply (bytes * bytes)) :=
  parts <~ split_header raw ;;
  match parts with
  | Exited code => Ok (Exited code)
  | Returned (header_length, chapter_address_bytes, compressed_data, body_data) =>
      match decompress_header_data compressed_data with
      | Exited code => Ok (Exited code)
      | Returned decompressed =>
          (* Reassemble: keep the 4-byte length field and optional
             chapter_address, then append the decompressed content. *)
          let header_out := slice raw 0 4 ++ chapter_address_bytes ++ decompressed in
          Ok (Returned (header_out, body_data))
      end
  end.

(** *** dump.py *)

Definition DEFAULT_LENGTH : Z := 256.

(** Return decompressed header bytes. *)
Definition get_header (raw : bytes) : result (reply bytes) :=
  if len raw <? 8 then Ok (Exited 1)
  else
    fields <~ struct_unpack "<II" (slice raw 0 8) ;;
    match fields with
    | [VInt header_length; VInt chapter_address] =>
        let compressed := slice raw 8 header_length in
        match inflate compressed with
        | Some header => Ok (Returned header)
        | None => Ok (Exited 1)
        end
    | _ => builtin ValueError
    end.

(** Return body bytes. *)
Definition get_body (raw : bytes) : result bytes :=
  header_length <~ unpack_word (slice raw 0 4) ;;
  Ok (slice_from raw header_length).

End Tools.

End Cli.

(* ================================================================== *)
(** ** Vocabulary of the properties                                    *)
(* ================================================================== *)

Module Spec.
Import Py Rt Struct Re Header.
Local Open Scope string_scope.
Local Open Scope Z_scope.
Local Open Scope list_scope.
Local Open Scope py_scope.

(** The value of an outcome on a stream, and the record it holds, if it
    holds one. *)
Definition value_of {A} (r : result (A * BytesIO)) : result A :=
  match r with
  | Ok (a, _) => Ok a
  | Raise e => Raise e
  | Diverge => Diverge
  end.

Definition record_of (r : result val) : dict :=
  match r with
  | Ok (VDict fields) => fields
  | _ => []
  end.

(** Every value [m] can return satisfies [P]. *)
Definition returns {A} (m : M A) (P : A -> Prop) : Prop :=
  forall d a d', m d = Ok (a, d') -> P a.

(** The stream [d'] is [d] moved [n] bytes on, or run into the end of
    the buffer. *)
Definition moved (n : Z) (d d' : BytesIO) : Prop :=
  getvalue d' = getvalue d /\ position d <= position d'
  /\ (position d' = position d + n \/ len (getvalue d) <= position d').

(** [m] only skips bytes, [n] of them. *)
Definition skips (m : M unit) (n : Z) : Prop :=
  0 <= n /\ forall d, 0 <= position d -> exists d', m d = Ok (tt, d') /\ moved n d d'.

(** The distance from the start of the lobby block to its fixed fields:
    the version-keyed skips of [parse_lobby]. *)
Definition lobby_fields_offset (version : Version) (save : float) : Z :=
  (if Version_eqb version DE
   then 5 + ((if fge save (flt "20.06") then 9 else 0)
             + ((if fge save (flt "26.16") then 5 else 0)
                + ((if fge save (flt "37") then 8 else 0)
                   + ((if fge save (flt "64.3") then 16 else 0)
                      + (if fge save (flt "66.3") then 1 else 0)))))
   else 0)
  + (8 + (if negb (de_or_hd version) then 1 else 0)).

(** The population field as the buffer has it: the u32 twelve bytes into
    the fixed fields ([I4xIIbb]: reveal map, four bytes, map size,
    population). *)
Definition raw_population (version : Version) (save : float) (data : BytesIO) : Z :=
  let at_ := position data + lobby_fields_offset version save + 12 in
  le_uint (slice (getvalue data) at_ (at_ + 4)).

(** The bytes [settings_anchor] looks for. *)
Definition settings_needle (version : Version) (save : float) : bytes :=
  if Version_eqb version DE then pack_d (settings_version save)
  else [x9a; x99; x99; x99; x99; x99; xf9; x3f].

(** A slot record that has a [censored_name] equal to its [name]. *)
Definition censored_as_named (slot : val) : Prop :=
  exists fields,
    slot = VDict fields
    /\ has_key fields "censored_name" = true
    /\ has_key fields "name" = true
    /\ dict_get fields "censored_name" = dict_get fields "name".

Definition is_bool (v : val) : Prop := exists b, v = VBool b.

(** The fields of the DE block that are named as booleans. *)
Definition de_flags : list string :=
  ["team_together"; "all_technologies"; "lock_teams"; "lock_speed"; "multiplayer";
   "cheats"; "record_game"; "animals_enabled"; "predators_enabled"; "turbo_enabled";
   "shared_exploration"; "team_positions"; "rated"; "allow_specs"; "hidden_civs"].

Definition slot_flag (p : val) : Prop :=
  exists slot, p = VDict slot /\ is_bool (dict_get slot "prefer_random").

End Spec.

(* ================================================================== *)
(** ** Sample data                                                     *)
(* ================================================================== *)

Module Samples.
Import Py Rt Struct Re Header Spec.
Local Open Scope string_scope.
Local Open Scope Z_scope.
Local Open Scope list_scope.

(** [n] zero bytes, a 32-bit word, a DE string. *)
Definition zeros (n : Z) : bytes := repeat x00 (Z.to_nat n).
Definition u32 (n : Z) : bytes := le_bytes 4 n.
Definition de_str (s : bytes) : bytes := [x60; x0a] ++ le_bytes 2 (len s) ++ s.

(** For the samples the header is stored as it is: the decompressor is
    the identity. *)
Definition stored (b : bytes) : option bytes := Some b.

(** A version table for the game tag of the samples. *)
Definition sample_get_version (game : str) (save : float) (log : Z) : result Version :=
  if str_eqb game (u "VER 9.4") then
    if fge save (flt "12.97") then Ok DE
    else if fge save (flt "12.34") then Ok HD
    else Ok USERPATCH15
  else Raise (Exn ValueError "").

(** *** Pieces *)

(** Fifty bytes, then the name of Gaia as a DE or HD file has it. *)
Definition sample_gaia : BytesIO :=
  BytesIO_of (zeros 50 ++ [x05; x00; x47; x61; x69; x61; x00] ++ zeros 8).

(** A Userpatch header at the mod-parsing site, two players: the name
    length, 199 resources, and 1510.0 as the last of them. *)
Definition sample_mod : BytesIO :=
  BytesIO_of (zeros 45 ++ [x05; x00] ++ zeros 6 ++ u32 199 ++ zeros 1
              ++ zeros (4 * 198) ++ [x00; xc0; xbc; x44]).

(** A word inside (0, 255) followed by a well-formed DE string, and a
    zero word followed by one. *)
Definition sample_block_1 : BytesIO :=
  BytesIO_of (u32 1 ++ de_str [x61; x3a; x62] ++ u32 0).
Definition sample_block_0 : BytesIO :=
  BytesIO_of (u32 0 ++ de_str [x61; x3a; x62] ++ u32 1).

(** The first bytes of a header in the old format (the save version is
    the float 12.34) and in the new one (the float is -1.0 and a word
    follows, here 4345037, that is 66.3 * 65536 rounded); the raw file
    is at its log version, 5. *)
Definition sample_game : bytes := [x56; x45; x52; x20; x39; x2e; x34].

(** The lobby of a Userpatch file and of a DE file saved at 25.22, both
    with 8 as raw population. *)
Definition sample_lobby_up : BytesIO :=
  BytesIO_of (zeros 9 ++ u32 1 ++ zeros 4 ++ u32 4 ++ u32 8 ++ [x02; x01]
              ++ u32 1 ++ u32 3 ++ [x61; x00; x00]).
Definition sample_lobby_de : BytesIO :=
  BytesIO_of (zeros 22 ++ u32 1 ++ zeros 4 ++ u32 4 ++ u32 8 ++ [x02; x01]
              ++ zeros 10 ++ u32 0 ++ u32 77).

(** A DE block saved at version 37 with one player, "ab": timestamps and
    settings, the slot, seven empty slots, a string table with one entry,
    the GUID and the lobby name. *)
Definition sample_slot : bytes :=
  zeros 4 ++ u32 3 ++ zeros 2 ++ [x01] ++ zeros 9 ++ u32 7
  ++ de_str [] ++ zeros 1 ++ de_str [] ++ de_str [x61; x62]
  ++ u32 2 ++ u32 99 ++ zeros 4 ++ u32 1 ++ [x01] ++ zeros 1 ++ zeros 8.

Definition sample_empty_slot : bytes :=
  zeros 12 ++ de_str [] ++ zeros 1 ++ de_str [] ++ de_str [] ++ zeros 38.

Definition sample_de_block : bytes :=
  u32 101 ++ u32 1600000000 ++ zeros 12 ++ u32 2 ++ u32 2 ++ u32 3
  ++ zeros 4 ++ u32 1 ++ zeros 4 ++ u32 9 ++ zeros 4
  ++ u32 1 ++ u32 0 ++ u32 2 ++ u32 0 ++ zeros 12
  ++ zeros 4 ++ u32 0 ++ u32 200 ++ u32 1 ++ zeros 14
  ++ [x01; x00] ++ zeros 1 ++ [x01; x00; x01; x00; x01; x01; x01; x00; x02; x00]
  ++ zeros 12 ++ zeros 1
  ++ sample_slot ++ zeros 12 ++ List.concat (repeat sample_empty_slot 7)
  ++ zeros 4 ++ [x01; x01] ++ u32 0 ++ [x00] ++ zeros 1 ++ u32 0 ++ zeros 1
  ++ u32 0 ++ de_str [x61; x3a; x62] ++ u32 1 ++ zeros 8
  ++ List.concat (repeat (u32 1) 20)
  ++ u32 0 ++ zeros 8 ++ zeros 8 ++ repeat xab 16 ++ de_str [x4c] ++ zeros 8
  ++ de_str [] ++ zeros 33
  ++ zeros 1 ++ zeros 8 ++ zeros 21 ++ zeros 4 ++ zeros 8 ++ zeros 3
  ++ de_str [] ++ zeros 8 ++ u32 1600000001 ++ u32 0.

Definition sample_slot_record : dict :=
  [("number", VInt 1); ("color_id", VInt 3); ("team_id", VInt 1);
   ("ai_name", VBytes []); ("name", VBytes [x61; x62]);
   ("censored_name", VBytes [x61; x62]); ("type", VInt 2);
   ("profile_id", VInt 99); ("civilization_id", VInt 7);
   ("custom_civ_selection", VNone); ("prefer_random", VBool true)].

Definition sample_de_record : dict :=
  Eval vm_compute in
    record_of (value_of (parse_de DE (flt "37.0") false (BytesIO_of sample_de_block))).

(** The bytes of a player called Gaia among [n] players at save version
    37: the fixed fields, the start of the objects, three empty object
    blocks, and 120 bytes that do not hold the end marker. *)
Definition sample_player (n : Z) : BytesIO :=
  BytesIO_of (zeros (43 + n) ++ [x05; x00; x47; x61; x69; x61] ++ zeros 2 ++ u32 0
              ++ zeros 1 ++ zeros 24
              ++ [x0b; x00; x07; x00; x00; x00; x02; x00; x00]
              ++ [x00; x0b; x00; x0b; x00; x0b] ++ zeros 120).

Definition sample_player_record : dict :=
  [("number", VInt 0); ("type", VInt 0); ("name", VBytes [x47; x61; x69; x61]);
   ("diplomacy", VList (repeat (VInt 0) 9)); ("civilization_id", VInt 0);
   ("color_id", VInt 0); ("objects", VList []);
   ("position", VDict [("x", VFloat (S754_zero false)); ("y", VFloat (S754_zero false))])].

(** *** Whole files *)

(** The metadata block: no AI, speed 1.5, owner 1, one player. *)
Definition sample_metadata : bytes :=
  u32 0 ++ zeros 24 ++ [x00; x00; xc0; x3f] ++ zeros 17 ++ [x01; x00] ++ [x01]
  ++ zeros 1 ++ [x00] ++ zeros 60.

(** A DE file at save version 37 (new format), one player. *)
Definition sample_de_version : bytes :=
  sample_game ++ [x00] ++ [x00; x00; x80; xbf] ++ u32 37.

Definition sample_de_map : bytes :=
  zeros 8 ++ u32 1 ++ u32 1 ++ u32 1 ++ zeros 2050 ++ u32 0 ++ zeros 4
  ++ [x01; x00] ++ [x04; x00; x02] ++ zeros 6
  ++ u32 0 ++ zeros 4 ++ u32 0 ++ u32 0 ++ u32 600.

Definition sample_de_players : bytes :=
  zeros 44 ++ [x05; x00; x47; x61; x69; x61] ++ zeros 2 ++ u32 0 ++ zeros 1 ++ zeros 24
  ++ [x0b; x00; x07; x00; x00; x00; x02; x00; x00] ++ [x00; x0b; x00; x0b; x00; x0b]
  ++ zeros 8 ++ [x02] ++ zeros 1 ++ repeat xff 8 ++ [x2e] ++ zeros 16 ++ [x0b]
  ++ zeros 5 ++ [x00; x00; x00; x40] ++ u32 0 ++ zeros 5 ++ u32 0 ++ zeros 8.

Definition sample_de_scenario : bytes :=
  zeros 18313 ++ u32 44 ++ u32 3 ++ zeros 3 ++ pack_d (flt "3.5")
  ++ zeros 1 ++ u32 0 ++ zeros 1032.

Definition sample_de_lobby : bytes :=
  zeros 35 ++ u32 1 ++ zeros 4 ++ u32 4 ++ u32 200 ++ [x02; x01] ++ zeros 10
  ++ u32 0 ++ u32 1234.

Definition sample_de_header : bytes :=
  sample_de_version ++ sample_de_block ++ sample_metadata ++ sample_de_map
  ++ sample_de_players ++ sample_de_scenario ++ sample_de_lobby.

Definition file_of (header : bytes) : BytesIO :=
  BytesIO_of (u32 (8 + len header) ++ u32 0 ++ header ++ u32 5).

Definition sample_de_file : BytesIO := file_of sample_de_header.

(** A Userpatch 1.5 file at save version 11.76, one player with 199
    resources, the last of them 1510.0.  Its scenario block has 23245
    bytes of fixed fields, then three bytes, the settings version 1.6 and
    five bytes more. *)
Definition sample_up_version : bytes := sample_game ++ [x00] ++ [xf6; x28; x3c; x41].

Definition sample_up_map : bytes :=
  u32 1 ++ u32 1 ++ u32 1 ++ zeros 1276 ++ u32 0 ++ zeros 4
  ++ [x01; x00] ++ [x00; x04; x02; x00]
  ++ u32 0 ++ zeros 4 ++ u32 0 ++ u32 0 ++ u32 600.

Definition sample_up_players : bytes :=
  zeros 44 ++ [x05; x00; x47; x41; x49; x41] ++ zeros 2 ++ u32 199 ++ zeros 1
  ++ zeros (4 * 198) ++ [x00; xc0; xbc; x44] ++ zeros 24
  ++ [x0b; x00; x07; x00; x00; x00; x02; x00; x00] ++ [x00; x0b; x00; x0b; x00; x0b]
  ++ zeros 5 ++ [x00; x00; x00; x40] ++ u32 0 ++ zeros 5 ++ u32 0 ++ zeros 8.

Definition sample_up_scenario (settings : bytes) : bytes :=
  zeros 23237 ++ u32 44 ++ u32 3 ++ settings.

Definition sample_up_lobby : bytes :=
  zeros 9 ++ u32 1 ++ zeros 4 ++ u32 4 ++ u32 8 ++ [x02; x01] ++ u32 0.

Definition sample_up_header_with (settings : bytes) : bytes :=
  sample_up_version ++ sample_metadata ++ sample_up_map ++ sample_up_players
  ++ sample_up_scenario settings ++ sample_up_lobby.

Definition sample_up_header : bytes :=
  sample_up_header_with (zeros 3 ++ [x9a; x99; x99; x99; x99; x99; xf9; x3f] ++ zeros 5).

Definition sample_up_file : BytesIO := file_of sample_up_header.

(** The same file with twelve zero bytes where the settings were: the
    pattern 9a 99 99 99 99 99 f9 3f is nowhere after the fixed part of
    the scenario block, which ends at byte 25615 of the header. *)
Definition sample_lost_header : bytes := sample_up_header_with (zeros 12).

Definition sample_lost_file : BytesIO := file_of sample_lost_header.

(** The records [parse] builds from the two well-formed files. *)
Definition sample_de_output : dict :=
  Eval vm_compute in record_of (parse stored sample_get_version 8 sample_de_file).

Definition sample_up_output : dict :=
  Eval vm_compute in record_of (parse stored sample_get_version 8 sample_up_file).

End Samples.

(* ================================================================== *)
(** ** Decimal numerals                                                *)
(* ================================================================== *)

Module Numerals.
Local Open Scope Z_scope.

(** The value of a decimal numeral read after [acc]. *)
Fixpoint digits_value (d : Decimal.uint) (acc : Z) : Z :=
  match d with
  | Decimal.Nil => acc
  | Decimal.D0 r => digits_value r (10 * acc + 0)
  | Decimal.D1 r => digits_value r (10 * acc + 1)
  | Decimal.D2 r => digits_value r (10 * acc + 2)
  | Decimal.D3 r => digits_value r (10 * acc + 3)
  | Decimal.D4 r => digits_value r (10 * acc + 4)
  | Decimal.D5 r => digits_value r (10 * acc + 5)
  | Decimal.D6 r => digits_value r (10 * acc + 6)
  | Decimal.D7 r => digits_value r (10 * acc + 7)
  | Decimal.D8 r => digits_value r (10 * acc + 8)
  | Decimal.D9 r => digits_value r (10 * acc + 9)
  end.

End Numerals.

(* ================================================================== *)
(** ** More sample data                                                *)
(* ================================================================== *)

Module MoreSamples.
Import Py Rt Struct Re Header Spec Samples.
Local Open Scope string_scope.
Local Open Scope Z_scope.
Local Open Scope list_scope.

(** A DE block saved at version 13.0: the settings, eight slots with
    empty names, empty string tables, the GUID and two empty names. *)
Definition sample_old_slot : bytes :=
  zeros 24 ++ de_str [] ++ zeros 1 ++ de_str [] ++ de_str []
  ++ zeros 4 ++ zeros 12 ++ zeros 8 ++ zeros 2.

Definition sample_old_de_block : bytes :=
  zeros 12 ++ u32 0 ++ zeros 4 ++ u32 0 ++ zeros 4 ++ u32 0 ++ zeros 4
  ++ zeros 16 ++ zeros 12 ++ zeros 16 ++ zeros 14 ++ zeros 2 ++ zeros 1
  ++ zeros 10 ++ zeros 12
  ++ List.concat (repeat sample_old_slot 8)
  ++ zeros 12 ++ zeros 17
  ++ u32 1 ++ zeros 8 ++ List.concat (repeat (u32 1) 20)
  ++ zeros 4 ++ zeros 236 ++ zeros 8 ++ zeros 16
  ++ de_str [] ++ de_str [] ++ zeros 33 ++ de_str [] ++ zeros 8.

(** An HD string, and an HD block saved at version 12.5: one player
    called "ab" and seven slots without a name. *)
Definition hd_str (s : bytes) : bytes := le_bytes 2 (len s) ++ [x60; x0a] ++ s.

Definition sample_hd_slot (name : bytes) : bytes :=
  zeros 4 ++ u32 3 ++ zeros 12 ++ u32 7 ++ hd_str [] ++ zeros 1 ++ hd_str []
  ++ hd_str name ++ zeros 4 ++ zeros 12 ++ zeros 8.

Definition sample_hd_block : bytes :=
  zeros 12 ++ u32 0 ++ zeros 4 ++ u32 2 ++ u32 9 ++ zeros 80
  ++ sample_hd_slot [x61; x62] ++ List.concat (repeat (sample_hd_slot []) 7)
  ++ zeros 26 ++ hd_str [] ++ zeros 8 ++ hd_str [] ++ zeros 8 ++ hd_str [] ++ zeros 8
  ++ repeat xab 16 ++ hd_str [x4c] ++ hd_str [] ++ zeros 8 ++ hd_str [] ++ zeros 4.

(** The players block of a Userpatch file with one player, as
    [sample_up_players], but without the points marker [00 00 00 40]
    after the objects. *)
Definition sample_players_lost : bytes :=
  zeros 44 ++ [x05; x00; x47; x41; x49; x41] ++ zeros 2 ++ u32 199 ++ zeros 1
  ++ zeros (4 * 198) ++ [x00; xc0; xbc; x44] ++ zeros 24
  ++ [x0b; x00; x07; x00; x00; x00; x02; x00; x00] ++ [x00; x0b; x00; x0b; x00; x0b]
  ++ zeros 40.

(** The mod-parsing site of [sample_mod] with -1000.0 as the last of the
    199 resources. *)
Definition sample_mod_negative : BytesIO :=
  BytesIO_of (zeros 45 ++ [x05; x00] ++ zeros 6 ++ u32 199 ++ zeros 1
              ++ zeros (4 * 198) ++ [x00; x00; x7a; xc4]).

(** The only player of a file at save version 37, as [sample_player 1],
    with five bytes after the objects instead of 120. *)
Definition sample_player_short : BytesIO :=
  BytesIO_of (zeros (43 + 1) ++ [x05; x00; x47; x61; x69; x61] ++ zeros 2 ++ u32 0
              ++ zeros 1 ++ zeros 24
              ++ [x0b; x00; x07; x00; x00; x00; x02; x00; x00]
              ++ [x00; x0b; x00; x0b; x00; x0b] ++ zeros 5).

End MoreSamples.

(* ================================================================== *)
(** ** Properties of the runtime                                       *)
(* ================================================================== *)

Module Facts.
Import Py Rt Struct Re Header Spec.
Local Open Scope string_scope.
Local Open Scope Z_scope.
Local Open Scope list_scope.
Local Open Scope py_scope.

Lemma len_nonneg {A} (l : list A) : 0 <= len l.
Proof. unfold len. lia. Qed.

Lemma len_app {A} (a b : list A) : len (a ++ b) = len a + len b.
Proof. unfold len. rewrite length_app. lia. Qed.

Lemma len_skipn {A} (n : nat) (l : list A) : len (skipn n l) = Z.max 0 (len l - Z.of_nat n).
Proof. unfold len. rewrite length_skipn. lia. Qed.

Lemma len_firstn {A} (n : nat) (l : list A) : len (firstn n l) = Z.min (Z.of_nat n) (len l).
Proof. unfold len. rewrite length_firstn. lia. Qed.

Lemma clamp_index_inside n i : 0 <= i -> clamp_index n i = Z.min i (Z.max n 0) \/ n < 0.
Proof.
  intros Hi. unfold clamp_index.
  destruct (i <? 0) eqn:E1; [apply Z.ltb_lt in E1; lia|].
  rewrite E1. destruct (n <? i) eqn:E2.
  - apply Z.ltb_lt in E2. destruct (Z_lt_dec n 0); [now right | left; lia].
  - apply Z.ltb_ge in E2. left. lia.
Qed.

Lemma clamp_index_len {A} (l : list A) i :
  0 <= i -> clamp_index (len l) i = Z.min i (len l).
Proof.
  intros Hi. pose proof (len_nonneg l).
  destruct (clamp_index_inside (len l) i Hi) as [-> | ?]; lia.
Qed.

(** A slice between two bounds that are not negative. *)
Lemma slice_eq {A} (data : list A) a b :
  0 <= a -> 0 <= b ->
  slice data a b = firstn (Z.to_nat (Z.min b (len data) - Z.min a (len data)))
                          (skipn (Z.to_nat (Z.min a (len data))) data).
Proof.
  intros Ha Hb. unfold slice. cbv zeta.
  now rewrite !clamp_index_len by assumption.
Qed.

Lemma len_slice {A} (data : list A) a b :
  0 <= a -> a <= b ->
  len (slice data a b) = Z.min b (len data) - Z.min a (len data).
Proof.
  intros Ha Hab. rewrite slice_eq by lia.
  rewrite len_firstn, len_skipn. pose proof (len_nonneg data). lia.
Qed.

Lemma fits_ssize_t_true (n : Z) : - 2 ^ 63 <= n < 2 ^ 63 -> fits_ssize_t n = true.
Proof.
  intros H. unfold fits_ssize_t. apply andb_true_iff.
  split; [apply Z.leb_le | apply Z.ltb_lt]; lia.
Qed.

(** [data.read(n)] for a size in the range of [ssize_t]. *)
Lemma read_fits n d :
  - 2 ^ 63 <= n < 2 ^ 63 ->
  read n d
  = (let left := len (getvalue d) - position d in
     let size := if (n <? 0) || (left <? n) then Z.max left 0 else n in
     Ok (slice (getvalue d) (position d) (position d + size),
         mkBytesIO (getvalue d) (position d + size))).
Proof. intros H. unfold read. now rewrite fits_ssize_t_true. Qed.

(** [data.read()] returns the bytes from the position on and leaves the
    stream at its end. *)
Lemma read_all_eq d :
  0 <= position d ->
  read_all d = Ok (remaining d,
                   mkBytesIO (getvalue d) (Z.max (position d) (len (getvalue d)))).
Proof.
  intros Hp. unfold read_all. rewrite read_fits by lia. unfold remaining.
  pose proof (len_nonneg (getvalue d)) as Hn.
  replace ((-1 <? 0) || (len (getvalue d) - position d <? -1)) with true by reflexivity.
  cbv zeta. f_equal. f_equal.
  - rewrite slice_eq by lia.
    destruct (Z_le_dec (position d) (len (getvalue d))) as [Hle | Hgt].
    + replace (Z.min (position d) (len (getvalue d))) with (position d) by lia.
      apply firstn_all2. unfold len in *. rewrite length_skipn. lia.
    + rewrite !skipn_all2 by (unfold len in *; lia). now rewrite firstn_nil.
  - f_equal. lia.
Qed.

(** What a successful [data.read(n)] of [n] bytes leaves behind. *)
Lemma read_inv n d chunk d' :
  read n d = Ok (chunk, d') ->
  getvalue d' = getvalue d /\ position d <= position d'
  /\ chunk = slice (getvalue d) (position d) (position d') .
Proof.
  unfold read. destruct (fits_ssize_t n); [|discriminate]. cbn [negb].
  intros H. injection H as <- <-. cbn [getvalue position].
  repeat split.
  destruct ((n <? 0) || (len (getvalue d) - position d <? n)) eqn:E; [lia|].
  apply orb_false_iff in E as [E _]. apply Z.ltb_ge in E. lia.
Qed.

Lemma read_exact n d chunk d' :
  0 <= position d -> 0 <= n ->
  read n d = Ok (chunk, d') -> len chunk = n ->
  position d' = position d + n /\ (0 < n -> position d + n <= len (getvalue d)).
Proof.
  unfold read. destruct (fits_ssize_t n); [|discriminate]. cbn [negb].
  intros Hp Hn H Hlen. injection H as <- <-. cbn [getvalue position] in *.
  pose proof (len_nonneg (getvalue d)) as Hl.
  destruct ((n <? 0) || (len (getvalue d) - position d <? n)) eqn:E.
  - apply orb_true_iff in E as [E | E]; apply Z.ltb_lt in E; [lia|].
    rewrite len_slice in Hlen by lia. lia.
  - split; [reflexivity|]. apply orb_false_iff in E as [_ E]. apply Z.ltb_ge in E. lia.
Qed.

Lemma struct_unpack_len fmt chunk vs n :
  struct_unpack fmt chunk = Ok vs -> calcsize fmt = Some n -> len chunk = n.
Proof.
  unfold struct_unpack, calcsize.
  destruct (parse_format fmt) as [[native items]|]; [|discriminate].
  destruct (len chunk =? end_offset native items 0) eqn:E; [|discriminate].
  intros _ [= <-]. now apply Z.eqb_eq.
Qed.

(** A successful [unpack] leaves the buffer alone and moves the stream
    by the size of the format. *)
Lemma unpack_inv fmt n d v d' :
  calcsize fmt = Some n -> 0 <= n -> 0 <= position d ->
  unpack fmt d = Ok (v, d') ->
  getvalue d' = getvalue d /\ position d' = position d + n
  /\ (0 < n -> position d + n <= len (getvalue d)).
Proof.
  intros Hsize Hn Hp. unfold unpack. rewrite Hsize. unfold bind.
  destruct (read n d) as [[chunk d1]| |] eqn:Hread; try discriminate.
  unfold lift.
  destruct (struct_unpack fmt chunk) as [vs| |] eqn:Hvs; try discriminate.
  pose proof (struct_unpack_len _ _ _ _ Hvs Hsize) as Hlen.
  destruct (read_exact _ _ _ _ Hp Hn Hread Hlen) as [Hpos Hfit].
  destruct (read_inv _ _ _ _ Hread) as [Hbuf _].
  intros H.
  assert (d' = d1) as ->.
  { destruct vs as [|v0 [|v1 vs]]; unfold ret in H; now injection H. }
  auto.
Qed.

(** Whatever its format, a successful [unpack] leaves the buffer alone
    and does not move the stream backwards. *)
Lemma unpack_mono fmt d v d' :
  unpack fmt d = Ok (v, d') ->
  getvalue d' = getvalue d /\ position d <= position d'.
Proof.
  unfold unpack. destruct (calcsize fmt) as [n|]; [|discriminate]. unfold bind.
  destruct (read n d) as [[chunk d1]| |] eqn:Hread; try discriminate.
  unfold lift. destruct (struct_unpack fmt chunk) as [vs| |]; try discriminate.
  destruct (read_inv _ _ _ _ Hread) as (Hbuf & Hle & _).
  intros H.
  assert (d' = d1) as ->.
  { destruct vs as [|v0 [|v1 vs]]; unfold ret in H; now injection H. }
  auto.
Qed.

(** What a successful [unpack] returns, from the bytes under the stream. *)
Lemma unpack_eq fmt native items d v d' :
  parse_format fmt = Some (native, items) ->
  0 <= end_offset native items 0 ->
  0 <= position d ->
  unpack fmt d = Ok (v, d') ->
  let n := end_offset native items 0 in
  let chunk := slice (getvalue d) (position d) (position d + n) in
  getvalue d' = getvalue d /\ position d' = position d + n
  /\ (0 < n -> position d + n <= len (getvalue d))
  /\ v = match decode native items 0 chunk with
         | [v] => v
         | output => VTuple output
         end.
Proof.
  intros Hfmt Hn Hp H. cbv zeta.
  set (n := end_offset native items 0) in *.
  assert (Hsize : calcsize fmt = Some n) by (unfold calcsize; now rewrite Hfmt).
  destruct (unpack_inv fmt n d v d' Hsize Hn Hp H) as (B & P & F).
  repeat split; try assumption.
  revert H. unfold unpack. rewrite Hsize. unfold bind.
  destruct (read n d) as [[c d1]| |] eqn:R; try discriminate.
  destruct (read_inv _ _ _ _ R) as (_ & _ & Hc).
  unfold lift, struct_unpack. rewrite Hfmt. fold n.
  destruct (len c =? n) eqn:L; [|discriminate].
  assert (Hl : len c = n) by now apply Z.eqb_eq.
  destruct (read_exact _ _ _ _ Hp Hn R Hl) as [P1 _].
  rewrite P1 in Hc. rewrite <- Hc.
  destruct (decode native items 0 c) as [|v0 [|v1 vs]]; unfold ret;
    intros HH; now injection HH.
Qed.

(** *** Sequencing *)

Lemma bind_Ok {A B} (c : M A) (k : A -> M B) d r :
  bind c k d = Ok r -> exists a d', c d = Ok (a, d') /\ k a d' = Ok r.
Proof.
  unfold bind. destruct (c d) as [[a d']| |]; try discriminate. eauto.
Qed.

Lemma lift_Ok {A} (r : result A) d a d' :
  lift r d = Ok (a, d') -> r = Ok a /\ d' = d.
Proof. unfold lift. destruct r; try discriminate. now intros [= -> ->]. Qed.

(** In a hypothesis [H : (x <- c ;; k) d = Ok r], run [c]. *)
Tactic Notation "step" hyp(H) "as" ident(a) ident(d) ident(E) :=
  apply bind_Ok in H as (a & d & E & H).

Lemma and_then_Ok {A B} (r : result A) (k : A -> result B) b :
  and_then r k = Ok b -> exists a, r = Ok a /\ k a = Ok b.
Proof. unfold and_then. destruct r; try discriminate. eauto. Qed.

(** *** What a computation returns *)

Lemma returns_ret {A} (a : A) (P : A -> Prop) : P a -> returns (ret a) P.
Proof. intros H d a' d' [= <- _]. exact H. Qed.

Lemma returns_raise {A} c msg (P : A -> Prop) : returns (raise c msg) P.
Proof. intros d a d' H. discriminate H. Qed.

Lemma returns_bind {A B} (c : M A) (k : A -> M B) (Q : A -> Prop) (P : B -> Prop) :
  returns c Q -> (forall a, Q a -> returns (k a) P) -> returns (bind c k) P.
Proof.
  intros Hc Hk d b d' H. apply bind_Ok in H as (a & d1 & E & H).
  exact (Hk a (Hc _ _ _ E) _ _ _ H).
Qed.

Lemma returns_then {A B} (c : M A) (k : A -> M B) (P : B -> Prop) :
  (forall a, returns (k a) P) -> returns (bind c k) P.
Proof.
  intros Hk. apply (returns_bind c k (fun _ => True)); [now intros ? ? ? ? | auto].
Qed.

Lemma returns_for_ {S} (I : S -> Prop) (body : Z -> S -> M S) n : forall i s,
  I s -> (forall i s, I s -> returns (body i s) I) -> returns (for_ n i body s) I.
Proof.
  induction n as [|n IH]; intros i s Hs Hbody; cbn [for_].
  - now apply returns_ret.
  - apply (returns_bind _ _ I); [now apply Hbody | intros s' Hs'; now apply IH].
Qed.

Lemma returns_for_range {S} (I : S -> Prop) (body : Z -> S -> M S) n s :
  I s -> (forall i s, I s -> returns (body i s) I) -> returns (for_range n body s) I.
Proof. apply returns_for_. Qed.

(** Goes through a computation to its last step: binds are entered,
    pattern matches and tests on what was read are split, and the
    branches that raise are dropped. *)
Ltac enter :=
  lazymatch goal with
  | |- returns (bind (for_range _ _ _) _) _ => fail
  | |- returns (bind _ _) _ => apply returns_then; intro; cbv beta
  | |- returns (match ?v with _ => _ end) _ => destruct v
  | |- returns (raise _ _) _ => apply returns_raise
  end.

(** The same, up to the next loop that builds a list. *)
Ltac to_loop := repeat enter.

Ltac to_return :=
  repeat first
    [ apply returns_raise
    | apply returns_then; intro; cbv beta
    | match goal with
      | |- returns (match ?v with _ => _ end) _ => destruct v
      end ].

(** *** Code that only skips bytes *)

Lemma skips_read_ n : 0 <= n < 2 ^ 63 -> skips (read_ n) n.
Proof.
  intros Hn. split; [lia|]. intros d Hp.
  unfold read_, bind. rewrite read_fits by lia. unfold ret. eexists. split; [reflexivity|].
  unfold moved. cbn [getvalue position].
  pose proof (len_nonneg (getvalue d)).
  destruct ((n <? 0) || (len (getvalue d) - position d <? n)) eqn:E.
  - apply orb_true_iff in E as [E | E]; apply Z.ltb_lt in E;
      (split; [reflexivity | lia]).
  - split; [reflexivity | lia].
Qed.

Lemma skips_ret : skips (ret tt) 0.
Proof.
  split; [lia|]. intros d Hp. exists d. split; [reflexivity|]. unfold moved.
  split; [reflexivity | lia].
Qed.

Lemma skips_bind a b n m :
  skips a n -> skips b m -> skips (bind a (fun _ => b)) (n + m).
Proof.
  intros [Hn Ha] [Hm Hb]. split; [lia|]. intros d Hp.
  destruct (Ha d Hp) as (d1 & E1 & B1 & P1 & M1).
  destruct (Hb d1 ltac:(lia)) as (d2 & E2 & B2 & P2 & M2).
  exists d2. unfold bind. rewrite E1. split; [assumption|].
  unfold moved. rewrite B1 in *. repeat split; [congruence | lia | lia].
Qed.

Lemma skips_when (c : bool) a n :
  skips a n -> skips (when c a) (if c then n else 0).
Proof. destruct c; [trivial | intros _; apply skips_ret]. Qed.

Lemma skips_if (c : bool) a b n m :
  skips a n -> skips b m -> skips (if c then a else b) (if c then n else m).
Proof. now destruct c. Qed.

Create HintDb skips.
#[export] Hint Resolve skips_ret skips_bind skips_when skips_if : skips.
#[export] Hint Extern 1 (skips (read_ _) _) => apply skips_read_; lia : skips.

(** A slice of a slice. *)
Lemma slice_slice {A} (data : list A) q n a b :
  0 <= q -> 0 <= a -> a <= b -> b <= n -> q + n <= len data ->
  slice (slice data q (q + n)) a b = slice data (q + a) (q + b).
Proof.
  intros Hq Ha Hab Hbn Hfit.
  assert (Hl : len (slice data q (q + n)) = n) by (rewrite len_slice; lia).
  rewrite (slice_eq (slice data q (q + n))) by lia. rewrite Hl.
  rewrite (slice_eq data q) by lia. rewrite (slice_eq data (q + a)) by lia.
  replace (Z.min b n) with b by lia. replace (Z.min a n) with a by lia.
  replace (Z.min (q + n) (len data)) with (q + n) by lia.
  replace (Z.min q (len data)) with q by lia.
  replace (Z.min (q + b) (len data)) with (q + b) by lia.
  replace (Z.min (q + a) (len data)) with (q + a) by lia.
  rewrite skipn_firstn_comm, skipn_skipn, firstn_firstn.
  f_equal; [lia | f_equal; lia].
Qed.

(** *** Indexing, rounding, fuel *)

Lemma getitem_bytes (b : bytes) (i : Z) :
  0 <= i < len b ->
  getitem (VBytes b) i = Ok (VInt (ord (nth (Z.to_nat i) b x00))).
Proof.
  intros [Hi Hlt]. unfold getitem.
  rewrite (nth_error_nth' b x00) by (unfold len in Hlt; lia).
  destruct (0 <=? i) eqn:E; [reflexivity | apply Z.leb_gt in E; lia].
Qed.

(** [round_half_even num den] is an integer nearest to [num / den]. *)
Lemma round_half_even_near (num den : Z) :
  0 < den -> Z.abs (2 * num - 2 * (round_half_even num den * den)) <= den.
Proof.
  intros Hden. unfold round_half_even. cbv zeta.
  pose proof (Z.div_mod num den ltac:(lia)) as Hdm.
  pose proof (Z.mod_pos_bound num den Hden) as Hr.
  set (q := num / den) in *. set (r := num mod den) in *. clearbody q r.
  assert (Hq : q * den = den * q) by ring.
  assert (Hq1 : (q + 1) * den = den * q + den) by ring.
  destruct (Z.compare_spec (2 * r) den) as [C | C | C].
  - destruct (Z.even q); lia.
  - lia.
  - lia.
Qed.

(** [round(x, 2)] of a finite float is the float nearest to [n / 100]
    for an integer [n] within half a unit of [100 * x]. *)
Lemma round2_finite (s : bool) (m : positive) (e : Z) :
  exists n : Z,
    0 <= n
    /\ round2 (S754_finite s m e)
       = (if n =? 0 then S754_zero s else truediv (cond_Zopp s n) 100)
    /\ (0 <= e -> n = 100 * Zpos m * 2 ^ e)
    /\ (e < 0 -> Z.abs (2 * (100 * Zpos m) - 2 * (n * 2 ^ (- e))) <= 2 ^ (- e)).
Proof.
  unfold round2. destruct (0 <=? e) eqn:E.
  - apply Z.leb_le in E. exists (100 * Zpos m * 2 ^ e).
    assert (0 < 2 ^ e) by (apply Z.pow_pos_nonneg; lia).
    split; [nia|]. split; [reflexivity|]. split; [reflexivity | lia].
  - apply Z.leb_gt in E. exists (round_half_even (100 * Zpos m) (2 ^ (- e))).
    assert (Hden : 0 < 2 ^ (- e)) by (apply Z.pow_pos_nonneg; lia).
    pose proof (round_half_even_near (100 * Zpos m) (2 ^ (- e)) Hden) as Hnear.
    split; [|split; [reflexivity | split; [lia | intros _; exact Hnear]]].
    unfold round_half_even. cbv zeta.
    pose proof (Z.div_pos (100 * Zpos m) (2 ^ (- e)) ltac:(lia) Hden).
    destruct (2 * ((100 * Zpos m) mod 2 ^ (- e)) ?= 2 ^ (- e));
      [destruct (Z.even (100 * Z.pos m / 2 ^ (- e))) | | ]; lia.
Qed.

(** More fuel does not change a result that was reached. *)
Lemma next_block_end_more fuel : forall fuel' data pos end_ offset r,
  (fuel <= fuel')%nat ->
  next_block_end fuel data pos end_ offset = Ok r ->
  next_block_end fuel' data pos end_ offset = Ok r.
Proof.
  induction fuel as [|fuel IH]; intros fuel' data pos end_ offset r Hle.
  - cbn [next_block_end]. destruct fuel'; cbn [next_block_end];
      destruct (end_ + 8 <? offset); try discriminate; auto.
  - destruct fuel' as [|fuel']; [lia|]. cbn [next_block_end].
    destruct (end_ + 8 <? offset); [|auto]. apply IH. lia.
Qed.

Lemma object_block_loop_more fuel : forall fuel' data player_number index pos objects r,
  (fuel <= fuel')%nat ->
  object_block_loop fuel data player_number index pos objects = Ok r ->
  object_block_loop fuel' data player_number index pos objects = Ok r.
Proof.
  induction fuel as [|fuel IH]; intros fuel' data pn index pos objects r Hle;
    [discriminate|].
  destruct fuel' as [|fuel']; [lia|]. cbn [object_block_loop].
  destruct (REGEXES pn) as [regex|]; [|trivial].
  destruct (search_in regex data pos (pos + 10000)) as [[match_start match_end]|];
    [|trivial].
  cbv zeta. intros H.
  destruct (next_block_end fuel data pos _ (match_start - pos)) as [e| |] eqn:N;
    try discriminate.
  rewrite (next_block_end_more fuel fuel' _ _ _ _ _ ltac:(lia) N).
  cbn [and_then] in H |- *.
  destruct (e + 8 =? match_start - pos); [exact H|].
  destruct (existsb _ SKIP_OBJECTS); cbn [and_then] in H |- *.
  - apply IH; [lia | exact H].
  - destruct (parse_object data (pos + (match_start - pos))); try discriminate.
    cbn [and_then] in H |- *. apply IH; [lia | exact H].
Qed.

Lemma object_block_more (fuel fuel' : nat) data pos player_number index r :
  (fuel <= fuel')%nat ->
  object_block fuel data pos player_number index = Ok r ->
  object_block fuel' data pos player_number index = Ok r.
Proof. apply object_block_loop_more. Qed.

Lemma de_string_mono d s d' :
  de_string d = Ok (s, d') ->
  getvalue d' = getvalue d /\ position d <= position d'.
Proof.
  unfold de_string, bind, tell.
  destruct (read 2 d) as [[got d1]| |] eqn:R; try discriminate.
  destruct (read_inv _ _ _ _ R) as (B1 & P1 & _).
  destruct (negb (bytes_eqb got [x60; x0a])); [discriminate|].
  destruct (unpack "<h" d1) as [[v d2]| |] eqn:U1; try discriminate.
  destruct (unpack_mono _ _ _ _ U1) as [B2 P2].
  destruct v; try discriminate.
  destruct (unpack _ d2) as [[v d3]| |] eqn:U2; try discriminate.
  destruct (unpack_mono _ _ _ _ U2) as [B3 P3].
  destruct v; try discriminate.
  unfold ret. intros [= <- <-]. split; [congruence | lia].
Qed.

Lemma decode_utf8_not_Diverge b : decode_utf8 b <> Diverge.
Proof. unfold decode_utf8, decoded. now destruct (utf8_points b). Qed.

Lemma unpack_not_Diverge fmt d : unpack fmt d <> Diverge.
Proof.
  unfold unpack. destruct (calcsize fmt); [|discriminate].
  unfold bind, read, lift. destruct (fits_ssize_t z); [|discriminate]. cbn [negb].
  match goal with
  | |- context [struct_unpack ?f ?c] =>
      destruct (struct_unpack f c) as [[|? [|? ?]]| |] eqn:E
  end; try discriminate.
  unfold struct_unpack in E. destruct (parse_format fmt) as [[? ?]|]; [|discriminate].
  match type of E with context [if ?b then _ else _] => destruct b end; discriminate.
Qed.

Lemma de_string_not_Diverge d : de_string d <> Diverge.
Proof.
  unfold de_string, bind, tell.
  destruct (read 2 d) as [[got d1]| |] eqn:R; try discriminate.
  destruct (negb (bytes_eqb got [x60; x0a])); [discriminate|].
  destruct (unpack "<h" d1) as [[v d2]| |] eqn:U1; try discriminate.
  - destruct v; try discriminate.
    match goal with |- context [unpack ?f d2] =>
      destruct (unpack f d2) as [[v d3]| |] eqn:U2 end; try discriminate.
    + destruct v; discriminate.
    + now apply unpack_not_Diverge in U2.
  - now apply unpack_not_Diverge in U1.
Qed.

Lemma lobby_fields_format :
  parse_format "I4xIIbb" = Some (true, [(1, CI); (4, Cx); (1, CI); (1, CI); (1, Cb); (1, Cb)]).
Proof. reflexivity. Qed.

Lemma lobby_fields_decode chunk :
  decode true [(1, CI); (4, Cx); (1, CI); (1, CI); (1, Cb); (1, Cb)] 0 chunk
  = [VInt (le_uint (slice chunk 0 4)); VInt (le_uint (slice chunk 8 12));
     VInt (le_uint (slice chunk 12 16)); VInt (le_int (slice chunk 16 17));
     VInt (le_int (slice chunk 17 18))].
Proof. reflexivity. Qed.

(** The same for a step that only skips bytes: [d'] is the stream
    after it and [Mv] says how far it is from [d]. *)
Tactic Notation "skip_step" hyp(H) "from" constr(d) constr(Hp) "as" ident(d') ident(Mv) :=
  let a := fresh "a" in
  let E := fresh "E" in
  let S := fresh "S" in
  let S' := fresh "S" in
  let x := fresh "x" in
  apply bind_Ok in H as (a & d' & E & H);
  match type of E with
  | ?m _ = _ =>
      eassert (S : skips m _) by (eauto 30 with skips);
      destruct S as [_ S]; destruct (S d Hp) as (x & S' & Mv);
      rewrite E in S'; destruct a; injection S' as <-; clear S E
  end.

Lemma SFcompare_antisym (x y : float) :
  SFcompare y x = option_map CompOpp (SFcompare x y).
Proof.
  destruct x as [sx|sx| |sx mx ex], y as [sy|sy| |sy my ey]; try reflexivity;
    try (now destruct sx); try (now destruct sy); try (now destruct sx, sy).
  cbn [SFcompare option_map].
  rewrite (Z.compare_antisym ex ey).
  change (Pos.compare_cont Eq my mx) with (Pos.compare my mx).
  change (Pos.compare_cont Eq mx my) with (Pos.compare mx my).
  rewrite (Pos.compare_antisym mx my).
  destruct sx, sy; cbn [CompOpp]; try reflexivity;
    destruct (ex ?= ey); cbn [CompOpp]; try reflexivity;
    destruct (mx ?= my)%positive; reflexivity.
Qed.

(** [a < b] rules out [a >= b]. *)
Lemma flt_not_fge (a b : float) : flt_ a b = true -> fge a b = false.
Proof.
  unfold flt_, fge, SFltb, SFleb. rewrite (SFcompare_antisym a b).
  destruct (SFcompare a b) as [[| |]|]; cbn; congruence.
Qed.

Lemma Version_eqb_eq (a b : Version) : Version_eqb a b = true <-> a = b.
Proof.
  split.
  - destruct a, b; cbn; try discriminate; try reflexivity.
    intros H. apply String.eqb_eq in H. now subst.
  - intros <-. destruct a; cbn; try reflexivity. apply String.eqb_refl.
Qed.

End Facts.

(* ================================================================== *)
(** * Properties of the header parser                                  *)
(* ================================================================== *)

Import Py Rt Struct Re Header Spec Samples Facts MoreSamples.
Local Open Scope string_scope.
Local Open Scope Z_scope.
Local Open Scope list_scope.
Local Open Scope py_scope.

(* ================================================================== *)
(** ** The players block: the Gaia anchor                              *)
(* ================================================================== *)

(** C4, as amended: once the Gaia anchor is located, the back-seek
    distance [rev] is 43 when the save version is below 61.5 and
    [7 + 4 * num_players] from 61.5 on (whatever the edition).  When
    [anchor_absolute - num_players - rev] is not negative the stream is
    positioned there, and the rest of [parse_players] runs from that
    place; when it is negative the seek raises ValueError and
    [parse_players] fails with it. *)
Theorem seek_gaia_position (fuel : nat) (num_players : Z) (version : Version)
    (save : float) (header : BytesIO) :
  let anchor := find ([x05; x00] ++ gaia version ++ [x00]) (remaining header) 0 in
  let rev := if fge save (flt "61.5") then 7 + num_players * 4 else 43 in
  let target := position header + anchor - num_players - rev in
  0 <= position header -> 0 <= anchor ->
  (0 <= target ->
   seek_gaia num_players version save header
   = Ok (tt, mkBytesIO (getvalue header) target)
   /\ parse_players fuel num_players version save header
      = parse_players_from_gaia fuel num_players version save
          (mkBytesIO (getvalue header) target))
  /\ (target < 0 ->
      seek_gaia num_players version save header
      = Raise (Exn ValueError ("negative seek value " ++ dec target))
      /\ parse_players fuel num_players version save header
         = Raise (Exn ValueError ("negative seek value " ++ dec target))).
Proof.
  intros anchor rev target Hpos Hfound.
  assert (Hseek : seek_gaia num_players version save header
                  = seek target (mkBytesIO (getvalue header)
                                   (Z.max (position header) (len (getvalue header))))).
  { unfold seek_gaia, bind, tell. rewrite read_all_eq by assumption. reflexivity. }
  unfold parse_players, bind. rewrite Hseek. unfold seek. cbn [getvalue].
  split; intros Htarget.
  - replace (target <? 0) with false by (symmetry; apply Z.ltb_ge; lia).
    split; reflexivity.
  - apply Z.ltb_lt in Htarget. rewrite Htarget. split; reflexivity.
Qed.

Lemma seek_gaia_position_witness :
  seek_gaia 2 DE (flt "25.22") sample_gaia = Ok (tt, mkBytesIO (getvalue sample_gaia) 5)
  /\ seek_gaia 2 DE (flt "25.22")
       (BytesIO_of ([x05; x00; x47; x61; x69; x61; x00] ++ zeros 8))
     = Raise (Exn ValueError "negative seek value -45").
Proof.
  split.
  - refine (proj1 (proj1 (seek_gaia_position 0 2 DE (flt "25.22") sample_gaia _ _) _));
      vm_compute; discriminate.
  - refine (proj1 (proj2 (seek_gaia_position 0 2 DE (flt "25.22")
                            (BytesIO_of ([x05; x00; x47; x61; x69; x61; x00] ++ zeros 8))
                            _ _) _));
      vm_compute; first [discriminate | reflexivity].
Defined.

(** C4 as stated fails: on a DE file saved at version 25.22 with two
    players the anchor is found at byte 50 and the stream goes to
    [50 - 2 - 43], the legacy distance, not to [50 - 2 - (7 + 4 * 2)]. *)
Lemma seek_gaia_DE_uses_legacy_rev :
  de_or_hd DE = true
  /\ find ([x05; x00] ++ gaia DE ++ [x00]) (remaining sample_gaia) 0 = 50
  /\ seek_gaia 2 DE (flt "25.22") sample_gaia
     = Ok (tt, mkBytesIO (getvalue sample_gaia) (50 - 2 - 43))
  /\ seek_gaia 2 DE (flt "25.22") sample_gaia
     <> Ok (tt, mkBytesIO (getvalue sample_gaia) (50 - 2 - (7 + 4 * 2))).
Proof.
  repeat split; try (vm_compute; reflexivity).
  vm_compute. discriminate.
Qed.

(* ================================================================== *)
(** ** The DE block: string blocks                                     *)
(* ================================================================== *)

(** One round of the loop of [string_block]. *)
Lemma string_block_loop_unfold fuel strings d :
  string_block_loop (S fuel) strings d
  = match unpack "<I" d with
    | Ok (VInt crc, d1) =>
        if (crc <? 255) && (0 <? crc) then Ok (strings, d1)
        else (s <- de_string ;;
              text <- lift (decode_utf8 s) ;;
              string_block_loop fuel (strings ++ [split 58 text])) d1
    | Ok (_, _) => Raise (Exn TypeError "")
    | Raise e => Raise e
    | Diverge => Diverge
    end.
Proof.
  cbn [string_block_loop]. unfold bind at 1.
  destruct (unpack "<I" d) as [[v d1]| |]; try reflexivity.
  destruct v as [| |crc| | | | | | | |]; try reflexivity.
  now destruct ((crc <? 255) && (0 <? crc)).
Qed.

Lemma string_block_loop_S fuel strings d crc d1 :
  unpack "<I" d = Ok (VInt crc, d1) ->
  string_block_loop (S fuel) strings d
  = if (crc <? 255) && (0 <? crc) then Ok (strings, d1)
    else (s <- de_string ;;
          text <- lift (decode_utf8 s) ;;
          string_block_loop fuel (strings ++ [split 58 text])) d1.
Proof. intros U. now rewrite string_block_loop_unfold, U. Qed.

(** The loop does not depend on its fuel once the fuel covers the bytes
    that are left, four per round. *)
Lemma string_block_loop_fuel fuel1 : forall fuel2 strings d,
  0 <= position d ->
  Z.max 0 (len (getvalue d) - position d) < 4 * Z.of_nat fuel1 ->
  Z.max 0 (len (getvalue d) - position d) < 4 * Z.of_nat fuel2 ->
  string_block_loop fuel1 strings d = string_block_loop fuel2 strings d
  /\ string_block_loop fuel1 strings d <> Diverge.
Proof.
  induction fuel1 as [|fuel1 IH]; intros fuel2 strings d Hp H1 H2; [lia|].
  destruct fuel2 as [|fuel2]; [lia|].
  rewrite !string_block_loop_unfold.
  destruct (unpack "<I" d) as [[v d1]| |] eqn:U.
  - destruct (unpack_inv "<I" 4 d v d1 eq_refl ltac:(lia) Hp U) as (B1 & P1 & Hfit).
    destruct v as [| |crc| | | | | | | |]; try (split; [reflexivity | discriminate]).
    destruct ((crc <? 255) && (0 <? crc)); [split; [reflexivity | discriminate]|].
    unfold bind.
    destruct (de_string d1) as [[s d2]| |] eqn:S1;
      [ | split; [reflexivity | discriminate] | now apply de_string_not_Diverge in S1].
    destruct (de_string_mono _ _ _ S1) as [B2 P2].
    unfold lift.
    destruct (decode_utf8 s) as [text| |] eqn:D;
      [ | split; [reflexivity | discriminate] | now apply decode_utf8_not_Diverge in D].
    apply IH; rewrite ?B2, ?B1; lia.
  - split; [reflexivity | discriminate].
  - now apply unpack_not_Diverge in U.
Qed.

(** The strings found so far are a prefix of the result. *)
Lemma string_block_loop_acc fuel : forall strings d,
  string_block_loop fuel strings d
  = (rest <- string_block_loop fuel [] ;; ret (strings ++ rest)) d.
Proof.
  induction fuel as [|fuel IH]; intros strings d; [reflexivity|].
  unfold bind at 1. rewrite !string_block_loop_unfold.
  destruct (unpack "<I" d) as [[v d1]| |]; try reflexivity.
  destruct v as [| |crc| | | | | | | |]; try reflexivity.
  destruct ((crc <? 255) && (0 <? crc)).
  - unfold ret. now rewrite app_nil_r.
  - unfold bind.
    destruct (de_string d1) as [[s d2]| |]; try reflexivity.
    unfold lift.
    destruct (decode_utf8 s) as [text| |]; try reflexivity.
    rewrite IH. rewrite (IH ([] ++ _)). unfold bind.
    destruct (string_block_loop fuel [] d2) as [[rest d3]| |]; try reflexivity.
    unfold ret. now rewrite <- app_assoc.
Qed.

(** [string_block] always comes to an end. *)
Lemma string_block_total d : 0 <= position d -> string_block d <> Diverge.
Proof.
  intros Hp. unfold string_block.
  apply (string_block_loop_fuel _ (S (List.length (getvalue d))) [] d Hp);
    unfold len; lia.
Qed.

(** C1, as amended: in the loop of a string block a u32 is read as [crc]
    (and consumed); the loop ends, with the entries read so far, exactly
    when that word is inside the open interval (0, 255); whenever it is
    outside (0, or 255 and above) another DE string is read, decoded,
    split at the colons and accumulated before the loop goes on. *)
Theorem string_block_step (data d1 : BytesIO) (crc : Z) :
  0 <= position data ->
  unpack "<I" data = Ok (VInt crc, d1) ->
  (0 < crc < 255 -> string_block data = Ok ([], d1))
  /\ (~ 0 < crc < 255 ->
      string_block data
      = (s <- de_string ;;
         text <- lift (decode_utf8 s) ;;
         rest <- string_block ;;
         ret (split 58 text :: rest)) d1).
Proof.
  intros Hp U. unfold string_block at 1 2.
  rewrite (string_block_loop_S _ _ _ _ _ U).
  destruct (unpack_inv "<I" 4 data _ d1 eq_refl ltac:(lia) Hp U) as (B1 & P1 & Hfit).
  split; intros Hcrc.
  - replace ((crc <? 255) && (0 <? crc)) with true; [reflexivity|].
    symmetry. apply andb_true_iff. split; apply Z.ltb_lt; lia.
  - replace ((crc <? 255) && (0 <? crc)) with false.
    2:{ symmetry. apply andb_false_iff.
        destruct (Z_lt_dec crc 255); [right | left]; apply Z.ltb_ge; lia. }
    unfold bind.
    destruct (de_string d1) as [[s d2]| |] eqn:S1; try reflexivity.
    destruct (de_string_mono _ _ _ S1) as [B2 P2].
    unfold lift. destruct (decode_utf8 s) as [text| |]; try reflexivity.
    rewrite string_block_loop_acc. unfold bind, string_block.
    pose proof (len_nonneg (getvalue data)).
    assert (F : string_block_loop (List.length (getvalue data)) [] d2
                = string_block_loop (S (List.length (getvalue d2))) [] d2).
    { apply string_block_loop_fuel; rewrite ?B2, ?B1; unfold len in *; lia. }
    rewrite F. reflexivity.
Qed.

Lemma string_block_step_witness :
  string_block sample_block_1 = Ok ([], mkBytesIO (getvalue sample_block_1) 4).
Proof.
  apply (string_block_step sample_block_1 (mkBytesIO (getvalue sample_block_1) 4) 1);
    vm_compute; first [reflexivity | discriminate | split; reflexivity].
Defined.

(** C1 as stated fails in both directions: the word 1, inside (0, 255),
    ends the loop with no entry read although a DE string follows; the
    word 0, outside the interval, does not end it: the entry [a:b] is
    read and the loop goes on to the next word. *)
Lemma string_block_stops_inside_interval :
  (unpack "<I" sample_block_1 = Ok (VInt 1, mkBytesIO (getvalue sample_block_1) 4)
   /\ string_block sample_block_1 = Ok ([], mkBytesIO (getvalue sample_block_1) 4))
  /\ (unpack "<I" sample_block_0 = Ok (VInt 0, mkBytesIO (getvalue sample_block_0) 4)
      /\ string_block sample_block_0
         = Ok ([[u "a"; u "b"]], mkBytesIO (getvalue sample_block_0) 15)).
Proof. repeat split; vm_compute; reflexivity. Qed.

(* ================================================================== *)
(** ** The version detector                                            *)
(* ================================================================== *)



(* ================================================================== *)
(** ** The lobby block                                                 *)
(* ================================================================== *)

(** C7: in the record of a successfully parsed lobby, [population] is
    the population field of the buffer multiplied by 25 when the version
    is neither DE nor HD, and by 1 when it is DE or HD. *)
Theorem parse_lobby_population (version : Version) (save : float)
    (data data' : BytesIO) (lobby : dict) :
  0 <= position data ->
  parse_lobby version save data = Ok (VDict lobby, data') ->
  dict_get lobby "population"
  = VInt (raw_population version save data * (if de_or_hd version then 1 else 25)).
Proof.
  intros Hp H. unfold parse_lobby in H.
  skip_step H from data Hp as d1 Mv1.
  assert (Hp1 : 0 <= position d1) by (destruct Mv1 as (_ & ? & _); lia).
  skip_step H from d1 Hp1 as d2 Mv2.
  assert (Hp2 : 0 <= position d2) by (destruct Mv2 as (_ & ? & _); lia).
  skip_step H from d2 Hp2 as d3 Mv3.
  assert (Hp3 : 0 <= position d3) by (destruct Mv3 as (_ & ? & _); lia).
  step H as fields d4 E.
  destruct (unpack_eq _ _ _ _ _ _ lobby_fields_format ltac:(cbn; lia) Hp3 E)
    as (B & P & F & Hv).
  rewrite lobby_fields_decode in Hv. subst fields.
  step H as u1 d5 E5. clear E5.
  step H as count d6 E6. destruct count; try discriminate H.
  step H as chat d7 E7. step H as seed d8 E8.
  injection H as <- <-. cbn [dict_get String.eqb Ascii.eqb Bool.eqb].
  unfold raw_population. f_equal.
  replace (if negb (de_or_hd version) then 25 else 1)
    with (if de_or_hd version then 1 else 25) by now destruct (de_or_hd version).
  f_equal. f_equal.
  destruct Mv1 as (B1 & P1 & M1), Mv2 as (B2 & P2 & M2), Mv3 as (B3 & P3 & M3).
  assert (F' : position d3 + 18 <= len (getvalue d3)) by (apply F; cbn; lia).
  assert (Hq : position d3 = position data + lobby_fields_offset version save).
  { unfold lobby_fields_offset. rewrite B3, B2, B1 in *. lia. }
  change (end_offset true [(1, CI); (4, Cx); (1, CI); (1, CI); (1, Cb); (1, Cb)] 0)
    with 18.
  rewrite slice_slice by lia.
  rewrite B3, B2, B1, Hq. f_equal; lia.
Qed.

Lemma parse_lobby_population_witness :
  dict_get (record_of (value_of (parse_lobby USERPATCH15 (flt "11.76") sample_lobby_up)))
           "population"
  = VInt (raw_population USERPATCH15 (flt "11.76") sample_lobby_up * 25)
  /\ dict_get (record_of (value_of (parse_lobby DE (flt "25.22") sample_lobby_de)))
              "population"
     = VInt (raw_population DE (flt "25.22") sample_lobby_de * 1).
Proof.
  split.
  - apply (parse_lobby_population USERPATCH15 (flt "11.76") sample_lobby_up
             (mkBytesIO (getvalue sample_lobby_up) 38));
      vm_compute; first [reflexivity | discriminate].
  - apply (parse_lobby_population DE (flt "25.22") sample_lobby_de
             (mkBytesIO (getvalue sample_lobby_de) 58));
      vm_compute; first [reflexivity | discriminate].
Defined.

(* ================================================================== *)
(** ** The DE block: player slots                                      *)
(* ================================================================== *)

Lemma de_player_slot_censored_name (save : float) :
  flt_ save (flt "66.3") = true ->
  returns (de_player_slot save) censored_as_named.
Proof.
  intros Hlt. apply flt_not_fge in Hlt.
  unfold de_player_slot. rewrite Hlt. to_return.
  apply returns_ret. eexists. repeat split.
Qed.

(** C10: in a DE block parsed at a save version below 66.3, where the
    stream has no censored name, every slot record of [players] still has
    a [censored_name] field, and it equals the [name] field of the slot. *)
Theorem parse_de_censored_name (save : float) (skip : bool) (data data' : BytesIO)
    (de : dict) (players : list val) (slot : val) :
  flt_ save (flt "66.3") = true ->
  parse_de DE save skip data = Ok (VDict de, data') ->
  dict_get de "players" = VList players ->
  In slot players ->
  exists fields,
    slot = VDict fields
    /\ has_key fields "censored_name" = true
    /\ has_key fields "name" = true
    /\ dict_get fields "censored_name" = dict_get fields "name".
Proof.
  intros Hlt H Hplayers Hin.
  enough (R : returns (parse_de DE save skip)
                (fun v => forall de players,
                     v = VDict de -> dict_get de "players" = VList players ->
                     Forall censored_as_named players)).
  { pose proof (R _ _ _ H de players eq_refl Hplayers) as F.
    rewrite Forall_forall in F. exact (F slot Hin). }
  unfold parse_de. cbn [Version_eqb negb].
  to_loop. apply returns_then; intro.
  to_loop. apply (returns_bind _ _ (Forall censored_as_named)).
  { apply returns_for_range; [constructor|].
    intros i ps Hps. apply (returns_bind _ _ censored_as_named).
    - now apply de_player_slot_censored_name.
    - intros p Hp. apply returns_ret. apply Forall_app. split; [assumption|].
      now constructor. }
  intros ps Hps. to_return.
  apply returns_ret. intros de0 players0 [= <-]. cbn. now intros [= <-].
Qed.

Lemma parse_de_censored_name_witness :
  exists fields,
    VDict sample_slot_record = VDict fields
    /\ has_key fields "censored_name" = true
    /\ has_key fields "name" = true
    /\ dict_get fields "censored_name" = dict_get fields "name".
Proof.
  apply (parse_de_censored_name (flt "37.0") false (BytesIO_of sample_de_block)
           (mkBytesIO sample_de_block 925) sample_de_record
           [VDict sample_slot_record] (VDict sample_slot_record));
    [vm_compute; reflexivity | vm_compute; reflexivity | vm_compute; reflexivity
    | left; reflexivity].
Defined.

(* ================================================================== *)
(** ** The players block: the end of a player                          *)
(* ================================================================== *)

(** C5, as amended: for a player at save version 37 or later whose
    fixed fields and objects were parsed, when the PLAYER_END marker is
    neither in the window of 100 bytes nor in the rest of the buffer.
    When the window holds at least nine bytes, so that the device byte
    [data[8]] is there, [parse_player] raises RuntimeError exactly when
    the player is not the last one ([player_number < num_players - 1]);
    for the last player it returns the player record (and the device
    byte), the stream being left at the end of the buffer.  When the
    window holds fewer than nine bytes, [data[8]] raises IndexError
    before any search, for the last player too, and [parse] does not
    turn it into RuntimeError. *)
Theorem parse_player_missing_end (fuel : nat) (player_number num_players : Z)
    (save : float) (header h1 h2 h3 : BytesIO) (player : dict)
    (window rest : bytes) :
  fge save (flt "37") = true ->
  parse_player_objects fuel player_number num_players save header = Ok (player, h1) ->
  read 100 h1 = Ok (window, h2) ->
  search PLAYER_END window = None ->
  read_all h2 = Ok (rest, h3) ->
  search PLAYER_END rest = None ->
  (8 < len window ->
   (player_number < num_players - 1 ->
    parse_player fuel player_number num_players save header
    = Raise (Exn RuntimeError "could not find player end"))
   /\ (~ player_number < num_players - 1 ->
       parse_player fuel player_number num_players save header
       = Ok ((VDict player, VInt (ord (nth 8 window x00))), h3)))
  /\ (len window <= 8 ->
      (exists msg,
         parse_player fuel player_number num_players save header
         = Raise (Exn IndexError msg))
      /\ caught IndexError = false).
Proof.
  intros Hsave Hobjects Hwindow Hnear Hrest Hfar.
  unfold parse_player, bind. rewrite Hobjects, Hsave.
  unfold parse_player_end, bind, tell. rewrite Hwindow.
  unfold lift. split; intros Hlen.
  - rewrite (getitem_bytes window 8) by lia.
    change (Z.to_nat 8) with 8%nat. rewrite Hnear. cbn [is_some negb].
    rewrite Hrest, Hfar. cbn [is_some negb andb].
    split; intros Hlast.
    + apply Z.ltb_lt in Hlast. now rewrite Hlast.
    + replace (player_number <? num_players - 1) with false
        by (symmetry; apply Z.ltb_ge; lia).
      reflexivity.
  - split; [|reflexivity]. exists "". unfold getitem.
    replace (nth_error window (Z.to_nat 8)) with (@None byte)
      by (symmetry; apply nth_error_None; unfold len in Hlen; lia).
    reflexivity.
Qed.

Lemma parse_player_missing_end_witness :
  parse_player 8 0 1 (flt "37") (sample_player 1)
  = Ok ((VDict sample_player_record, VInt 0), mkBytesIO (getvalue (sample_player 1)) 216)
  /\ parse_player 8 0 2 (flt "37") (sample_player 2)
     = Raise (Exn RuntimeError "could not find player end").
Proof.
  split.
  - apply (proj2 (proj1 (parse_player_missing_end 8 0 1 (flt "37") (sample_player 1)
                    (mkBytesIO (getvalue (sample_player 1)) 96)
                    (mkBytesIO (getvalue (sample_player 1)) 196)
                    (mkBytesIO (getvalue (sample_player 1)) 216)
                    sample_player_record (zeros 100) (zeros 20)
                    ltac:(vm_compute; reflexivity) ltac:(vm_compute; reflexivity)
                    ltac:(vm_compute; reflexivity) ltac:(vm_compute; reflexivity)
                    ltac:(vm_compute; reflexivity) ltac:(vm_compute; reflexivity))
                  ltac:(vm_compute; reflexivity))).
    vm_compute. discriminate.
  - apply (proj1 (proj1 (parse_player_missing_end 8 0 2 (flt "37") (sample_player 2)
                    (mkBytesIO (getvalue (sample_player 2)) 97)
                    (mkBytesIO (getvalue (sample_player 2)) 197)
                    (mkBytesIO (getvalue (sample_player 2)) 217)
                    sample_player_record (zeros 100) (zeros 20)
                    ltac:(vm_compute; reflexivity) ltac:(vm_compute; reflexivity)
                    ltac:(vm_compute; reflexivity) ltac:(vm_compute; reflexivity)
                    ltac:(vm_compute; reflexivity) ltac:(vm_compute; reflexivity))
                  ltac:(vm_compute; reflexivity))).
    vm_compute. reflexivity.
Defined.

(** C5 as stated fails: this player is the last one (the only one), its
    fixed fields and objects are parsed up to byte 96, the five bytes
    that are left hold no PLAYER_END marker and nothing follows them, and
    the missing marker is not tolerated: [data[8]] raises IndexError and
    no player record is returned. *)
Lemma parse_player_short_window :
  ~ 0 < 1 - 1
  /\ parse_player_objects 8 0 1 (flt "37") sample_player_short
     = Ok (sample_player_record, mkBytesIO (getvalue sample_player_short) 96)
  /\ read 100 (mkBytesIO (getvalue sample_player_short) 96)
     = Ok (zeros 5, mkBytesIO (getvalue sample_player_short) 101)
  /\ search PLAYER_END (zeros 5) = None
  /\ read_all (mkBytesIO (getvalue sample_player_short) 101)
     = Ok ([], mkBytesIO (getvalue sample_player_short) 101)
  /\ search PLAYER_END [] = None
  /\ parse_player 8 0 1 (flt "37") sample_player_short = Raise (Exn IndexError "").
Proof.
  split; [lia|]. repeat split; vm_compute; reflexivity.
Qed.

(* ================================================================== *)
(** ** The scenario block: the settings anchor                         *)
(* ================================================================== *)

(** When the anchor is not in the rest of the header, [find] answers -1
    and the stream is put 7 bytes (DE) or 12 bytes (other editions) after
    the place where the rest began; nothing is raised. *)
Lemma settings_anchor_missing (version : Version) (save : float) (data : BytesIO) :
  0 <= position data <= len (getvalue data) ->
  find (settings_needle version save) (remaining data) 0 = -1 ->
  settings_anchor version save data
  = Ok (tt, mkBytesIO (getvalue data)
              (position data + (if Version_eqb version DE then 7 else 12))).
Proof.
  intros Hp Hfind. unfold settings_anchor, bind.
  rewrite read_all_eq by lia. unfold seek_cur. cbn [getvalue position].
  unfold settings_needle in Hfind.
  assert (Hl : len (remaining data) = len (getvalue data) - position data).
  { unfold remaining. rewrite len_skipn. lia. }
  assert (E : forall a b : Z, a = b ->
              @Ok (unit * BytesIO) (tt, mkBytesIO (getvalue data) a)
              = Ok (tt, mkBytesIO (getvalue data) b)) by (now intros a b ->).
  destruct (Version_eqb version DE); rewrite Hfind, Hl; apply E; lia.
Qed.

(** C2 fails on the code: in this Userpatch file the settings anchor is
    absent from what follows the fixed part of the scenario block, and
    nothing is raised: [find] answers -1, [parse_scenario] returns its
    record with the stream moved 12 bytes on, the lobby block is read
    from there, and [parse] returns the record of the whole header. *)
Theorem parse_scenario_without_anchor :
  find (settings_needle USERPATCH15 (flt "11.76"))
       (remaining (mkBytesIO sample_lost_header 25615)) 0 = -1
  /\ at_position (parse_scenario 1 USERPATCH15 (flt "11.76")
                    (mkBytesIO sample_lost_header 2370))
     = Ok (VDict [("map_id", VInt 44); ("difficulty_id", VInt 3);
                  ("instructions", VBytes []); ("scenario_filename", VBytes [])],
           25615 + 12)
  /\ parse stored sample_get_version 8 sample_lost_file = Ok (VDict sample_up_output).
Proof. repeat split; vm_compute; reflexivity. Qed.

(* ================================================================== *)
(** ** The whole header                                                *)
(* ================================================================== *)

(** What the stages of a successful [parse] returned, and the record
    built from it: every stage runs at the version and the save version
    that [parse_version] returned. *)
Lemma parse_stages (inflate : bytes -> option bytes)
    (get_version : str -> float -> Z -> result Version)
    (fuel : nat) (data : BytesIO) (out : dict) :
  parse inflate get_version fuel data = Ok (VDict out) ->
  exists header data1 data2 version game save log de hd metadata num_players map_
         players mod_ device scenario lobby h0 h1 h2 h3 h4 h5 h6 h7,
    decompress inflate data = Ok (header, data1)
    /\ parse_version get_version header data1 = Ok ((version, game, save, log, h0), data2)
    /\ supported version = true
    /\ parse_de version save false h0 = Ok (de, h1)
    /\ parse_hd version save h1 = Ok (hd, h2)
    /\ parse_metadata save true h2 = Ok ((metadata, num_players), h3)
    /\ parse_map version save h3 = Ok (map_, h4)
    /\ parse_players fuel num_players version save h4 = Ok ((players, mod_, device), h5)
    /\ parse_scenario num_players version save h5 = Ok (scenario, h6)
    /\ parse_lobby version save h6 = Ok (lobby, h7)
    /\ out = [("version", VVersion version);
              ("game_version", VStr game);
              ("save_version", VFloat save);
              ("log_version", VInt log);
              ("players", players);
              ("map", map_);
              ("de", de);
              ("hd", hd);
              ("mod", if truthy de
                      then match de with VDict d => dict_get d "dlc_ids" | _ => VNone end
                      else mod_);
              ("metadata", metadata);
              ("scenario", scenario);
              ("lobby", lobby);
              ("device", device)].
Proof.
  unfold parse. intros H.
  destruct (parse_try inflate get_version fuel data) as [fields|e|] eqn:T;
    [ | destruct (caught (exn_class_of e)); discriminate | discriminate ].
  injection H as ->. unfold parse_try in T.
  apply and_then_Ok in T as ([header data1] & Hz & T).
  apply and_then_Ok in T as ([[[[[version game] save] log] h0] data2] & Hv & T).
  destruct (supported version) eqn:Hs; [|discriminate]. cbn [negb] in T.
  apply and_then_Ok in T as ([fields h7] & T & [= <-]).
  step T as de h1 Ede. step T as hd h2 Ehd.
  step T as meta h3 Emeta. destruct meta as [metadata num_players].
  step T as map_ h4 Emap.
  step T as pl h5 Epl. destruct pl as [[players mod_] device].
  step T as scenario h6 Esc. step T as lobby h7' Elobby.
  injection T as <- <-.
  exists header, data1, data2, version, game, save, log, de, hd, metadata, num_players,
    map_, players, mod_, device, scenario, lobby, h0, h1, h2, h3, h4, h5, h6, h7'.
  repeat split; assumption.
Qed.

(** The DE block is a record for a DE file and [None] otherwise. *)
Lemma parse_de_record (save : float) (skip : bool) :
  returns (parse_de DE save skip)
    (fun de => exists d dlc_ids,
         de = VDict d /\ truthy de = true /\ dict_get d "dlc_ids" = VList dlc_ids).
Proof.
  unfold parse_de. cbn [Version_eqb negb]. to_return.
  apply returns_ret. eexists _, _. repeat split.
Qed.

Lemma parse_de_none (version : Version) (save : float) (skip : bool) d de d' :
  version <> DE -> parse_de version save skip d = Ok (de, d') -> de = VNone.
Proof.
  intros Hv. unfold parse_de.
  destruct (Version_eqb version DE) eqn:E; [now apply Version_eqb_eq in E|].
  cbn [negb]. now intros [= <- _].
Qed.

(** The mod that [parse_players] returns is what [parse_mod] returned on
    the stream that the seek to the Gaia anchor left. *)
Lemma parse_players_mod (fuel : nat) (num_players : Z) (version : Version) (save : float)
    d players mod_ device d' :
  parse_players fuel num_players version save d = Ok ((players, mod_, device), d') ->
  exists g g',
    seek_gaia num_players version save d = Ok (tt, g)
    /\ parse_mod num_players version g = Ok (mod_, g').
Proof.
  unfold parse_players. intros H.
  step H as u0 g E0. destruct u0. unfold parse_players_from_gaia in H.
  step H as m g' Em. step H as ps g1 E1. step H as cur g2 E2. step H as rest g3 E3.
  step H as u4 g4 E4. step H as u5 g5 E5. step H as u6 g6 E6.
  destruct ps as [|[p0 dev] ps]; [discriminate|].
  injection H as _ <- _ _. eauto.
Qed.

(** C9: in the record of a successfully parsed DE file the top-level
    [mod] is the [dlc_ids] of the DE block, a list, not what [parse_mod]
    returned; for any other version the DE block is absent ([None]) and
    [mod] is what [parse_mod] returned where this parse called it: on the
    header of this file, after the version, the edition blocks, the
    metadata and the map were read and [parse_players] moved the stream
    before the Gaia anchor. *)
Theorem parse_mod_field (inflate : bytes -> option bytes)
    (get_version : str -> float -> Z -> result Version)
    (fuel : nat) (data : BytesIO) (out : dict) :
  parse inflate get_version fuel data = Ok (VDict out) ->
  exists version,
    dict_get out "version" = VVersion version
    /\ (version = DE ->
        exists de dlc_ids,
          dict_get out "de" = VDict de
          /\ dict_get de "dlc_ids" = VList dlc_ids
          /\ dict_get out "mod" = VList dlc_ids)
    /\ (version <> DE ->
        dict_get out "de" = VNone
        /\ exists header data1 data2 game save log h0 de h1 hd h2 metadata num_players
                  h3 map_ h4 g g',
             decompress inflate data = Ok (header, data1)
             /\ parse_version get_version header data1
                = Ok ((version, game, save, log, h0), data2)
             /\ parse_de version save false h0 = Ok (de, h1)
             /\ parse_hd version save h1 = Ok (hd, h2)
             /\ parse_metadata save true h2 = Ok ((metadata, num_players), h3)
             /\ parse_map version save h3 = Ok (map_, h4)
             /\ seek_gaia num_players version save h4 = Ok (tt, g)
             /\ parse_mod num_players version g = Ok (dict_get out "mod", g')).
Proof.
  intros H.
  destruct (parse_stages _ _ _ _ _ H)
    as (header & data1 & data2 & version & game & save & log & de & hd & metadata
        & num_players & map_ & players & mod_ & device & scenario & lobby
        & h0 & h1 & h2 & h3 & h4 & h5 & h6 & h7
        & Hz & Hv & Hs & Ede & Ehd & Emeta & Emap & Epl & Esc & Elobby & ->).
  exists version. cbn [dict_get String.eqb Ascii.eqb Bool.eqb].
  split; [reflexivity|]. split.
  - intros ->.
    destruct (parse_de_record save false _ _ _ Ede) as (d & ids & -> & Ht & Hids).
    rewrite Ht, Hids. eauto.
  - intros Hne.
    pose proof (parse_de_none _ _ _ _ _ _ Hne Ede) as Hnone.
    rewrite Hnone. cbn [truthy].
    split; [reflexivity|].
    destruct (parse_players_mod _ _ _ _ _ _ _ _ _ Epl) as (g & g' & Hg & Hm).
    exists header, data1, data2, game, save, log, h0, de, h1, hd, h2, metadata,
      num_players, h3, map_, h4, g, g'.
    repeat split; assumption.
Qed.

(** *** Booleans of the record *)

Lemma parse_map_all_visible (version : Version) (save : float) :
  returns (parse_map version save)
    (fun m => exists d, m = VDict d /\ is_bool (dict_get d "all_visible")).
Proof.
  unfold parse_map. to_return. apply returns_ret.
  eexists. split; [reflexivity|]. eexists. reflexivity.
Qed.

Lemma parse_lobby_lock_teams (version : Version) (save : float) :
  returns (parse_lobby version save)
    (fun l => exists d, l = VDict d /\ is_bool (dict_get d "lock_teams")).
Proof.
  unfold parse_lobby. to_return. apply returns_ret.
  eexists. split; [reflexivity|]. eexists. reflexivity.
Qed.

Lemma parse_metadata_cheats (save : float) (skip_ai : bool) :
  returns (parse_metadata save skip_ai)
    (fun r => exists d, fst r = VDict d /\ is_bool (dict_get d "cheats")).
Proof.
  unfold parse_metadata. to_return. apply returns_ret.
  eexists. split; [reflexivity|]. eexists. reflexivity.
Qed.

Lemma de_player_slot_prefer_random (save : float) :
  returns (de_player_slot save) slot_flag.
Proof.
  unfold de_player_slot. to_return. apply returns_ret.
  eexists. split; [reflexivity|]. eexists. reflexivity.
Qed.

Lemma parse_de_flags (version : Version) (save : float) (skip : bool) :
  returns (parse_de version save skip)
    (fun de => de = VNone
               \/ exists d players,
                    de = VDict d
                    /\ Forall (fun key => is_bool (dict_get d key)) de_flags
                    /\ dict_get d "players" = VList players
                    /\ Forall slot_flag players).
Proof.
  unfold parse_de. destruct (negb (Version_eqb version DE)).
  { apply returns_ret. now left. }
  to_loop. apply returns_then; intro.
  to_loop. apply (returns_bind _ _ (Forall slot_flag)).
  { apply returns_for_range; [constructor|].
    intros i ps Hps. apply (returns_bind _ _ slot_flag).
    - apply de_player_slot_prefer_random.
    - intros p Hp. apply returns_ret. apply Forall_app. split; [assumption|].
      now constructor. }
  intros ps Hps. to_return. apply returns_ret. right.
  eexists _, ps. split; [reflexivity|]. split.
  - unfold de_flags. repeat (constructor; [eexists; reflexivity|]). constructor.
  - split; [reflexivity | assumption].
Qed.

(** C8: in the record of a successfully parsed header every field named
    as a boolean is a boolean object, not the integer that was read:
    [all_visible] of the map, [lock_teams] of the lobby, [cheats] of the
    metadata, and, when there is a DE block, its flags and the
    [prefer_random] of each of its player slots. *)
Theorem parse_booleans (inflate : bytes -> option bytes)
    (get_version : str -> float -> Z -> result Version)
    (fuel : nat) (data : BytesIO) (out : dict) :
  parse inflate get_version fuel data = Ok (VDict out) ->
  (exists map_, dict_get out "map" = VDict map_
                /\ is_bool (dict_get map_ "all_visible"))
  /\ (exists lobby, dict_get out "lobby" = VDict lobby
                    /\ is_bool (dict_get lobby "lock_teams"))
  /\ (exists metadata, dict_get out "metadata" = VDict metadata
                       /\ is_bool (dict_get metadata "cheats"))
  /\ (dict_get out "de" = VNone
      \/ exists de players,
           dict_get out "de" = VDict de
           /\ Forall (fun key => is_bool (dict_get de key)) de_flags
           /\ dict_get de "players" = VList players
           /\ Forall slot_flag players).
Proof.
  intros H.
  destruct (parse_stages _ _ _ _ _ H)
    as (header & data1 & data2 & version & game & save & log & de & hd & metadata
        & num_players & map_ & players & mod_ & device & scenario & lobby
        & h0 & h1 & h2 & h3 & h4 & h5 & h6 & h7
        & Hz & Hv & Hs & Ede & Ehd & Emeta & Emap & Epl & Esc & Elobby & ->).
  cbn [dict_get String.eqb Ascii.eqb Bool.eqb].
  repeat split.
  - destruct (parse_map_all_visible _ _ _ _ _ Emap) as (d & -> & Hb). eauto.
  - destruct (parse_lobby_lock_teams _ _ _ _ _ Elobby) as (d & -> & Hb). eauto.
  - destruct (parse_metadata_cheats _ _ _ _ _ Emeta) as (d & Hd & Hb).
    cbn [fst] in Hd. subst metadata. eauto.
  - exact (parse_de_flags _ _ _ _ _ _ Ede).
Qed.

Lemma sample_de_parsed :
  parse stored sample_get_version 8 sample_de_file = Ok (VDict sample_de_output).
Proof. vm_compute. reflexivity. Qed.

Lemma sample_up_parsed :
  parse stored sample_get_version 8 sample_up_file = Ok (VDict sample_up_output).
Proof. vm_compute. reflexivity. Qed.

Lemma parse_mod_field_witness :
  (exists de dlc_ids,
     dict_get sample_de_output "de" = VDict de
     /\ dict_get de "dlc_ids" = VList dlc_ids
     /\ dict_get sample_de_output "mod" = VList dlc_ids)
  /\ (dict_get sample_up_output "de" = VNone
      /\ exists num_players save h4 g g',
           seek_gaia num_players USERPATCH15 save h4 = Ok (tt, g)
           /\ parse_mod num_players USERPATCH15 g
              = Ok (dict_get sample_up_output "mod", g')).
Proof.
  split.
  - destruct (parse_mod_field stored sample_get_version 8 sample_de_file
                sample_de_output sample_de_parsed) as (version & Hv & Hde & _).
    apply Hde. vm_compute in Hv. congruence.
  - destruct (parse_mod_field stored sample_get_version 8 sample_up_file
                sample_up_output sample_up_parsed) as (version & Hv & _ & Hup).
    vm_compute in Hv. injection Hv as <-.
    destruct (Hup ltac:(discriminate))
      as (Hnone & header & data1 & data2 & game & save & log & h0 & de & h1 & hd & h2
          & metadata & num_players & h3 & map_ & h4 & g & g'
          & Hz & Hversion & _ & _ & _ & _ & Hg & Hm).
    split; [exact Hnone|]. exists num_players, save, h4, g, g'.
    split; [exact Hg | exact Hm].
Defined.

Lemma parse_booleans_witness :
  (exists map_, dict_get sample_de_output "map" = VDict map_
                /\ is_bool (dict_get map_ "all_visible"))
  /\ (exists lobby, dict_get sample_de_output "lobby" = VDict lobby
                    /\ is_bool (dict_get lobby "lock_teams"))
  /\ (exists metadata, dict_get sample_de_output "metadata" = VDict metadata
                       /\ is_bool (dict_get metadata "cheats"))
  /\ (dict_get sample_de_output "de" = VNone
      \/ exists de players,
           dict_get sample_de_output "de" = VDict de
           /\ Forall (fun key => is_bool (dict_get de key)) de_flags
           /\ dict_get de "players" = VList players
           /\ Forall slot_flag players).
Proof.
  exact (parse_booleans stored sample_get_version 8 sample_de_file sample_de_output
           sample_de_parsed).
Defined.


(* ================================================================== *)
(** * Further properties of the parser                                 *)
(* ================================================================== *)

Import Py Rt Struct Re Header Spec Samples Facts Numerals MoreSamples.
Local Open Scope string_scope.
Local Open Scope Z_scope.
Local Open Scope list_scope.
Local Open Scope py_scope.

(** ** Bytes and integers *)

Lemma ord_bounds (b : byte) : 0 <= ord b < 256.
Proof. unfold ord. pose proof (Byte.to_N_bounded b). lia. Qed.

Lemma byte_of_mod (u : Z) :
  exists b, Byte.of_N (Z.to_N (u mod 256)) = Some b /\ ord b = u mod 256.
Proof.
  pose proof (Z.mod_pos_bound u 256 ltac:(lia)) as Hb.
  destruct (Byte.of_N (Z.to_N (u mod 256))) as [b|] eqn:E.
  - exists b. split; [reflexivity|]. unfold ord. rewrite (Byte.to_of_N _ E). lia.
  - apply Byte.of_N_None_iff in E. lia.
Qed.

Lemma len_le_bytes (k : nat) : forall u, len (le_bytes k u) = Z.of_nat k.
Proof.
  induction k as [|k IH]; intros u; [reflexivity|]. cbn [le_bytes].
  destruct (byte_of_mod u) as (b & -> & _).
  unfold len in *. cbn [List.length]. rewrite Nat2Z.inj_succ, IH. lia.
Qed.

(** The little-endian bytes of an integer hold it modulo their width. *)
Lemma le_uint_le_bytes (k : nat) : forall u,
  le_uint (le_bytes k u) = u mod 256 ^ Z.of_nat k.
Proof.
  induction k as [|k IH]; intros u.
  - cbn. now rewrite Z.mod_1_r.
  - cbn [le_bytes]. destruct (byte_of_mod u) as (b & -> & Hb).
    cbn [le_uint]. rewrite IH, Hb, Nat2Z.inj_succ, Z.pow_succ_r by lia.
    rewrite Z.rem_mul_r by (try apply Z.pow_pos_nonneg; lia). reflexivity.
Qed.

Lemma le_uint_bounds (b : bytes) : 0 <= le_uint b < 256 ^ len b.
Proof.
  induction b as [|x b IH].
  - cbn. lia.
  - cbn [le_uint]. pose proof (ord_bounds x).
    replace (len (x :: b)) with (Z.succ (len b)) by (unfold len; cbn [List.length]; lia).
    rewrite Z.pow_succ_r by apply len_nonneg. lia.
Qed.

(** And the bytes are recovered from the integer they hold. *)
Lemma le_bytes_le_uint (b : bytes) : le_bytes (List.length b) (le_uint b) = b.
Proof.
  induction b as [|x b IH]; [reflexivity|].
  cbn [List.length le_bytes le_uint]. pose proof (ord_bounds x) as Hx.
  assert (Hm : (ord x + 256 * le_uint b) mod 256 = ord x)
    by (symmetry; apply Z.mod_unique with (q := le_uint b); lia).
  assert (Hd : (ord x + 256 * le_uint b) / 256 = le_uint b)
    by (symmetry; apply Z.div_unique with (r := ord x); lia).
  rewrite Hm, Hd.
  unfold ord. rewrite N2Z.id, Byte.of_to_N. now rewrite IH.
Qed.

Lemma le_int_le_bytes (k : nat) (n : Z) :
  (0 < k)%nat -> - 2 ^ (8 * Z.of_nat k - 1) <= n < 2 ^ (8 * Z.of_nat k - 1) ->
  le_int (le_bytes k n) = n.
Proof.
  intros Hk Hn. unfold le_int. rewrite le_uint_le_bytes, len_le_bytes.
  replace (256 ^ Z.of_nat k) with (2 ^ (8 * Z.of_nat k))
    by (rewrite Z.pow_mul_r by lia; reflexivity).
  set (w := 8 * Z.of_nat k) in *.
  assert (Hw : 2 ^ w = 2 * 2 ^ (w - 1)).
  { replace w with (Z.succ (w - 1)) at 1 by lia. apply Z.pow_succ_r. lia. }
  assert (0 < 2 ^ (w - 1)) by (apply Z.pow_pos_nonneg; lia).
  destruct (Z_lt_dec n 0) as [Hneg | Hpos].
  - replace (n mod 2 ^ w) with (n + 2 ^ w)
      by (apply Z.mod_unique with (q := -1); lia).
    destruct (n + 2 ^ w <? 2 ^ (w - 1)) eqn:E; [apply Z.ltb_lt in E|]; lia.
  - rewrite Z.mod_small by lia.
    destruct (n <? 2 ^ (w - 1)) eqn:E; [|apply Z.ltb_ge in E]; lia.
Qed.

(** ** Formats written by f-strings *)

Lemma digits_value_acc (d : Decimal.uint) : forall acc : positive,
  digits_value d (Zpos acc) = Zpos (Pos.of_uint_acc d acc).
Proof.
  induction d; intros acc; cbn [digits_value Pos.of_uint_acc];
    try reflexivity; rewrite <- IHd; f_equal; lia.
Qed.

Lemma digits_value_of_uint (d : Decimal.uint) :
  digits_value d 0 = Z.of_N (Pos.of_uint d).
Proof.
  induction d; cbn [digits_value Pos.of_uint]; try reflexivity;
    try (exact IHd); cbn [Z.mul Z.add]; now rewrite digits_value_acc.
Qed.

Lemma scan_digits (d : Decimal.uint) : forall (s : string) (acc : Z),
  scan (NilEmpty.string_of_uint d ++ s) (Some acc) = scan s (Some (digits_value d acc)).
Proof.
  induction d; intros s acc; cbn [NilEmpty.string_of_uint String.append digits_value];
    try reflexivity;
    (cbn [scan]; change (is_digit _) with true; cbv iota; rewrite <- IHd; reflexivity).
Qed.

Lemma scan_uint (d : Decimal.uint) (s : string) :
  d <> Decimal.Nil ->
  scan (NilEmpty.string_of_uint d ++ s) None = scan s (Some (digits_value d 0)).
Proof.
  destruct d; intros Hd; [congruence| ..];
    cbn [NilEmpty.string_of_uint String.append digits_value scan];
    change (is_digit _) with true; cbv iota; apply scan_digits.
Qed.

(** A count written by an f-string is read back by the format parser. *)
Lemma scan_dec (n : Z) (s : string) :
  0 <= n -> scan (dec n ++ s) None = scan s (Some n).
Proof.
  intros Hn. unfold dec. destruct n as [|p|p]; [reflexivity| |lia].
  cbn [Z.to_int NilZero.string_of_int]. unfold NilZero.string_of_uint.
  assert (Hp : Pos.to_uint p <> Decimal.Nil).
  { intros E. pose proof (DecimalPos.Unsigned.of_to p) as H. rewrite E in H. discriminate H. }
  destruct (Pos.to_uint p) eqn:E; [congruence| ..];
    rewrite <- E in *; rewrite scan_uint by assumption;
    now rewrite digits_value_of_uint, DecimalPos.Unsigned.of_to.
Qed.

(** A negative count makes the format invalid. *)
Lemma scan_dec_negative (n : Z) (s : string) : n < 0 -> scan (dec n ++ s) None = None.
Proof. intros Hn. destruct n; try lia. reflexivity. Qed.

(** ** Reading what lies under the cursor *)

Lemma slice_all {A} (l : list A) : slice l 0 (len l) = l.
Proof.
  rewrite slice_eq by (try apply len_nonneg; lia). pose proof (len_nonneg l).
  replace (Z.min (len l) (len l) - Z.min 0 (len l)) with (len l) by lia.
  replace (Z.min 0 (len l)) with 0 by lia.
  cbn [Z.to_nat skipn]. apply firstn_all2. unfold len. lia.
Qed.

(** Two adjacent slices make one. *)
Lemma slice_app {A} (data : list A) a b c :
  0 <= a -> a <= b -> b <= c ->
  slice data a c = slice data a b ++ slice data b c.
Proof.
  intros Ha Hab Hbc. rewrite !slice_eq by lia.
  pose proof (len_nonneg data) as HL. set (L := len data) in *.
  set (a' := Z.min a L). set (b' := Z.min b L). set (c' := Z.min c L).
  assert (Hb : skipn (Z.to_nat b') data = skipn (Z.to_nat (b' - a')) (skipn (Z.to_nat a') data)).
  { rewrite skipn_skipn. f_equal. lia. }
  rewrite Hb.
  replace (Z.to_nat (c' - a')) with (Z.to_nat (b' - a') + Z.to_nat (c' - b'))%nat by lia.
  generalize (skipn (Z.to_nat a') data) as l. intros l.
  rewrite <- (firstn_skipn (Z.to_nat (b' - a')) l) at 1.
  rewrite firstn_app, firstn_firstn.
  replace (Init.Nat.min (Z.to_nat (b' - a') + Z.to_nat (c' - b')) (Z.to_nat (b' - a')))
    with (Z.to_nat (b' - a')) by lia.
  f_equal. rewrite length_firstn.
  destruct (Nat.le_gt_cases (Z.to_nat (b' - a')) (List.length l)) as [Hle | Hgt].
  - rewrite Nat.min_l by assumption. f_equal. lia.
  - rewrite (skipn_all2 l) by lia. now rewrite !firstn_nil.
Qed.

(** [data.read(n)] returns [data[p:p+n]] whatever is left. *)
Lemma read_slice n d :
  0 <= n -> 0 <= position d -> n < 2 ^ 63 ->
  read n d
  = Ok (slice (getvalue d) (position d) (position d + n),
        mkBytesIO (getvalue d)
          (position d + Z.min n (Z.max 0 (len (getvalue d) - position d)))).
Proof.
  intros Hn Hp Hfit. rewrite read_fits by lia. cbv zeta.
  pose proof (len_nonneg (getvalue d)).
  destruct ((n <? 0) || (len (getvalue d) - position d <? n)) eqn:E.
  - apply orb_true_iff in E as [E | E]; apply Z.ltb_lt in E; [lia|].
    f_equal. f_equal.
    + rewrite !slice_eq by lia. do 2 f_equal. lia.
    + f_equal. lia.
  - apply orb_false_iff in E as [_ E]. apply Z.ltb_ge in E.
    do 3 f_equal. lia.
Qed.

(** When the bytes from the cursor on start with [a], reading [len a]
    bytes returns [a] and leaves the cursor on what follows. *)
Lemma read_app d (a b : bytes) :
  0 <= position d -> remaining d = a ++ b -> len a < 2 ^ 63 ->
  read (len a) d = Ok (a, mkBytesIO (getvalue d) (position d + len a))
  /\ remaining (mkBytesIO (getvalue d) (position d + len a)) = b.
Proof.
  intros Hp H Hfit. unfold remaining in *.
  pose proof (len_nonneg (getvalue d)) as HL.
  pose proof (len_nonneg a) as Ha. pose proof (len_nonneg b) as Hb.
  assert (Hlen : Z.max 0 (len (getvalue d) - position d) = len a + len b).
  { rewrite <- len_app, <- H, len_skipn. now rewrite Z2Nat.id by lia. }
  split.
  - rewrite read_fits by lia. cbv zeta.
    replace ((len a <? 0) || (len (getvalue d) - position d <? len a)) with
      (negb (position d <=? len (getvalue d))).
    2:{ destruct (position d <=? len (getvalue d)) eqn:E1;
          [apply Z.leb_le in E1 | apply Z.leb_gt in E1];
          destruct (len a <? 0) eqn:E2; try (apply Z.ltb_lt in E2; lia);
          destruct (len (getvalue d) - position d <? len a) eqn:E3;
          try reflexivity; [apply Z.ltb_lt in E3 | apply Z.ltb_ge in E3]; lia. }
    destruct (position d <=? len (getvalue d)) eqn:E;
      [apply Z.leb_le in E | apply Z.leb_gt in E]; cbn [negb].
    + f_equal. f_equal. rewrite slice_eq by lia.
      replace (Z.min (position d) (len (getvalue d))) with (position d) by lia.
      replace (Z.min (position d + len a) (len (getvalue d))) with (position d + len a) by lia.
      rewrite H.
      replace (Z.to_nat (position d + len a - position d)) with (List.length a)
        by (unfold len; lia).
      now rewrite firstn_app, Nat.sub_diag, firstn_all, firstn_O, app_nil_r.
    + assert (Hz : len a = 0) by lia.
      assert (a = []) as -> by (destruct a; [reflexivity | unfold len in Hz; cbn in Hz; lia]).
      replace (Z.max (len (getvalue d) - position d) 0) with 0 by lia.
      change (len []) with 0. rewrite Z.add_0_r.
      rewrite slice_eq by lia. now rewrite Z.sub_diag.
  - cbn [getvalue position].
    replace (Z.to_nat (position d + len a)) with (List.length a + Z.to_nat (position d))%nat
      by (unfold len; lia).
    rewrite <- skipn_skipn, H, skipn_app, skipn_all, Nat.sub_diag. reflexivity.
Qed.

(** The same for [unpack]: the chunk under the cursor is decoded. *)
Lemma unpack_app fmt native items d (chunk rest : bytes) :
  parse_format fmt = Some (native, items) ->
  0 <= position d -> remaining d = chunk ++ rest ->
  len chunk = end_offset native items 0 -> len chunk < 2 ^ 63 ->
  unpack fmt d = Ok (match decode native items 0 chunk with
                     | [v] => v
                     | output => VTuple output
                     end,
                     mkBytesIO (getvalue d) (position d + len chunk))
  /\ remaining (mkBytesIO (getvalue d) (position d + len chunk)) = rest.
Proof.
  intros Hfmt Hp H Hlen Hfit. destruct (read_app d chunk rest Hp H Hfit) as [R Hrest].
  split; [|exact Hrest].
  unfold unpack, calcsize. rewrite Hfmt, <- Hlen. unfold bind. rewrite R.
  unfold lift, struct_unpack. rewrite Hfmt, <- Hlen, Z.eqb_refl.
  now destruct (decode native items 0 chunk) as [|v0 [|v1 vs]].
Qed.

(** The format of a counted string, [f'<{n}s']. *)
Lemma counted_string_format (n : Z) :
  0 <= n -> parse_format ("<" ++ dec n ++ "s") = Some (false, [(n, Cs)]).
Proof.
  intros Hn. cbn [String.append parse_format]. now rewrite scan_dec.
Qed.

Lemma counted_string_negative (n : Z) :
  n < 0 -> parse_format ("<" ++ dec n ++ "s") = None.
Proof.
  intros Hn. cbn [String.append parse_format]. now rewrite scan_dec_negative.
Qed.

Lemma bytes_eqb_eq (a b : bytes) : bytes_eqb a b = true <-> a = b.
Proof. unfold bytes_eqb. destruct (list_eq_dec Byte.byte_eq_dec a b); split; congruence. Qed.

Lemma bytes_eqb_refl (a : bytes) : bytes_eqb a a = true.
Proof. now apply bytes_eqb_eq. Qed.

(** A 16-bit length that is not negative, from its two bytes. *)
(** An integer of at most seven bytes is in the range of [ssize_t]. *)
Lemma le_uint_fits (b : bytes) : len b <= 7 -> 0 <= le_uint b < 2 ^ 56.
Proof.
  intros Hl. pose proof (le_uint_bounds b) as Hb. pose proof (len_nonneg b) as Hn.
  assert (Hp : 256 ^ len b <= 256 ^ 7) by (apply Z.pow_le_mono_r; lia).
  change (256 ^ 7) with (2 ^ 56) in Hp. lia.
Qed.

Lemma le_int_fits (b : bytes) : len b <= 7 -> - 2 ^ 56 <= le_int b < 2 ^ 56.
Proof.
  intros Hl. pose proof (le_uint_fits b Hl) as Hu. pose proof (le_uint_bounds b) as Hb.
  pose proof (len_nonneg b) as Hn.
  assert (Hp : 256 ^ len b <= 256 ^ 7) by (apply Z.pow_le_mono_r; lia).
  change (256 ^ 7) with (2 ^ 56) in Hp.
  assert (Hw : 2 ^ (8 * len b) = 256 ^ len b)
    by (rewrite Z.pow_mul_r by lia; reflexivity).
  unfold le_int. cbv zeta. rewrite Hw.
  destruct (le_uint b <? 2 ^ (8 * len b - 1)); lia.
Qed.

(** A slice is no longer than the distance between its bounds. *)
Lemma len_slice_le {A} (data : list A) a b :
  0 <= a -> a <= b -> len (slice data a b) <= b - a.
Proof.
  intros Ha Hab. rewrite len_slice by assumption. pose proof (len_nonneg data). lia.
Qed.

Lemma le_int_short (b : bytes) :
  len b = 2 -> 0 <= le_int b -> le_int b = le_uint b /\ le_int b < 2 ^ 15.
Proof.
  intros Hl. unfold le_int. rewrite Hl. pose proof (le_uint_bounds b) as Hb.
  rewrite Hl in Hb. change (8 * 2 - 1) with 15. change (8 * 2) with 16.
  destruct (le_uint b <? 2 ^ 15) eqn:E; [apply Z.ltb_lt in E | apply Z.ltb_ge in E]; lia.
Qed.

(* ================================================================== *)
(** ** The string readers                                              *)
(* ================================================================== *)

(** X1: a DE string is read back from its encoding.  When the bytes
    under the cursor are the magic [60 0a], the length of [s] as a
    little-endian 16-bit integer and [s] itself, [de_string] returns [s]
    and leaves the cursor on the byte after it. *)
Theorem de_string_round_trip (d : BytesIO) (s rest : bytes) :
  0 <= position d -> len s < 2 ^ 15 ->
  remaining d = [x60; x0a] ++ le_bytes 2 (len s) ++ s ++ rest ->
  de_string d = Ok (s, mkBytesIO (getvalue d) (position d + 4 + len s))
  /\ remaining (mkBytesIO (getvalue d) (position d + 4 + len s)) = rest.
Proof.
  intros Hp Hs H. pose proof (len_nonneg s) as Hn.
  destruct (read_app d [x60; x0a] _ Hp H ltac:(change (len [x60; x0a]) with 2; lia))
    as [R1 H1].
  change (len [x60; x0a]) with 2 in *.
  set (d1 := mkBytesIO (getvalue d) (position d + 2)) in *.
  destruct (unpack_app "<h" false [(1, Ch)] d1 (le_bytes 2 (len s)) (s ++ rest)
              eq_refl ltac:(cbn; lia) H1 (len_le_bytes 2 _)
              ltac:(rewrite len_le_bytes; lia)) as [U1 H2].
  rewrite len_le_bytes in U1, H2. cbn [getvalue position d1] in U1, H2.
  set (d2 := mkBytesIO (getvalue d) (position d + 2 + Z.of_nat 2)) in *.
  destruct (unpack_app _ false [(len s, Cs)] d2 s rest
              (counted_string_format (len s) Hn) ltac:(cbn; lia) H2
              ltac:(cbn; unfold align; cbn; lia) ltac:(lia)) as [U2 H3].
  cbn [getvalue position d2] in U2, H3.
  replace (position d + 2 + Z.of_nat 2 + len s) with (position d + 4 + len s) in * by lia.
  split; [|exact H3].
  assert (D1 : forall c, decode false [(1, Ch)] 0 c = [VInt (le_int (slice c 0 2))])
    by reflexivity.
  assert (D2 : decode false [(len s, Cs)] 0 s = [VBytes s]).
  { cbn [decode align]. rewrite Z.add_0_l. now rewrite slice_all. }
  pose proof (slice_all (le_bytes 2 (len s))) as Sl. rewrite len_le_bytes in Sl.
  change (Z.of_nat 2) with 2 in Sl.
  rewrite D1, Sl, le_int_le_bytes in U1 by (cbn; lia). rewrite D2 in U2.
  unfold de_string, bind, tell. rewrite R1, bytes_eqb_refl. cbn [negb].
  rewrite U1, U2. reflexivity.
Qed.

Lemma de_string_round_trip_witness :
  de_string (mkBytesIO ([x00] ++ [x60; x0a; x02; x00; x61; x62] ++ [xff]) 1)
  = Ok ([x61; x62], mkBytesIO ([x00] ++ [x60; x0a; x02; x00; x61; x62] ++ [xff]) 7).
Proof.
  apply (de_string_round_trip
           (mkBytesIO ([x00] ++ [x60; x0a; x02; x00; x61; x62] ++ [xff]) 1)
           [x61; x62] [xff]);
    vm_compute; first [reflexivity | discriminate].
Defined.

(** What an [unpack] of one 16-bit length returned. *)
Lemma unpack_short d v d' :
  0 <= position d -> unpack "<h" d = Ok (v, d') ->
  getvalue d' = getvalue d /\ position d' = position d + 2
  /\ position d + 2 <= len (getvalue d)
  /\ v = VInt (le_int (slice (getvalue d) (position d) (position d + 2))).
Proof.
  intros Hp U.
  destruct (unpack_eq "<h" false [(1, Ch)] d v d' eq_refl ltac:(cbn; lia) Hp U)
    as (B & P & F & V).
  change (end_offset false [(1, Ch)] 0) with 2 in *.
  specialize (F ltac:(lia)). repeat split; try assumption.
  rewrite V.
  change (decode false [(1, Ch)] 0 ?c) with [VInt (le_int (slice c 0 2))].
  cbv iota. rewrite (slice_slice _ _ 2 0 2) by lia. now rewrite Z.add_0_r.
Qed.

(** What an [unpack] of a counted string returned. *)
Lemma unpack_counted_string n d v d' :
  0 <= position d -> unpack ("<" ++ dec n ++ "s") d = Ok (v, d') ->
  0 <= n /\ getvalue d' = getvalue d /\ position d' = position d + n
  /\ (0 < n -> position d + n <= len (getvalue d))
  /\ len (slice (getvalue d) (position d) (position d + n)) = n
  /\ v = VBytes (slice (getvalue d) (position d) (position d + n)).
Proof.
  intros Hp U.
  destruct (Z_lt_dec n 0) as [Hneg | Hn].
  { unfold unpack, calcsize in U. now rewrite counted_string_negative in U. }
  apply Z.nlt_ge in Hn.
  assert (E : end_offset false [(n, Cs)] 0 = n) by (cbn; unfold align; cbn; lia).
  destruct (unpack_eq _ false [(n, Cs)] d v d' (counted_string_format n Hn)
              ltac:(lia) Hp U) as (B & P & F & V).
  rewrite E in *. split; [assumption|]. split; [assumption|]. split; [assumption|].
  split; [assumption|].
  assert (Hl : len (slice (getvalue d) (position d) (position d + n)) = n).
  { pose proof (len_nonneg (getvalue d)). rewrite len_slice by lia.
    destruct (Z.eq_dec n 0) as [-> | Hne]; [lia|]. specialize (F ltac:(lia)). lia. }
  split; [assumption|].
  rewrite V. cbn [decode align]. cbv iota. rewrite Z.add_0_l.
  set (c := slice (getvalue d) (position d) (position d + n)) in *. clearbody c.
  f_equal. rewrite <- Hl. apply slice_all.
Qed.

(** X2: what [de_string] consumed is the encoding of what it returned.
    After a successful read the cursor has moved by four bytes and the
    length of the string, inside the buffer, and the bytes it passed are
    the magic [60 0a], the length as a little-endian 16-bit integer and
    the string. *)
Theorem de_string_consumed (d d' : BytesIO) (s : bytes) :
  0 <= position d -> de_string d = Ok (s, d') ->
  getvalue d' = getvalue d
  /\ position d' = position d + 4 + len s
  /\ position d' <= len (getvalue d)
  /\ slice (getvalue d) (position d) (position d')
     = [x60; x0a] ++ le_bytes 2 (len s) ++ s.
Proof.
  intros Hp H. unfold de_string in H.
  step H as p d0 T. injection T as <- <-.
  step H as got d1 R.
  destruct (bytes_eqb got [x60; x0a]) eqn:E; [|discriminate H]. cbn [negb] in H.
  apply bytes_eqb_eq in E. subst got.
  destruct (read_inv _ _ _ _ R) as (B1 & _ & G).
  destruct (read_exact 2 _ _ _ Hp ltac:(lia) R eq_refl) as [P1 F1].
  specialize (F1 ltac:(lia)). rewrite P1 in G.
  step H as v d2 U1. destruct v as [| |n| | | | | | | |]; try discriminate H.
  destruct (unpack_short d1 _ _ ltac:(lia) U1) as (B2 & P2 & F2 & V2).
  injection V2 as V2. rewrite B1, P1 in *.
  step H as v d3 U2. destruct v as [| | | |s'| | | | | |]; try discriminate H.
  injection H as <- <-.
  destruct (unpack_counted_string n d2 _ _ ltac:(lia) U2) as (Hn & B3 & P3 & F3 & L3 & V3).
  injection V3 as V3. rewrite B2, P2 in *.
  assert (Hs : len s' = n) by (rewrite V3; exact L3).
  assert (Hfit : position d + 4 + n <= len (getvalue d)).
  { destruct (Z.eq_dec n 0); [lia | specialize (F3 ltac:(lia)); lia]. }
  split; [congruence|]. split; [lia|]. split; [lia|].
  rewrite P3, Hs.
  rewrite (slice_app _ _ (position d + 2)) by lia.
  rewrite (slice_app _ (position d + 2) (position d + 2 + 2)) by lia.
  rewrite <- G, <- V3. do 2 f_equal.
  set (c := slice (getvalue d) (position d + 2) (position d + 2 + 2)) in *.
  assert (Hc : len c = 2) by (unfold c; rewrite len_slice; lia).
  destruct (le_int_short c Hc ltac:(lia)) as [Hu _].
  rewrite V2, Hu.
  replace 2%nat with (List.length c) by (unfold len in Hc; lia).
  symmetry. apply le_bytes_le_uint.
Qed.

Lemma de_string_consumed_witness :
  slice [x60; x0a; x02; x00; x61; x62; xff] 0 6
  = [x60; x0a] ++ le_bytes 2 (len [x61; x62]) ++ [x61; x62].
Proof.
  refine (proj2 (proj2 (proj2
    (de_string_consumed (BytesIO_of [x60; x0a; x02; x00; x61; x62; xff])
       (mkBytesIO [x60; x0a; x02; x00; x61; x62; xff] 6) [x61; x62] _ _))));
    vm_compute; first [reflexivity | discriminate].
Defined.

(** X3: an HD string is read back from its encoding, which has the
    length first and the magic [60 0a] after it. *)
Theorem hd_string_round_trip (d : BytesIO) (s rest : bytes) :
  0 <= position d -> len s < 2 ^ 15 ->
  remaining d = le_bytes 2 (len s) ++ [x60; x0a] ++ s ++ rest ->
  hd_string d = Ok (s, mkBytesIO (getvalue d) (position d + 4 + len s))
  /\ remaining (mkBytesIO (getvalue d) (position d + 4 + len s)) = rest.
Proof.
  intros Hp Hs H. pose proof (len_nonneg s) as Hn.
  destruct (unpack_app "<h" false [(1, Ch)] d (le_bytes 2 (len s)) _
              eq_refl Hp H (len_le_bytes 2 _) ltac:(rewrite len_le_bytes; lia)) as [U1 H1].
  rewrite len_le_bytes in U1, H1. change (Z.of_nat 2) with 2 in *.
  set (d1 := mkBytesIO (getvalue d) (position d + 2)) in *.
  destruct (read_app d1 [x60; x0a] _ ltac:(cbn; lia) H1
              ltac:(change (len [x60; x0a]) with 2; lia)) as [R1 H2].
  change (len [x60; x0a]) with 2 in *. cbn [getvalue position d1] in R1, H2.
  set (d2 := mkBytesIO (getvalue d) (position d + 2 + 2)) in *.
  destruct (unpack_app _ false [(len s, Cs)] d2 s rest
              (counted_string_format (len s) Hn) ltac:(cbn; lia) H2
              ltac:(cbn; unfold align; cbn; lia) ltac:(lia)) as [U2 H3].
  cbn [getvalue position d2] in U2, H3.
  replace (position d + 2 + 2 + len s) with (position d + 4 + len s) in * by lia.
  split; [|exact H3].
  assert (D1 : forall c, decode false [(1, Ch)] 0 c = [VInt (le_int (slice c 0 2))])
    by reflexivity.
  assert (D2 : decode false [(len s, Cs)] 0 s = [VBytes s]).
  { cbn [decode align]. rewrite Z.add_0_l. now rewrite slice_all. }
  pose proof (slice_all (le_bytes 2 (len s))) as Sl. rewrite len_le_bytes in Sl.
  change (Z.of_nat 2) with 2 in Sl.
  rewrite D1, Sl, le_int_le_bytes in U1 by (cbn; lia). rewrite D2 in U2.
  unfold hd_string, bind, tell. rewrite U1. fold d1. rewrite R1, bytes_eqb_refl.
  cbn [negb]. rewrite U2. reflexivity.
Qed.

Lemma hd_string_round_trip_witness :
  hd_string (BytesIO_of ([x02; x00; x60; x0a; x61; x62] ++ [xff]))
  = Ok ([x61; x62], mkBytesIO ([x02; x00; x60; x0a; x61; x62] ++ [xff]) 6).
Proof.
  apply (hd_string_round_trip (BytesIO_of ([x02; x00; x60; x0a; x61; x62] ++ [xff]))
           [x61; x62] [xff]);
    vm_compute; first [reflexivity | discriminate].
Defined.

(** The bytes from the cursor on, split after [n] of them. *)
Lemma remaining_split d n :
  0 <= position d -> 0 <= n -> position d + n <= len (getvalue d) ->
  remaining d = slice (getvalue d) (position d) (position d + n)
                ++ remaining (mkBytesIO (getvalue d) (position d + n)).
Proof.
  intros Hp Hn Hfit. unfold remaining. cbn [getvalue position].
  rewrite slice_eq by lia.
  replace (Z.min (position d + n) (len (getvalue d))) with (position d + n) by lia.
  replace (Z.min (position d) (len (getvalue d))) with (position d) by lia.
  replace (Z.to_nat (position d + n)) with (Z.to_nat (position d + n - position d)
                                            + Z.to_nat (position d))%nat by lia.
  rewrite <- skipn_skipn. symmetry. apply firstn_skipn.
Qed.

(** [unpack] on a stream that holds the bytes of the format. *)
Lemma unpack_at fmt native items d :
  parse_format fmt = Some (native, items) ->
  0 <= position d ->
  let n := end_offset native items 0 in
  0 <= n -> position d + n <= len (getvalue d) -> n < 2 ^ 63 ->
  unpack fmt d
  = Ok (match decode native items 0 (slice (getvalue d) (position d) (position d + n)) with
        | [v] => v
        | output => VTuple output
        end,
        mkBytesIO (getvalue d) (position d + n)).
Proof.
  intros Hfmt Hp n Hn Hfit Hsmall.
  assert (Hl : len (slice (getvalue d) (position d) (position d + n)) = n)
    by (rewrite len_slice; lia).
  destruct (unpack_app fmt native items d _ _ Hfmt Hp (remaining_split d n Hp Hn Hfit) Hl
              ltac:(lia)) as [U _].
  now rewrite Hl in U.
Qed.

(** [unpack] on a stream that ends before the format does. *)
Lemma unpack_truncated fmt n d :
  calcsize fmt = Some n -> 0 < n -> 0 <= position d ->
  len (getvalue d) < position d + n -> n < 2 ^ 63 ->
  unpack fmt d = Raise (Exn struct_error "").
Proof.
  intros Hsize Hn Hp Hshort Hsmall. unfold unpack. rewrite Hsize. unfold bind.
  rewrite read_slice by lia. unfold lift, struct_unpack.
  unfold calcsize in Hsize.
  destruct (parse_format fmt) as [[native items]|]; [|discriminate].
  injection Hsize as Hsize. rewrite Hsize.
  pose proof (len_nonneg (getvalue d)).
  replace (len (slice (getvalue d) (position d) (position d + n)) =? n) with false;
    [reflexivity|].
  symmetry. apply Z.eqb_neq. rewrite len_slice by lia. lia.
Qed.

(** X4: the length-prefixed strings never fail once their length is
    there.  [aoc_string] takes a signed 16-bit length and
    [int_prefixed_string] an unsigned 32-bit one; both return the bytes
    that follow, as many as the length says when that many are left.  A
    length larger than what is left gives a shorter string, and a
    negative length gives all that is left, both without an error. *)
Theorem prefixed_strings_read (d : BytesIO) :
  let data := getvalue d in
  let p := position d in
  0 <= p ->
  (p + 2 <= len data ->
   let n := le_int (slice data p (p + 2)) in
   let left := len data - (p + 2) in
   let k := if (0 <=? n) && (n <=? left) then n else left in
   aoc_string d = Ok (slice data (p + 2) (p + 2 + k), mkBytesIO data (p + 2 + k)))
  /\ (p + 4 <= len data ->
      let n := le_uint (slice data p (p + 4)) in
      let left := len data - (p + 4) in
      let k := Z.min n left in
      int_prefixed_string d
      = Ok (slice data (p + 4) (p + 4 + k), mkBytesIO data (p + 4 + k))).
Proof.
  intros data p Hp. pose proof (len_nonneg data) as HL. unfold data, p in *.
  clear data p. split.
  - intros Hfit.
    set (n := le_int (slice (getvalue d) (position d) (position d + 2))).
    set (left := len (getvalue d) - (position d + 2)).
    unfold aoc_string, bind.
    rewrite (unpack_at "<h" false [(1, Ch)] d eq_refl Hp ltac:(cbn; lia) Hfit
               ltac:(cbn; lia)).
    change (end_offset false [(1, Ch)] 0) with 2.
    change (decode false [(1, Ch)] 0 ?c) with [VInt (le_int (slice c 0 2))].
    cbv iota. rewrite (slice_slice _ _ 2 0 2) by lia. rewrite Z.add_0_r.
    fold n.
    assert (Hfits : fits_ssize_t n = true).
    { apply fits_ssize_t_true.
      pose proof (le_int_fits (slice (getvalue d) (position d) (position d + 2))
                    ltac:(pose proof (len_slice_le (getvalue d) (position d)
                                        (position d + 2)); lia)) as Hb.
      fold n in Hb. lia. }
    unfold read. rewrite Hfits. cbn [negb getvalue position]. fold left.
    replace (if (n <? 0) || (left <? n) then Z.max left 0 else n)
      with (if (0 <=? n) && (n <=? left) then n else left); [reflexivity|].
    destruct (n <? 0) eqn:E1; [apply Z.ltb_lt in E1 | apply Z.ltb_ge in E1];
      (destruct (left <? n) eqn:E2; [apply Z.ltb_lt in E2 | apply Z.ltb_ge in E2]);
      (destruct (0 <=? n) eqn:E3; [apply Z.leb_le in E3 | apply Z.leb_gt in E3]);
      (destruct (n <=? left) eqn:E4; [apply Z.leb_le in E4 | apply Z.leb_gt in E4]);
      cbn [orb andb]; unfold left in *; lia.
  - intros Hfit.
    set (n := le_uint (slice (getvalue d) (position d) (position d + 4))).
    set (left := len (getvalue d) - (position d + 4)).
    unfold int_prefixed_string, bind.
    rewrite (unpack_at "<I" false [(1, CI)] d eq_refl Hp ltac:(cbn; lia) Hfit
               ltac:(cbn; lia)).
    change (end_offset false [(1, CI)] 0) with 4.
    change (decode false [(1, CI)] 0 ?c) with [VInt (le_uint (slice c 0 4))].
    cbv iota. rewrite (slice_slice _ _ 4 0 4) by lia. rewrite Z.add_0_r.
    fold n.
    assert (Hfits : fits_ssize_t n = true).
    { apply fits_ssize_t_true.
      pose proof (le_uint_fits (slice (getvalue d) (position d) (position d + 4))
                    ltac:(pose proof (len_slice_le (getvalue d) (position d)
                                        (position d + 4)); lia)) as Hb.
      fold n in Hb. lia. }
    unfold read. rewrite Hfits. cbn [negb getvalue position]. fold left.
    assert (Hn : 0 <= n) by apply le_uint_bounds.
    replace (if (n <? 0) || (left <? n) then Z.max left 0 else n) with (Z.min n left);
      [reflexivity|].
    destruct (n <? 0) eqn:E1; [apply Z.ltb_lt in E1; lia|].
    destruct (left <? n) eqn:E2; [apply Z.ltb_lt in E2 | apply Z.ltb_ge in E2];
      cbn [orb]; unfold left in *; lia.
Qed.

Lemma prefixed_strings_read_witness :
  aoc_string (BytesIO_of [xff; xff; x61; x62; x63])
  = Ok ([x61; x62; x63], mkBytesIO [xff; xff; x61; x62; x63] 5)
  /\ int_prefixed_string (BytesIO_of [x09; x00; x00; x00; x61; x62])
     = Ok ([x61; x62], mkBytesIO [x09; x00; x00; x00; x61; x62] 6).
Proof.
  split.
  - apply (proj1 (prefixed_strings_read (BytesIO_of [xff; xff; x61; x62; x63])
                    ltac:(vm_compute; discriminate))).
    vm_compute. discriminate.
  - apply (proj2 (prefixed_strings_read (BytesIO_of [x09; x00; x00; x00; x61; x62])
                    ltac:(vm_compute; discriminate))).
    vm_compute. discriminate.
Defined.

(** X5: how [de_string] fails.  When the two bytes under the cursor are
    not the magic [60 0a] (or are not there), it raises ValueError with a
    message that names the position and the bytes found; when the magic
    is there but the length is missing, negative, or larger than what is
    left, it raises struct.error. *)
Theorem de_string_failures (d : BytesIO) :
  let data := getvalue d in
  let p := position d in
  let got := slice data p (p + 2) in
  0 <= p ->
  (got <> [x60; x0a] ->
   de_string d = Raise (Exn ValueError (magic_mismatch "de_string" p got)))
  /\ (got = [x60; x0a] ->
      let n := le_int (slice data (p + 2) (p + 4)) in
      len data < p + 4 \/ n < 0 \/ len data < p + 4 + n ->
      exists msg, de_string d = Raise (Exn struct_error msg)).
Proof.
  intros data p got Hp. unfold data, p in *. clear data p.
  pose proof (len_nonneg (getvalue d)) as HL.
  unfold de_string, bind, tell. rewrite read_slice by lia. fold got. split.
  - intros Hgot.
    destruct (bytes_eqb got [x60; x0a]) eqn:E; [now apply bytes_eqb_eq in E|].
    reflexivity.
  - intros Hgot Hbad.
    set (n := le_int (slice (getvalue d) (position d + 2) (position d + 4))) in *.
    rewrite Hgot, bytes_eqb_refl. cbn [negb].
    assert (Hl : position d + 2 <= len (getvalue d)).
    { assert (Hlg : len got = 2) by now rewrite Hgot.
      unfold got in Hlg. rewrite len_slice in Hlg by lia. lia. }
    replace (Z.min 2 (Z.max 0 (len (getvalue d) - position d))) with 2 by lia.
    set (d1 := mkBytesIO (getvalue d) (position d + 2)).
    destruct (Z_lt_dec (len (getvalue d)) (position d + 4)) as [Hshort | Hlong].
    { rewrite (unpack_truncated "<h" 2 d1) by (cbn; first [reflexivity | lia]).
      eexists. reflexivity. }
    rewrite (unpack_at "<h" false [(1, Ch)] d1 eq_refl) by (cbn; lia).
    change (end_offset false [(1, Ch)] 0) with 2.
    change (decode false [(1, Ch)] 0 ?c) with [VInt (le_int (slice c 0 2))].
    cbv iota. cbn [getvalue position d1].
    rewrite (slice_slice _ _ 2 0 2) by lia. rewrite Z.add_0_r.
    replace (position d + 2 + 2) with (position d + 4) by lia. fold n.
    set (d2 := mkBytesIO (getvalue d) (position d + 4)).
    destruct (Z_lt_dec n 0) as [Hneg | Hn].
    { unfold unpack, calcsize. rewrite counted_string_negative by assumption.
      eexists. reflexivity. }
    assert (Hsmall : n < 2 ^ 63).
    { pose proof (le_int_fits (slice (getvalue d) (position d + 2) (position d + 4))
                    ltac:(pose proof (len_slice_le (getvalue d) (position d + 2)
                                        (position d + 4)); lia)) as Hb.
      fold n in Hb. lia. }
    rewrite (unpack_truncated _ n d2);
      [eexists; reflexivity | | lia | cbn; lia | cbn; lia | exact Hsmall].
    unfold calcsize. rewrite counted_string_format by lia.
    cbn [end_offset align]. f_equal. cbn. lia.
Qed.

Lemma de_string_failures_witness :
  de_string (BytesIO_of [x60; x0b; x00; x00])
  = Raise (Exn ValueError "de_string magic mismatch at pos 0: expected 60 0a, got '600b'")
  /\ exists msg, de_string (BytesIO_of [x60; x0a; x05; x00; x61])
                 = Raise (Exn struct_error msg).
Proof.
  split.
  - apply (proj1 (de_string_failures (BytesIO_of [x60; x0b; x00; x00])
                    ltac:(vm_compute; discriminate))).
    vm_compute. discriminate.
  - apply (proj2 (de_string_failures (BytesIO_of [x60; x0a; x05; x00; x61])
                    ltac:(vm_compute; discriminate))).
    + vm_compute. reflexivity.
    + right. right. vm_compute. reflexivity.
Defined.

(* ================================================================== *)
(** ** The Userpatch mod version                                       *)
(* ================================================================== *)

(** A format with one counted item, as an f-string writes it. *)
Lemma counted_format (n : Z) (c : ascii) (k : code) :
  0 <= n -> is_digit c = false -> code_of c = Some k ->
  parse_format ("<" ++ dec n ++ String c "") = Some (false, [(n, k)]).
Proof.
  intros Hn Hc Hk. cbn [String.append parse_format]. rewrite scan_dec by assumption.
  cbn [scan]. now rewrite Hc, Hk.
Qed.

Lemma counted_format_negative (n : Z) (s : string) :
  n < 0 -> parse_format ("<" ++ dec n ++ s) = None.
Proof.
  intros Hn. cbn [String.append parse_format]. now rewrite scan_dec_negative.
Qed.

Lemma length_range (n : Z) : List.length (range n) = Z.to_nat n.
Proof. unfold range. now rewrite length_map, length_seq. Qed.

(** The items of [range]. *)
Lemma nth_error_range (n : Z) (k : nat) :
  (k < Z.to_nat n)%nat -> nth_error (range n) k = Some (Z.of_nat k).
Proof.
  intros Hk. unfold range.
  rewrite (nth_error_nth' _ 0) by (now rewrite length_map, length_seq).
  f_equal. rewrite (map_nth Z.of_nat _ 0%nat), seq_nth by assumption. reflexivity.
Qed.

(** C3, as amended: for a USERPATCH15 replay in which the three reads of
    the mod-parsing site succeed and at least 199 resources are read,
    [values[198]] is a float.  When it is finite, [parse_mod] returns the
    pair [(major, minor)] where [major] is the floor of
    [int(values[198]) / 1000], an integer of either sign, and [minor] is
    the text of the decimal digits of [int(values[198]) % 1000] joined by
    dots, and the stream is left where it was; when it is NaN [int]
    raises ValueError, and OverflowError when it is infinite. *)
Theorem parse_mod_userpatch15 (num_players : Z) (header h1 h2 h3 : BytesIO)
    (name_length resources : Z) (values : val) :
  0 <= position header ->
  unpack ("<xx" ++ dec num_players ++ "x36x5xh") header = Ok (VInt name_length, h1) ->
  unpack ("<" ++ dec (name_length + 1) ++ "xIx") h1 = Ok (VInt resources, h2) ->
  unpack ("<" ++ dec resources ++ "f") h2 = Ok (values, h3) ->
  199 <= resources ->
  exists x : float,
    getitem values 198 = Ok (VFloat x)
    /\ match x with
       | S754_nan =>
           exists msg,
             parse_mod num_players USERPATCH15 header = Raise (Exn ValueError msg)
       | S754_infinity _ =>
           exists msg,
             parse_mod num_players USERPATCH15 header = Raise (Exn OverflowError msg)
       | _ =>
           exists number,
             int_ (VFloat x) = Ok number
             /\ parse_mod num_players USERPATCH15 header
                = Ok (VTuple [VInt (number / 1000);
                              VStr (join (u ".") (chars (u (dec (number mod 1000)))))],
                      header)
       end.
Proof.
  intros Hp U1 U2 U3 Hmany.
  destruct (unpack_mono _ _ _ _ U1) as [B1 P1].
  destruct (unpack_mono _ _ _ _ U2) as [B2 P2].
  destruct (unpack_mono _ _ _ _ U3) as [B3 P3].
  destruct (unpack_eq _ false [(resources, Cf)] h2 values h3
              (counted_format resources "f" Cf ltac:(lia) eq_refl eq_refl)
              ltac:(cbn; unfold align; cbn; lia) ltac:(lia) U3) as (_ & _ & _ & V).
  cbn [decode align] in V. rewrite app_nil_r in V.
  set (floats := map _ (range resources)) in V.
  assert (Hl : List.length floats = Z.to_nat resources)
    by (unfold floats; now rewrite length_map, length_range).
  assert (Hx : exists x, nth_error floats 198 = Some (VFloat x)).
  { unfold floats. rewrite nth_error_map, nth_error_range by lia.
    cbn [option_map decode_one]. eauto. }
  destruct Hx as (x & Hx). exists x.
  assert (Hv : values = VTuple floats).
  { clearbody floats. destruct floats as [|y [|z l]]; try assumption; cbn in Hl; lia. }
  assert (G : getitem values 198 = Ok (VFloat x)).
  { rewrite Hv. unfold getitem. change (Z.to_nat 198) with 198%nat. now rewrite Hx. }
  split; [exact G|].
  assert (E : parse_mod num_players USERPATCH15 header
              = match int_of_float x with
                | Ok number =>
                    Ok (VTuple [VInt (number / 1000);
                                VStr (join (u ".") (chars (u (dec (number mod 1000)))))],
                        header)
                | Raise e => Raise e
                | Diverge => Diverge
                end).
  { unfold parse_mod, bind, tell. rewrite U1, U2, U3.
    unfold seek. destruct (position header <? 0) eqn:E; [apply Z.ltb_lt in E; lia|].
    cbn [Version_eqb]. unfold lift, ret. rewrite G. cbn [int_].
    destruct (int_of_float x); [|reflexivity..].
    rewrite B3, B2, B1. now destruct header. }
  rewrite E.
  destruct x; cbn [int_ int_of_float]; unfold builtin;
    first [eexists; split; reflexivity | eexists; reflexivity].
Qed.

Lemma parse_mod_userpatch15_witness :
  parse_mod 2 USERPATCH15 sample_mod
  = Ok (VTuple [VInt 1; VStr (u "5.1.0")], sample_mod).
Proof.
  destruct (parse_mod_userpatch15 2 sample_mod
              (mkBytesIO (getvalue sample_mod) 47) (mkBytesIO (getvalue sample_mod) 58)
              (mkBytesIO (getvalue sample_mod) 854) 5 199
              (VTuple (repeat (VFloat (S754_zero false)) 198
                       ++ [VFloat (float_of_bits32 1153220608)]))
              ltac:(vm_compute; discriminate) ltac:(vm_compute; reflexivity)
              ltac:(vm_compute; reflexivity) ltac:(vm_compute; reflexivity)
              ltac:(vm_compute; discriminate)) as (x & Hx & Hmod).
  vm_compute in Hx. injection Hx as <-.
  destruct Hmod as (number & Hnumber & Hmod).
  vm_compute in Hnumber. injection Hnumber as <-. exact Hmod.
Defined.

(** C3 as stated fails twice.  With [values[198] = 1510.0] the second
    component is ["5.1.0"], not ["510"], the decimal representation of
    [1510 % 1000]; and with [values[198] = -1000.0] the first component
    is [-1], which no unsigned 16-bit integer is. *)
Lemma parse_mod_minor_is_dotted :
  (u (dec (1510 mod 1000)) = u "510"
   /\ parse_mod 2 USERPATCH15 sample_mod
      = Ok (VTuple [VInt 1; VStr (u "5.1.0")], sample_mod)
   /\ parse_mod 2 USERPATCH15 sample_mod
      <> Ok (VTuple [VInt (1510 / 1000); VStr (u (dec (1510 mod 1000)))], sample_mod))
  /\ (parse_mod 2 USERPATCH15 sample_mod_negative
      = Ok (VTuple [VInt (-1); VStr (u "0")], sample_mod_negative)
      /\ ~ 0 <= -1 < 2 ^ 16).
Proof.
  split; [repeat split; try (vm_compute; reflexivity); vm_compute; discriminate|].
  split; [vm_compute; reflexivity | lia].
Qed.

(** X6: [parse_mod] never moves the cursor, and only a Userpatch 1.5
    file has a mod version.  Whatever it read, a successful call leaves
    the stream exactly as it found it; for any other version the result
    is [None]. *)
Theorem parse_mod_keeps_cursor (num_players : Z) (version : Version)
    (header header' : BytesIO) (mod_ : val) :
  parse_mod num_players version header = Ok (mod_, header') ->
  header' = header /\ (version <> USERPATCH15 -> mod_ = VNone).
Proof.
  intros H. unfold parse_mod in H.
  step H as cur d0 T. injection T as <- <-.
  step H as v1 h1 U1. destruct v1; try discriminate H.
  step H as v2 h2 U2. destruct v2; try discriminate H.
  step H as values h3 U3.
  step H as u0 h4 S4.
  destruct (unpack_mono _ _ _ _ U1) as [B1 _].
  destruct (unpack_mono _ _ _ _ U2) as [B2 _].
  destruct (unpack_mono _ _ _ _ U3) as [B3 _].
  unfold seek in S4. destruct (position header <? 0); [discriminate S4|].
  destruct u0. injection S4 as <-. rewrite B3, B2, B1 in H.
  replace (mkBytesIO (getvalue header) (position header)) with header in H
    by now destruct header.
  destruct (Version_eqb version USERPATCH15) eqn:E.
  - step H as x h5 G. apply lift_Ok in G as [_ ->].
    step H as number h6 I. apply lift_Ok in I as [_ ->].
    injection H as <- <-. split; [reflexivity|].
    apply Version_eqb_eq in E. congruence.
  - injection H as <- <-. auto.
Qed.

Lemma parse_mod_keeps_cursor_witness :
  mkBytesIO (getvalue sample_mod) 0 = sample_mod /\ VNone = VNone.
Proof.
  destruct (parse_mod_keeps_cursor 2 DE sample_mod (mkBytesIO (getvalue sample_mod) 0)
              VNone ltac:(vm_compute; reflexivity)) as [Hcursor Hnone].
  split; [exact Hcursor | apply Hnone; discriminate].
Defined.

(** X7: a Userpatch 1.5 player block with fewer than 199 resources.
    When the three reads of [parse_mod] succeed and the resource count
    is below 199, [values[198]] fails: with IndexError, or with TypeError
    when there is one resource and [values] is that float alone.  Neither
    is among the exceptions that [parse] turns into RuntimeError. *)
Theorem parse_mod_too_few_resources (num_players name_length resources : Z)
    (header h1 h2 h3 : BytesIO) (values : val) :
  0 <= position header ->
  unpack ("<xx" ++ dec num_players ++ "x36x5xh") header = Ok (VInt name_length, h1) ->
  unpack ("<" ++ dec (name_length + 1) ++ "xIx") h1 = Ok (VInt resources, h2) ->
  unpack ("<" ++ dec resources ++ "f") h2 = Ok (values, h3) ->
  resources < 199 ->
  exists msg,
    parse_mod num_players USERPATCH15 header
    = Raise (Exn (if resources =? 1 then TypeError else IndexError) msg)
    /\ caught (if resources =? 1 then TypeError else IndexError) = false.
Proof.
  intros Hp U1 U2 U3 Hfew.
  destruct (unpack_mono _ _ _ _ U1) as [B1 P1].
  destruct (unpack_mono _ _ _ _ U2) as [B2 P2].
  assert (Hn : 0 <= resources).
  { destruct (Z_lt_dec resources 0) as [Hneg|]; [|lia].
    unfold unpack, calcsize in U3. now rewrite counted_format_negative in U3. }
  destruct (unpack_eq _ false [(resources, Cf)] h2 values h3
              (counted_format resources "f" Cf Hn eq_refl eq_refl)
              ltac:(cbn; unfold align; cbn; lia) ltac:(lia) U3) as (_ & _ & _ & V).
  cbn [decode align] in V. rewrite app_nil_r in V.
  set (floats := map _ (range resources)) in V.
  assert (Hl : List.length floats = Z.to_nat resources)
    by (unfold floats; now rewrite length_map, length_range).
  exists "". unfold parse_mod, bind, tell. rewrite U1, U2, U3.
  unfold seek. destruct (position header <? 0) eqn:E; [apply Z.ltb_lt in E; lia|].
  cbn [Version_eqb]. unfold lift.
  destruct (resources =? 1) eqn:E1.
  - apply Z.eqb_eq in E1. subst resources. clear Hl. unfold floats in V.
    change (range 1) with [0] in V. cbn [map decode_one] in V. cbv iota in V.
    rewrite V. split; reflexivity.
  - apply Z.eqb_neq in E1.
    assert (Hv : values = VTuple floats).
    { clearbody floats. destruct floats as [|x [|y l]]; try assumption. cbn in Hl. lia. }
    rewrite Hv. unfold getitem.
    replace (nth_error floats (Z.to_nat 198)) with (@None val)
      by (symmetry; apply nth_error_None; lia).
    split; reflexivity.
Qed.

Lemma parse_mod_too_few_resources_witness :
  exists msg,
    parse_mod 2 USERPATCH15
      (BytesIO_of (zeros 45 ++ [x05; x00] ++ zeros 6 ++ u32 5 ++ zeros 1 ++ zeros 20))
    = Raise (Exn IndexError msg)
    /\ caught IndexError = false.
Proof.
  pose (data := zeros 45 ++ [x05; x00] ++ zeros 6 ++ u32 5 ++ zeros 1 ++ zeros 20).
  exact (parse_mod_too_few_resources 2 5 5 (BytesIO_of data)
           (mkBytesIO data 47) (mkBytesIO data 58) (mkBytesIO data 78)
           (VTuple (repeat (VFloat (S754_zero false)) 5))
           ltac:(vm_compute; discriminate) ltac:(vm_compute; reflexivity)
           ltac:(vm_compute; reflexivity) ltac:(vm_compute; reflexivity)
           ltac:(vm_compute; reflexivity)).
Defined.

(* ================================================================== *)
(** ** The container and the whole parse                               *)
(* ================================================================== *)

(** What [unpack] of one unsigned 32-bit integer returned. *)
Lemma unpack_u32 d v d' :
  0 <= position d -> unpack "<I" d = Ok (v, d') ->
  getvalue d' = getvalue d /\ position d' = position d + 4
  /\ position d + 4 <= len (getvalue d)
  /\ v = VInt (le_uint (slice (getvalue d) (position d) (position d + 4))).
Proof.
  intros Hp U.
  destruct (unpack_eq "<I" false [(1, CI)] d v d' eq_refl ltac:(cbn; lia) Hp U)
    as (B & P & F & V).
  change (end_offset false [(1, CI)] 0) with 4 in *.
  specialize (F ltac:(lia)). repeat split; try assumption.
  rewrite V.
  change (decode false [(1, CI)] 0 ?c) with [VInt (le_uint (slice c 0 4))].
  cbv iota. rewrite (slice_slice _ _ 4 0 4) by lia. now rewrite Z.add_0_r.
Qed.

(** X8: where a parsed file keeps its header and its log version.  In a
    successful [parse] the first word of the file, the header length, is
    at least 8 and leaves room for four more bytes; the header is what
    the bytes from offset 8 up to the header length inflate to; and
    [log_version] is the word that follows them, the first of the body. *)
Theorem parse_container (inflate : bytes -> option bytes)
    (get_version : str -> float -> Z -> result Version)
    (fuel : nat) (data : BytesIO) (out : dict) :
  let file := getvalue data in
  let p := position data in
  let header_len := le_uint (slice file p (p + 4)) in
  0 <= p ->
  parse inflate get_version fuel data = Ok (VDict out) ->
  8 <= header_len
  /\ p + header_len + 4 <= len file
  /\ inflate (slice file (p + 8) (p + header_len)) <> None
  /\ dict_get out "log_version"
     = VInt (le_uint (slice file (p + header_len) (p + header_len + 4))).
Proof.
  intros file p header_len Hp H. unfold file, p in *. clear file p.
  destruct (parse_stages _ _ _ _ _ H)
    as (header & data1 & data2 & version & game & save & log & de & hd & metadata
        & num_players & map_ & players & mod_ & device & scenario & lobby
        & h0 & h1 & h2 & h3 & h4 & h5 & h6 & h7
        & Hz & Hv & _ & _ & _ & _ & _ & _ & _ & _ & ->).
  cbn [dict_get String.eqb Ascii.eqb Bool.eqb].
  pose proof (len_nonneg (getvalue data)) as HL.
  (* decompress *)
  unfold decompress in Hz.
  step Hz as v d1 U. 
  assert (H8 : 0 <= end_offset false [(1, CI); (1, CI)] 0) by (vm_compute; discriminate).
  destruct (unpack_eq "<II" false [(1, CI); (1, CI)] data v d1 eq_refl H8 Hp U)
    as (B1 & P1 & F1 & V1).
  change (end_offset false [(1, CI); (1, CI)] 0) with 8 in *. specialize (F1 ltac:(lia)).
  change (decode false [(1, CI); (1, CI)] 0 ?c)
    with [VInt (le_uint (slice c 0 4)); VInt (le_uint (slice c 4 8))] in V1.
  cbv iota in V1. rewrite (slice_slice _ _ 8 0 4) in V1 by lia.
  rewrite Z.add_0_r in V1. fold header_len in V1. subst v.
  step Hz as zlib_header d2 R.
  destruct (inflate zlib_header) as [decompressed|] eqn:I; [|discriminate Hz].
  injection Hz as <- <-.
  destruct (read_inv _ _ _ _ R) as (B2 & _ & Z2).
  unfold read in R. destruct (fits_ssize_t (header_len - 8)); [|discriminate R].
  cbn [negb] in R. injection R as _ R. rewrite B1, P1 in *.
  set (size := if (header_len - 8 <? 0)
                  || (len (getvalue data) - (position data + 8) <? header_len - 8)
               then Z.max (len (getvalue data) - (position data + 8)) 0
               else header_len - 8) in R.
  assert (Hsize : 0 <= size).
  { unfold size. destruct (_ || _) eqn:E; [lia|].
    apply orb_false_iff in E as [E _]. apply Z.ltb_ge in E. lia. }
  assert (P2 : position d2 = position data + 8 + size) by now rewrite <- R.
  (* parse_version *)
  unfold parse_version in Hv.
  step Hv as w d3 W.
  destruct (unpack_u32 d2 w d3 ltac:(lia) W) as (B3 & P3 & F3 & ->).
  step Hv as r d4 L. apply lift_Ok in L as [L ->].
  destruct r as [[[[version' game'] save'] log'] h0'].
  injection Hv as -> -> -> -> -> <-.
  unfold header_version in L.
  step L as t e1 T. destruct t as [| | | | | |[|[] [|[] []]]| | | |]; try discriminate L.
  step L as s e2 S. step L as g e3 G. step L as vv e4 V.
  injection L as _ _ _ <- _.
  (* the position after the compressed header *)
  assert (Hpos : size = header_len - 8).
  { rewrite B2 in F3. unfold size in *. destruct (_ || _) eqn:E; [exfalso; lia | reflexivity]. }
  rewrite B2, P2, Hpos in *.
  replace (position data + 8 + (header_len - 8)) with (position data + header_len) in * by lia.
  split; [lia|]. split; [lia|]. split; [|reflexivity].
  rewrite Z2 in I. rewrite I. discriminate.
Qed.

Lemma parse_container_witness :
  dict_get sample_up_output "log_version"
  = VInt (le_uint (slice (getvalue sample_up_file)
                     (position sample_up_file
                      + le_uint (slice (getvalue sample_up_file)
                                   (position sample_up_file)
                                   (position sample_up_file + 4)))
                     (position sample_up_file
                      + le_uint (slice (getvalue sample_up_file)
                                   (position sample_up_file)
                                   (position sample_up_file + 4)) + 4))).
Proof.
  exact (proj2 (proj2 (proj2
           (parse_container stored sample_get_version 8 sample_up_file sample_up_output
              ltac:(vm_compute; discriminate) sample_up_parsed)))).
Defined.

(** X9: a file of an edition the parser does not handle.  When the
    container opens and the version detector answers a version other
    than USERPATCH15, DE and HD, [parse] raises RuntimeError naming that
    version, whatever the rest of the header holds. *)
Theorem parse_unsupported_version (inflate : bytes -> option bytes)
    (get_version : str -> float -> Z -> result Version)
    (fuel : nat) (data header data1 data2 h0 : BytesIO)
    (version : Version) (game : str) (save : float) (log : Z) :
  decompress inflate data = Ok (header, data1) ->
  parse_version get_version header data1 = Ok ((version, game, save, log, h0), data2) ->
  version <> USERPATCH15 -> version <> DE -> version <> HD ->
  parse inflate get_version fuel data
  = Raise (Exn RuntimeError (version_name version ++ " not supported")).
Proof.
  intros Hz Hv N1 N2 N3. unfold parse, parse_try. rewrite Hz. cbn [and_then].
  rewrite Hv. cbn [and_then].
  assert (Hs : supported version = false).
  { unfold supported.
    destruct (Version_eqb version USERPATCH15) eqn:E1; [now apply Version_eqb_eq in E1|].
    destruct (Version_eqb version DE) eqn:E2; [now apply Version_eqb_eq in E2|].
    destruct (Version_eqb version HD) eqn:E3; [now apply Version_eqb_eq in E3|].
    reflexivity. }
  rewrite Hs. reflexivity.
Qed.

Lemma parse_unsupported_version_witness :
  parse stored (fun _ _ _ => Ok (OtherVersion "USERPATCH12")) 0
    (BytesIO_of (u32 20 ++ u32 0 ++ sample_game ++ [x00] ++ [x00; x00; x40; x41] ++ u32 5))
  = Raise (Exn RuntimeError "Version.USERPATCH12 not supported").
Proof.
  pose (file := u32 20 ++ u32 0 ++ sample_game ++ [x00] ++ [x00; x00; x40; x41] ++ u32 5).
  pose (header := sample_game ++ [x00] ++ [x00; x00; x40; x41]).
  exact (parse_unsupported_version stored (fun _ _ _ => Ok (OtherVersion "USERPATCH12")) 0
           (BytesIO_of file) (BytesIO_of header) (mkBytesIO file 20) (mkBytesIO file 24)
           (mkBytesIO header 12) (OtherVersion "USERPATCH12") (u "VER 9.4") (flt "12") 5
           ltac:(vm_compute; reflexivity) ltac:(vm_compute; reflexivity)
           ltac:(discriminate) ltac:(discriminate) ltac:(discriminate)).
Defined.

(** X10: a file that is not a container.  When the header length in the
    first word is below 8, or the file ends less than four bytes after
    the compressed header, or the compressed header does not inflate,
    [parse] raises RuntimeError with a message that starts with
    "could not parse: ".  An empty or truncated file is such a file. *)
Theorem parse_bad_container (inflate : bytes -> option bytes)
    (get_version : str -> float -> Z -> result Version)
    (fuel : nat) (data : BytesIO) :
  let file := getvalue data in
  let p := position data in
  let header_len := le_uint (slice file p (p + 4)) in
  0 <= p ->
  header_len < 8
  \/ len file < p + header_len + 4
  \/ inflate (slice file (p + 8) (p + header_len)) = None ->
  exists msg,
    parse inflate get_version fuel data
    = Raise (Exn RuntimeError ("could not parse: " ++ msg)).
Proof.
  intros file p header_len Hp Hbad. unfold file, p in *. clear file p.
  pose proof (len_nonneg (getvalue data)) as HL.
  exists "". unfold parse, parse_try, decompress, bind.
  destruct (Z_lt_dec (len (getvalue data)) (position data + 8)) as [Hshort | Hlong].
  { now rewrite (unpack_truncated "<II" 8 data eq_refl ltac:(lia) Hp Hshort ltac:(lia)). }
  rewrite (unpack_at "<II" false [(1, CI); (1, CI)] data eq_refl Hp) by (cbn; lia).
  change (decode false [(1, CI); (1, CI)] 0 ?c)
    with [VInt (le_uint (slice c 0 4)); VInt (le_uint (slice c 4 8))].
  change (end_offset false [(1, CI); (1, CI)] 0) with 8.
  cbv iota. rewrite (slice_slice _ _ 8 0 4) by lia. rewrite Z.add_0_r.
  fold header_len.
  set (d1 := mkBytesIO (getvalue data) (position data + 8)).
  assert (Hword : 0 <= header_len < 2 ^ 56).
  { apply le_uint_fits.
    pose proof (len_slice_le (getvalue data) (position data) (position data + 4)). lia. }
  assert (Hread : exists z q, read (header_len - 8) d1 = Ok (z, mkBytesIO (getvalue data) q)
                    /\ 0 <= q
                    /\ (8 <= header_len ->
                        z = slice (getvalue data) (position data + 8)
                              (position data + header_len))
                    /\ (header_len < 8 \/ len (getvalue data) < position data + header_len + 4
                        -> len (getvalue data) < q + 4)).
  { destruct (Z_lt_dec header_len 8) as [Hneg | Hpos].
    - rewrite read_fits by lia. cbv zeta.
      eexists _, _. split; [reflexivity|]. cbn [getvalue position d1].
      replace (header_len - 8 <? 0) with true by (symmetry; apply Z.ltb_lt; lia).
      cbn [orb]. split; [lia|]. split; [lia|]. intros _. lia.
    - exists (slice (getvalue data) (position data + 8) (position data + 8 + (header_len - 8))),
        (position data + 8
         + Z.min (header_len - 8) (Z.max 0 (len (getvalue data) - (position data + 8)))).
      split; [rewrite read_slice by (cbn; lia); reflexivity|].
      split; [lia|]. split; [intros _; f_equal; lia|]. intros [? | ?]; lia. }
  destruct Hread as (z & q & -> & Hq & Hz & Hend). cbn [and_then].
  destruct (inflate z) as [header|] eqn:I; [|reflexivity].
  assert (Hfail : len (getvalue data) < q + 4).
  { apply Hend. destruct Hbad as [? | [? | Hnone]]; [now left | now right |].
    destruct (Z_lt_dec header_len 8); [now left|].
    rewrite <- Hz in Hnone by lia. congruence. }
  unfold ret. cbn [and_then]. unfold parse_version, bind.
  now rewrite (unpack_truncated "<I" 4 (mkBytesIO (getvalue data) q) eq_refl
                 ltac:(lia) Hq Hfail ltac:(lia)).
Qed.

Lemma parse_bad_container_witness :
  exists msg,
    parse stored sample_get_version 8 (BytesIO_of [])
    = Raise (Exn RuntimeError ("could not parse: " ++ msg)).
Proof.
  apply (parse_bad_container stored sample_get_version 8 (BytesIO_of [])).
  - vm_compute. discriminate.
  - left. vm_compute. reflexivity.
Defined.

(* ================================================================== *)
(** ** Loops that build a list                                         *)
(* ================================================================== *)

(** A loop whose body appends one item that satisfies [P] at its index
    builds a list of as many items as it has rounds. *)
Lemma returns_for_indexed {A} (P : Z -> A -> Prop) (body : Z -> list A -> M (list A))
    (n : nat) : forall (i : Z) (s0 : list A),
  (forall i s, returns (body i s) (fun s' => exists x, s' = s ++ [x] /\ P i x)) ->
  returns (for_ n i body s0)
    (fun s => exists l, s = s0 ++ l /\ List.length l = n
                        /\ forall k x, nth_error l k = Some x -> P (i + Z.of_nat k) x).
Proof.
  induction n as [|n IH]; intros i s0 Hbody; cbn [for_].
  - apply returns_ret. exists []. rewrite app_nil_r. repeat split.
    intros [|k] x Hk; discriminate Hk.
  - eapply returns_bind; [apply Hbody|]. cbv beta. intros s1 (x & -> & Hx).
    intros d s d' H. destruct (IH (i + 1) (s0 ++ [x]) Hbody d s d' H) as (l & -> & Hl & Hall).
    exists (x :: l). rewrite <- app_assoc. split; [reflexivity|].
    split; [cbn; now rewrite Hl|].
    intros [|k] y Hk; cbn [nth_error] in Hk.
    + injection Hk as <-. now rewrite Z.add_0_r.
    + replace (i + Z.of_nat (S k)) with (i + 1 + Z.of_nat k) by lia. now apply Hall.
Qed.

Lemma returns_for_appends {A} (P : A -> Prop) (body : Z -> list A -> M (list A))
    (n : Z) (s0 : list A) :
  (forall i s, returns (body i s) (fun s' => exists x, s' = s ++ [x] /\ P x)) ->
  returns (for_range n body s0)
    (fun s => exists l, s = s0 ++ l /\ List.length l = Z.to_nat n /\ Forall P l).
Proof.
  intros Hbody d s d' H.
  destruct (returns_for_indexed (fun _ => P) body (Z.to_nat n) 0 s0 Hbody d s d' H)
    as (l & -> & Hl & Hall).
  exists l. repeat split; [assumption|].
  apply Forall_forall. intros x Hx. apply In_nth_error in Hx as [k Hk]. eauto.
Qed.

(** The same for a body that appends an item or leaves the list alone. *)
Lemma returns_for_appends_some {A} (P : A -> Prop) (body : Z -> list A -> M (list A))
    (n : nat) : forall (i : Z) (s0 : list A),
  (forall i s, returns (body i s) (fun s' => s' = s \/ exists x, s' = s ++ [x] /\ P x)) ->
  returns (for_ n i body s0)
    (fun s => exists l, s = s0 ++ l /\ (List.length l <= n)%nat /\ Forall P l).
Proof.
  induction n as [|n IH]; intros i s0 Hbody; cbn [for_].
  - apply returns_ret. exists []. rewrite app_nil_r. repeat split; [cbn; lia | constructor].
  - eapply returns_bind; [apply Hbody|]. cbv beta. intros s1 Hs1 d s d' H.
    destruct Hs1 as [-> | (x & -> & Hx)];
      destruct (IH (i + 1) _ Hbody d s d' H) as (l & -> & Hl & Hall).
    + exists l. repeat split; [lia | assumption].
    + exists (x :: l). rewrite <- app_assoc. split; [reflexivity|].
      split; [cbn; lia | now constructor].
Qed.

(* ================================================================== *)
(** ** The edition blocks                                              *)
(* ================================================================== *)

Lemma parse_hd_shape (version : Version) (save : float) :
  returns (parse_hd version save)
    (fun hd => if Version_eqb version HD && negb (fle save (flt "12.34"))
               then exists fields, hd = VDict fields
               else hd = VNone).
Proof.
  unfold parse_hd.
  destruct (Version_eqb version HD); cbn [negb orb andb];
    [destruct (fle save (flt "12.34")); cbn [negb]|];
    try (apply returns_ret; reflexivity).
  to_return. apply returns_ret. eauto.
Qed.

(** X11: which edition block a parsed file has.  The [hd] field of the
    record is a record when the version is HD and the save version is
    above 12.34, and [None] otherwise; a file never has both a [de] and
    an [hd] block. *)
Theorem parse_edition_blocks (inflate : bytes -> option bytes)
    (get_version : str -> float -> Z -> result Version)
    (fuel : nat) (data : BytesIO) (out : dict) :
  parse inflate get_version fuel data = Ok (VDict out) ->
  exists version save,
    dict_get out "version" = VVersion version
    /\ dict_get out "save_version" = VFloat save
    /\ (if Version_eqb version HD && negb (fle save (flt "12.34"))
        then exists hd, dict_get out "hd" = VDict hd
        else dict_get out "hd" = VNone)
    /\ (dict_get out "de" = VNone \/ dict_get out "hd" = VNone).
Proof.
  intros H.
  destruct (parse_stages _ _ _ _ _ H)
    as (header & data1 & data2 & version & game & save & log & de & hd & metadata
        & num_players & map_ & players & mod_ & device & scenario & lobby
        & h0 & h1 & h2 & h3 & h4 & h5 & h6 & h7
        & Hz & Hv & Hs & Ede & Ehd & _ & _ & _ & _ & _ & ->).
  exists version, save. cbn [dict_get String.eqb Ascii.eqb Bool.eqb].
  split; [reflexivity|]. split; [reflexivity|].
  pose proof (parse_hd_shape version save _ _ _ Ehd) as Hhd. cbv beta in Hhd.
  split; [exact Hhd|].
  destruct (Version_eqb version HD) eqn:E; cbn [andb] in Hhd; [|now right].
  left. apply Version_eqb_eq in E. subst version.
  now apply (parse_de_none HD save false h0 de h1).
Qed.

Lemma parse_edition_blocks_witness :
  exists version save,
    dict_get sample_de_output "version" = VVersion version
    /\ dict_get sample_de_output "save_version" = VFloat save
    /\ (if Version_eqb version HD && negb (fle save (flt "12.34"))
        then exists hd, dict_get sample_de_output "hd" = VDict hd
        else dict_get sample_de_output "hd" = VNone)
    /\ (dict_get sample_de_output "de" = VNone \/ dict_get sample_de_output "hd" = VNone).
Proof.
  exact (parse_edition_blocks stored sample_get_version 8 sample_de_file sample_de_output
           sample_de_parsed).
Defined.

Lemma de_player_slot_record (save : float) :
  returns (de_player_slot save) (fun p => exists fields, p = VDict fields).
Proof. unfold de_player_slot. to_return. apply returns_ret. eauto. Qed.

(** X12: how many player slots a DE block lists.  For a save version
    below 37, or from 66.3 on, the [players] of the DE block are exactly
    eight slot records, whatever the number of players in the game. *)
Theorem parse_de_eight_slots (save : float) (skip : bool) (data data' : BytesIO)
    (de : dict) :
  fgt (flt "66.3") save && fge save (flt "37") = false ->
  parse_de DE save skip data = Ok (VDict de, data') ->
  exists players,
    dict_get de "players" = VList players
    /\ len players = 8
    /\ Forall (fun p => exists fields, p = VDict fields) players.
Proof.
  intros Hsave H.
  enough (R : returns (parse_de DE save skip)
                (fun v => forall de, v = VDict de ->
                   exists players,
                     dict_get de "players" = VList players
                     /\ len players = 8
                     /\ Forall (fun p => exists fields, p = VDict fields) players)).
  { exact (R _ _ _ H de eq_refl). }
  unfold parse_de. cbn [Version_eqb negb]. rewrite Hsave.
  to_loop. apply returns_then; intro.
  to_loop. eapply returns_bind.
  { apply (returns_for_appends (fun p => exists fields, p = VDict fields)).
    intros i ps. eapply returns_bind; [apply de_player_slot_record|].
    cbv beta. intros p Hp. apply returns_ret. eauto. }
  cbv beta. intros ps (l & -> & Hl & Hall). to_return.
  apply returns_ret. intros de0 [= <-]. cbn [dict_get String.eqb Ascii.eqb Bool.eqb].
  exists l. split; [reflexivity|]. split; [unfold len; rewrite Hl; reflexivity | assumption].
Qed.

Lemma parse_de_eight_slots_witness :
  exists players,
    dict_get (record_of (value_of (parse_de DE (flt "13.0") false
                                     (BytesIO_of sample_old_de_block)))) "players"
    = VList players
    /\ len players = 8
    /\ Forall (fun p => exists fields, p = VDict fields) players.
Proof.
  apply (parse_de_eight_slots (flt "13.0") false (BytesIO_of sample_old_de_block)
           (mkBytesIO sample_old_de_block 1061)).
  - vm_compute. reflexivity.
  - vm_compute. reflexivity.
Defined.

(** Like [to_return], but stops at a test on a boolean. *)
Ltac to_test :=
  repeat lazymatch goal with
    | |- returns (bind _ _) _ => apply returns_then; intro; cbv beta
    | |- returns (raise _ _) _ => apply returns_raise
    | |- returns (match ?v with _ => _ end) _ =>
        lazymatch type of v with
        | bool => fail
        | _ => destruct v
        end
    end.

Lemma hd_player_slot_named (players : list val) :
  returns (hd_player_slot players)
    (fun players' =>
       players' = players
       \/ exists p, players' = players ++ [p]
                    /\ exists fields name,
                         p = VDict fields /\ dict_get fields "name" = VBytes name
                         /\ name <> []).
Proof.
  unfold hd_player_slot. to_test.
  match goal with |- returns (if truthy (VBytes ?n) then _ else _) _ =>
    destruct (truthy (VBytes n)) eqn:E; apply returns_ret; [right | now left]
  end.
  eexists. split; [reflexivity|]. eexists _, _. split; [reflexivity|].
  split; [reflexivity|]. intros ->. discriminate E.
Qed.

(** X13: the players of an HD block.  [parse_hd] reads eight slots and
    keeps those with a name: the [players] of the block are at most
    eight records, each with a name that is not empty. *)
Theorem parse_hd_players (version : Version) (save : float) (data data' : BytesIO)
    (hd : dict) :
  parse_hd version save data = Ok (VDict hd, data') ->
  exists players,
    dict_get hd "players" = VList players
    /\ len players <= 8
    /\ Forall (fun p => exists fields name,
                   p = VDict fields /\ dict_get fields "name" = VBytes name
                   /\ name <> []) players.
Proof.
  intros H.
  enough (R : returns (parse_hd version save)
                (fun v => forall hd, v = VDict hd ->
                   exists players,
                     dict_get hd "players" = VList players
                     /\ len players <= 8
                     /\ Forall (fun p => exists fields name,
                                    p = VDict fields
                                    /\ dict_get fields "name" = VBytes name
                                    /\ name <> []) players)).
  { exact (R _ _ _ H hd eq_refl). }
  unfold parse_hd. destruct (_ || _); [apply returns_ret; discriminate|].
  to_loop. eapply returns_bind.
  { apply returns_for_appends_some. intros i s. apply hd_player_slot_named. }
  cbv beta. intros ps (l & -> & Hl & Hall). to_return.
  apply returns_ret. intros hd0 [= <-]. cbn [dict_get String.eqb Ascii.eqb Bool.eqb].
  exists l. split; [reflexivity|]. split; [|assumption].
  unfold len. change (Z.to_nat 8) with 8%nat in Hl. lia.
Qed.

Lemma parse_hd_players_witness :
  exists players,
    dict_get (record_of (value_of (parse_hd HD (flt "12.5") (BytesIO_of sample_hd_block))))
             "players" = VList players
    /\ len players <= 8
    /\ Forall (fun p => exists fields name,
                   p = VDict fields /\ dict_get fields "name" = VBytes name
                   /\ name <> []) players.
Proof.
  apply (parse_hd_players HD (flt "12.5") (BytesIO_of sample_hd_block)
           (mkBytesIO sample_hd_block 701)).
  vm_compute. reflexivity.
Defined.

(* ================================================================== *)
(** ** The lobby                                                       *)
(* ================================================================== *)

Lemma lstrip_head (c : byte) (s : bytes) : forall x r, lstrip c s = x :: r -> x <> c.
Proof.
  induction s as [|y s IH]; intros x r; cbn [lstrip]; [discriminate|].
  destruct (Byte.eqb y c) eqn:E; [apply IH|].
  intros [= <- <-]. now apply Byte.eqb_false.
Qed.

Lemma lstrip_suffix (c : byte) (s : bytes) : exists p, s = p ++ lstrip c s.
Proof.
  induction s as [|y s [p IH]]; cbn [lstrip]; [now exists []|].
  destruct (Byte.eqb y c); [|now exists []].
  exists (y :: p). cbn. now f_equal.
Qed.

(** What [strip] returns neither starts nor ends with the byte. *)
Lemma strip_ends (c : byte) (s : bytes) :
  (forall x r, strip c s = x :: r -> x <> c)
  /\ (forall x r, strip c s = r ++ [x] -> x <> c).
Proof.
  unfold strip. set (t := lstrip c (rev (lstrip c s))). split.
  - intros x r H.
    (* the first byte of the result is the last of [t], which is the
       last of [rev (lstrip c s)], the first of [lstrip c s] *)
    assert (Ht : t = rev r ++ [x]).
    { rewrite <- (rev_involutive t), H. reflexivity. }
    destruct (lstrip_suffix c (rev (lstrip c s))) as [p Hp]. fold t in Hp.
    rewrite Ht, app_assoc in Hp.
    apply (f_equal (@rev byte)) in Hp. rewrite rev_involutive, rev_app_distr in Hp.
    cbn [rev app] in Hp. now apply (lstrip_head c s x _ Hp).
  - intros x r H.
    assert (Ht : t = x :: rev r).
    { rewrite <- (rev_involutive t), H, rev_app_distr. reflexivity. }
    now apply (lstrip_head c _ x _ Ht).
Qed.

Lemma unpack_int_returns :
  returns (unpack "<i") (fun v => exists n, v = VInt n).
Proof.
  intros d v d' H. unfold unpack in H.
  change (calcsize "<i") with (Some 4) in H.
  step H as chunk d1 R. step H as output d2 S. apply lift_Ok in S as [S ->].
  unfold struct_unpack in S. change (parse_format "<i") with (Some (false, [(1, Ci)])) in S.
  cbv iota beta in S. destruct (len chunk =? _); [|discriminate S]. injection S as <-.
  change (decode false [(1, Ci)] 0 chunk) with [VInt (le_int (slice chunk 0 4))] in H.
  injection H as <- _. eexists. reflexivity.
Qed.

(** X14: the chat and the seed of the lobby.  Every chat message of a
    parsed lobby is a byte string that is not empty and neither starts
    nor ends with a NUL byte; the seed is an integer for a DE file and
    [None] for any other. *)
Theorem parse_lobby_chat_and_seed (version : Version) (save : float)
    (data data' : BytesIO) (lobby : dict) :
  parse_lobby version save data = Ok (VDict lobby, data') ->
  (exists chat,
     dict_get lobby "chat" = VList chat
     /\ Forall (fun m => exists b, m = VBytes b /\ b <> []
                                   /\ (forall x r, b = x :: r -> x <> x00)
                                   /\ (forall x r, b = r ++ [x] -> x <> x00)) chat)
  /\ (if Version_eqb version DE
      then exists seed, dict_get lobby "seed" = VInt seed
      else dict_get lobby "seed" = VNone).
Proof.
  intros H.
  set (clean := fun m => exists b, m = VBytes b /\ b <> []
                                   /\ (forall x r, b = x :: r -> x <> x00)
                                   /\ (forall x r, b = r ++ [x] -> x <> x00)).
  enough (R : returns (parse_lobby version save)
                (fun v => forall lobby, v = VDict lobby ->
                   (exists chat, dict_get lobby "chat" = VList chat /\ Forall clean chat)
                   /\ (if Version_eqb version DE
                       then exists seed, dict_get lobby "seed" = VInt seed
                       else dict_get lobby "seed" = VNone))).
  { exact (R _ _ _ H lobby eq_refl). }
  unfold parse_lobby. to_loop. apply (returns_bind _ _ (Forall clean)).
  { apply returns_for_range; [constructor|]. intros i chat Hchat.
    to_return. apply returns_ret.
    match goal with |- Forall _ (if 0 <? len ?m then _ else _) =>
      destruct (0 <? len m) eqn:E; [|assumption]
    end.
    apply Forall_app. split; [assumption|]. constructor; [|constructor].
    eexists. split; [reflexivity|]. split.
    - intros Hnil. rewrite Hnil in E. discriminate E.
    - apply strip_ends. }
  intros chat Hchat.
  apply (returns_bind _ _ (fun seed => if Version_eqb version DE
                                      then exists n, seed = VInt n else seed = VNone)).
  { destruct (Version_eqb version DE); [apply unpack_int_returns | now apply returns_ret]. }
  intros seed Hseed. apply returns_ret. intros lobby0 [= <-].
  cbn [dict_get String.eqb Ascii.eqb Bool.eqb]. split; [eauto | exact Hseed].
Qed.

Lemma parse_lobby_chat_and_seed_witness :
  (exists chat,
     dict_get (record_of (value_of (parse_lobby USERPATCH15 (flt "11.76") sample_lobby_up)))
              "chat" = VList chat
     /\ Forall (fun m => exists b, m = VBytes b /\ b <> []
                                   /\ (forall x r, b = x :: r -> x <> x00)
                                   /\ (forall x r, b = r ++ [x] -> x <> x00)) chat)
  /\ (if Version_eqb USERPATCH15 DE
      then exists seed,
          dict_get (record_of (value_of (parse_lobby USERPATCH15 (flt "11.76")
                                           sample_lobby_up))) "seed" = VInt seed
      else dict_get (record_of (value_of (parse_lobby USERPATCH15 (flt "11.76")
                                            sample_lobby_up))) "seed" = VNone).
Proof.
  apply (parse_lobby_chat_and_seed USERPATCH15 (flt "11.76") sample_lobby_up
           (mkBytesIO (getvalue sample_lobby_up) 38)).
  vm_compute. reflexivity.
Defined.

(* ================================================================== *)
(** ** Object blocks                                                   *)
(* ================================================================== *)

Lemma find_from_absent (sub : bytes) (s : bytes) : forall i,
  0 <= i -> find_from sub s i = -1 ->
  forall k j, find_from sub (skipn k s) j = -1 \/ j < 0.
Proof.
  induction s as [|x s IH]; intros i Hi H k j.
  - rewrite skipn_nil. cbn [find_from] in *.
    destruct (is_prefix sub []); [lia | now left].
  - cbn [find_from] in H. destruct (is_prefix sub (x :: s)) eqn:E; [lia|].
    destruct k as [|k].
    + cbn [skipn find_from]. rewrite E.
      destruct (IH (i + 1) ltac:(lia) H 0%nat (j + 1)) as [H0 | ?]; [|lia].
      cbn [skipn] in H0. now left.
    + cbn [skipn]. exact (IH (i + 1) ltac:(lia) H k j).
Qed.

(** When a pattern is absent from offset 1 on, it is absent from every
    later offset. *)
Lemma find_absent (sub data : bytes) (start : Z) :
  find sub data 1 = -1 -> 1 <= start -> find sub data start = -1.
Proof.
  unfold find. intros H Hs.
  replace (start <? 0) with false by (symmetry; apply Z.ltb_ge; lia).
  change (1 <? 0) with false in H. cbv iota zeta in *.
  destruct (len data <? start) eqn:E; [reflexivity|]. apply Z.ltb_ge in E.
  destruct (len data <? 1) eqn:E1; [apply Z.ltb_lt in E1; lia|].
  replace (Z.to_nat start) with (Z.to_nat (start - 1) + Z.to_nat 1)%nat by lia.
  rewrite <- skipn_skipn.
  destruct (find_from_absent sub _ 1 ltac:(lia) H (Z.to_nat (start - 1)) start); lia.
Qed.

(** X15: an object block without its end marker.  When an object is
    found more than nine bytes into the buffer and the marker [00 0b]
    occurs nowhere from offset 1 on, the search for the end of the block
    makes no progress: [object_block] never returns, however long it
    runs. *)
Theorem object_block_hangs (data : bytes) (pos player_number index : Z)
    (regex : pattern) (match_start match_end : Z) :
  REGEXES player_number = Some regex ->
  search_in regex data pos (pos + 10000) = Some (match_start, match_end) ->
  1 <= pos -> 9 < match_start ->
  find BLOCK_END data 1 = -1 ->
  forall fuel, object_block fuel data pos player_number index = Diverge.
Proof.
  intros Hre Hsearch Hpos Hms Hfind.
  assert (Hinner : forall fuel,
             next_block_end fuel data pos (1 - pos) (match_start - pos) = Diverge).
  { induction fuel as [|fuel IH]; cbn [next_block_end];
      replace (1 - pos + 8 <? match_start - pos) with true
        by (symmetry; apply Z.ltb_lt; lia); [reflexivity|].
    replace (pos + (1 - pos)) with 1 by lia. rewrite Hfind.
    change (len BLOCK_END) with 2.
    replace (1 - pos + (-1 - 1 + 2)) with (1 - pos) by lia.
    exact IH. }
  intros [|fuel]; [reflexivity|].
  unfold object_block. cbn [object_block_loop]. rewrite Hre, Hsearch.
  rewrite (find_absent _ _ pos Hfind Hpos).
  change (len BLOCK_END) with 2.
  replace (-1 - pos + 2) with (1 - pos) by lia.
  now rewrite Hinner.
Qed.

Lemma object_block_hangs_witness :
  object_block 1000
    (repeat x01 10 ++ [x0a; x00; x01; x01; x01; x01; xff; xff; xff; xff; x01])
    1 0 0 = Diverge.
Proof.
  refine (object_block_hangs
            (repeat x01 10 ++ [x0a; x00; x01; x01; x01; x01; xff; xff; xff; xff; x01])
            1 0 0
            [OneOf CLASSES; Lit x00; NotAhead [xff; xff]; NotAhead [x00; x00];
             Any; Any; Any; Any; Lit xff; Lit xff; Lit xff; Lit xff; Not xff]
            10 21 _ _ _ _ _ 1000);
    vm_compute; first [reflexivity | discriminate].
Defined.

(** X16: a player number without a pattern.  The table of object
    patterns has the keys 0 to 8; for any other player number
    [object_block] raises KeyError, which [parse] does not turn into
    RuntimeError. *)
Theorem object_block_unknown_player (fuel : nat) (data : bytes)
    (pos player_number index : Z) :
  player_number < 0 \/ 9 <= player_number ->
  exists msg,
    object_block (S fuel) data pos player_number index = Raise (Exn KeyError msg)
    /\ caught KeyError = false.
Proof.
  intros Hpn. exists "". split; [|reflexivity].
  unfold object_block. cbn [object_block_loop].
  assert (E : REGEXES player_number = None).
  { unfold REGEXES.
    destruct (0 <=? player_number) eqn:E1; [|reflexivity].
    destruct (player_number <? 9) eqn:E2; [|reflexivity].
    apply Z.leb_le in E1. apply Z.ltb_lt in E2. lia. }
  now rewrite E.
Qed.

Lemma object_block_unknown_player_witness :
  exists msg,
    object_block 1 [] 0 9 0 = Raise (Exn KeyError msg) /\ caught KeyError = false.
Proof.
  apply (object_block_unknown_player 0 [] 0 9 0). right. vm_compute. discriminate.
Defined.

(** Where a search succeeded, the pattern matches. *)
Lemma search_from_sound (p : pattern) (s : bytes) : forall i a b,
  search_from p s i = Some (a, b) ->
  i <= a /\ match_here p (skipn (Z.to_nat (a - i)) s) = Some (b - a).
Proof.
  induction s as [|x s IH]; intros i a b; cbn [search_from].
  - destruct (match_here p []) eqn:E; [|discriminate].
    intros [= <- <-]. split; [lia|]. rewrite Z.sub_diag. cbn [Z.to_nat skipn].
    rewrite E. f_equal. lia.
  - destruct (match_here p (x :: s)) eqn:E.
    + intros [= <- <-]. split; [lia|]. rewrite Z.sub_diag. cbn [Z.to_nat skipn].
      rewrite E. f_equal. lia.
    + intros H. destruct (IH _ _ _ H) as [Hle Hm]. split; [lia|].
      replace (Z.to_nat (a - i)) with (S (Z.to_nat (a - (i + 1)))) by lia. exact Hm.
Qed.

Lemma search_in_sound (p : pattern) (data : bytes) (pos endpos a b : Z) :
  search_in p data pos endpos = Some (a, b) ->
  0 <= a /\ pos <= a
  /\ match_here p (skipn (Z.to_nat a) (firstn (Z.to_nat endpos) data)) = Some (b - a).
Proof.
  unfold search_in. cbv zeta.
  destruct (len _ <? Z.max 0 pos); [discriminate|]. intros H.
  apply search_from_sound in H as [Hle Hm]. rewrite skipn_skipn in Hm.
  split; [lia|]. split; [lia|].
  replace (Z.to_nat a) with (Z.to_nat (a - Z.max 0 pos) + Z.to_nat (Z.max 0 pos))%nat by lia.
  exact Hm.
Qed.

(** A match of a pattern that starts with a class of bytes starts with
    one of them. *)
Lemma match_here_class (cs : list byte) (p : pattern) (l : bytes) (n : Z) :
  match_here (OneOf cs :: p) l = Some n ->
  exists c rest, l = c :: rest /\ In c cs.
Proof.
  cbn [match_here]. destruct l as [|c rest]; [discriminate|].
  destruct (existsb (Byte.eqb c) cs) eqn:E; [|discriminate]. intros _.
  apply existsb_exists in E as (x & Hin & Hx). apply Byte.byte_dec_bl in Hx. subst x.
  eauto.
Qed.

Lemma skipn_firstn_head {A} (data : list A) (a e : nat) (c : A) (rest : list A) :
  skipn a (firstn e data) = c :: rest -> nth_error data a = Some c.
Proof.
  intros H.
  assert (Hn : nth_error (firstn e data) a = Some c).
  { rewrite <- (Nat.add_0_r a), <- nth_error_skipn, H. reflexivity. }
  destruct (Nat.lt_ge_cases a e) as [Hlt | Hge].
  - now rewrite nth_error_firstn in Hn; destruct (Nat.ltb_spec a e); try lia.
  - assert (Hl : (List.length (firstn e data) <= a)%nat) by (rewrite length_firstn; lia).
    apply nth_error_None in Hl. congruence.
Qed.

Lemma slice_one {A} (data : list A) (a : Z) (c : A) :
  0 <= a -> nth_error data (Z.to_nat a) = Some c -> slice data a (a + 1) = [c].
Proof.
  intros Ha H.
  assert (Hlt : (Z.to_nat a < List.length data)%nat)
    by (apply nth_error_Some; congruence).
  rewrite slice_eq by lia. unfold len.
  replace (Z.min (a + 1) (Z.of_nat (List.length data))) with (a + 1) by lia.
  replace (Z.min a (Z.of_nat (List.length data))) with a by lia.
  replace (Z.to_nat (a + 1 - a)) with 1%nat by lia.
  destruct (skipn (Z.to_nat a) data) as [|x l] eqn:E.
  - apply (f_equal (@List.length A)) in E. rewrite length_skipn in E. cbn in E. lia.
  - assert (Hx : nth_error (skipn (Z.to_nat a) data) 0 = Some c)
      by (rewrite nth_error_skipn, Nat.add_0_r; exact H).
    rewrite E in Hx. injection Hx as ->. reflexivity.
Qed.

(** The record of an object, from the bytes at its offset. *)
Lemma parse_object_class (data : bytes) (offset : Z) (o : dict) (index : Z) :
  parse_object data offset = Ok o ->
  dict_get (dict_set o "index" (VInt index)) "index" = VInt index
  /\ dict_get (dict_set o "index" (VInt index)) "class_id"
     = VInt (le_int (slice data offset (offset + 1))).
Proof.
  unfold parse_object, unpack_from.
  change (calcsize "<bxH14xIxff") with (Some 31). cbv beta iota.
  destruct ((0 <=? offset) && (offset + 31 <=? len data)) eqn:G;
    [|cbv beta iota delta [and_then builtin]; discriminate].
  apply andb_true_iff in G as [G1 G2]. apply Z.leb_le in G1. apply Z.leb_le in G2.
  unfold struct_unpack.
  change (parse_format "<bxH14xIxff")
    with (Some (false, [(1, Cb); (1, Cx); (1, CH); (14, Cx); (1, CI); (1, Cx);
                        (1, Cf); (1, Cf)])).
  cbv iota beta. destruct (len _ =? _);
    [|cbv beta iota delta [and_then builtin]; discriminate].
  set (c := slice data offset (offset + 31)).
  change (decode false _ 0 c)
    with [VInt (le_int (slice c 0 1)); VInt (le_uint (slice c 2 4));
          VInt (le_uint (slice c 18 22));
          VFloat (float_of_bits32 (le_uint (slice c 23 27)));
          VFloat (float_of_bits32 (le_uint (slice c 27 31)))].
  cbn [and_then]. intros [= <-]. split; [reflexivity|].
  cbn [dict_set dict_get String.eqb Ascii.eqb Bool.eqb]. unfold c.
  rewrite (slice_slice _ _ 31 0 1) by lia. now rewrite Z.add_0_r.
Qed.

Lemma class_byte (c : byte) : In c CLASSES -> le_int [c] = ord c.
Proof.
  unfold CLASSES. cbn [In].
  intros [<- | [<- | [<- | [<- | [<- | []]]]]]; reflexivity.
Qed.

Lemma REGEXES_class (player_number : Z) (regex : pattern) :
  REGEXES player_number = Some regex -> exists p, regex = OneOf CLASSES :: p.
Proof.
  unfold REGEXES. destruct (_ && _); [|discriminate].
  destruct (Byte.of_N _); [|discriminate]. intros [= <-]. eauto.
Qed.

(** X17: the objects of a block.  Every object that [object_block]
    returns carries the index of its block, and its class is one of the
    five object classes: an object is only parsed where the pattern of
    the player matched. *)
Theorem object_block_objects (fuel : nat) (data : bytes)
    (pos player_number index : Z) (objects : list val) (end_ : Z) :
  object_block fuel data pos player_number index = Ok (objects, end_) ->
  Forall (fun o => exists fields c,
              o = VDict fields
              /\ dict_get fields "index" = VInt index
              /\ dict_get fields "class_id" = VInt (ord c)
              /\ In c CLASSES) objects.
Proof.
  unfold object_block.
  set (P := fun o => exists fields c,
                o = VDict fields /\ dict_get fields "index" = VInt index
                /\ dict_get fields "class_id" = VInt (ord c) /\ In c CLASSES).
  assert (Hloop : forall fuel pos acc objects end_,
             Forall P acc ->
             object_block_loop fuel data player_number index pos acc = Ok (objects, end_) ->
             Forall P objects).
  { clear fuel pos objects end_.
    induction fuel as [|fuel IH]; intros pos acc objects end_ Hacc; [discriminate|].
    cbn [object_block_loop].
    destruct (REGEXES player_number) as [regex|] eqn:Hre; [|discriminate].
    destruct (REGEXES_class _ _ Hre) as [p ->].
    destruct (search_in _ data pos (pos + 10000)) as [[match_start match_end]|] eqn:Hs.
    2:{ now intros [= <- _]. }
    cbv zeta.
    destruct (next_block_end fuel data pos _ (match_start - pos)) as [e| |];
      try discriminate.
    cbn [and_then].
    destruct (e + 8 =? match_start - pos); [now intros [= <- _]|].
    replace (pos + (match_start - pos)) with match_start by lia.
    destruct (existsb _ SKIP_OBJECTS); cbn [and_then]; [now apply IH|].
    destruct (parse_object data match_start) as [o| |] eqn:Ho; try discriminate.
    cbn [and_then]. apply IH. apply Forall_app. split; [assumption|].
    constructor; [|constructor].
    destruct (search_in_sound _ _ _ _ _ _ Hs) as (Ha & _ & Hm).
    destruct (match_here_class _ _ _ _ Hm) as (c & rest & Hl & Hin).
    apply skipn_firstn_head in Hl.
    destruct (parse_object_class data match_start o index Ho) as [Hi Hc].
    rewrite (slice_one data match_start c Ha Hl), (class_byte c Hin) in Hc.
    exists (dict_set o "index" (VInt index)), c. auto. }
  apply Hloop. constructor.
Qed.

Lemma object_block_objects_witness :
  Forall (fun o => exists fields c,
              o = VDict fields
              /\ dict_get fields "index" = VInt 2
              /\ dict_get fields "class_id" = VInt (ord c)
              /\ In c CLASSES)
    [VDict [("class_id", VInt 10); ("object_id", VInt 1); ("instance_id", VInt 0);
            ("position", VDict [("x", VFloat (S754_zero false));
                                ("y", VFloat (S754_zero false))]);
            ("index", VInt 2)]].
Proof.
  apply (object_block_objects 5
           ([x0a; x00; x01; x00; x01; x01; xff; xff; xff; xff; x01] ++ zeros 20
            ++ [x00; x0b]) 0 0 2 _ 33).
  vm_compute. reflexivity.
Defined.

(* ================================================================== *)
(** ** The players block                                               *)
(* ================================================================== *)

(** X18: the Gaia anchor is missing.  When the name of Gaia is not in
    the rest of the header, [find] answers -1 and [parse_players] still
    computes a target from it: the seek fails with ValueError when the
    target is negative, and otherwise the stream is silently put
    [1 + num_players + rev] bytes before the place where the search
    began. *)
Theorem seek_gaia_without_anchor (num_players : Z) (version : Version) (save : float)
    (header : BytesIO) :
  let rev := if fge save (flt "61.5") then 7 + num_players * 4 else 43 in
  let target := position header - 1 - num_players - rev in
  0 <= position header ->
  find ([x05; x00] ++ gaia version ++ [x00]) (remaining header) 0 = -1 ->
  (target < 0 ->
   exists msg, seek_gaia num_players version save header = Raise (Exn ValueError msg))
  /\ (0 <= target ->
      seek_gaia num_players version save header
      = Ok (tt, mkBytesIO (getvalue header) target)).
Proof.
  intros rev target Hp Hfind. unfold seek_gaia, bind, tell.
  rewrite read_all_eq by assumption. rewrite Hfind. fold rev.
  replace (position header + -1 - num_players - rev) with target by (unfold target; lia).
  unfold seek. cbn [getvalue]. split; intros Ht.
  - replace (target <? 0) with true by (symmetry; apply Z.ltb_lt; lia). eauto.
  - replace (target <? 0) with false by (symmetry; apply Z.ltb_ge; lia). reflexivity.
Qed.

Lemma seek_gaia_without_anchor_witness :
  (exists msg, seek_gaia 2 DE (flt "37") (BytesIO_of (zeros 100))
               = Raise (Exn ValueError msg))
  /\ seek_gaia 2 DE (flt "37") (mkBytesIO (zeros 100) 60)
     = Ok (tt, mkBytesIO (zeros 100) 14).
Proof.
  split.
  - apply (proj1 (seek_gaia_without_anchor 2 DE (flt "37") (BytesIO_of (zeros 100))
                    ltac:(vm_compute; discriminate) ltac:(vm_compute; reflexivity))).
    vm_compute. reflexivity.
  - apply (proj2 (seek_gaia_without_anchor 2 DE (flt "37") (mkBytesIO (zeros 100) 60)
                    ltac:(vm_compute; discriminate) ltac:(vm_compute; reflexivity))).
    vm_compute. discriminate.
Defined.

Lemma parse_player_number (fuel : nat) (player_number num_players : Z) (save : float) :
  returns (parse_player fuel player_number num_players save)
    (fun p => exists fields, fst p = VDict fields
                             /\ dict_get fields "number" = VInt player_number).
Proof.
  unfold parse_player.
  apply (returns_bind _ _ (fun fields => dict_get fields "number" = VInt player_number)).
  { unfold parse_player_objects. to_return. now apply returns_ret. }
  intros fields Hn. apply returns_then. intros device_.
  apply returns_ret. exists fields. split; [reflexivity | assumption].
Qed.

(** X19: the players of a parsed header are numbered in order.  When
    [parse_players] succeeds there is at least one player, the list has
    [num_players] records, and the record at position [k] has [k] as its
    [number]. *)
Theorem parse_players_numbered (fuel : nat) (num_players : Z) (version : Version)
    (save : float) (header header' : BytesIO) (players mod_ device : val) :
  parse_players fuel num_players version save header
  = Ok ((players, mod_, device), header') ->
  exists records,
    players = VList records
    /\ 1 <= num_players
    /\ len records = num_players
    /\ forall k p, nth_error records k = Some p ->
         exists fields, p = VDict fields
                        /\ dict_get fields "number" = VInt (Z.of_nat k).
Proof.
  intros H. unfold parse_players in H.
  step H as u0 g E0. unfold parse_players_from_gaia in H.
  step H as m g1 Em. step H as ps g2 E1.
  apply (returns_for_indexed
           (fun i (p : val * val) =>
              exists fields, fst p = VDict fields /\ dict_get fields "number" = VInt i))
    in E1.
  2:{ intros i s. eapply returns_bind; [apply parse_player_number|].
      cbv beta. intros p Hp. apply returns_ret. eauto. }
  destruct E1 as (l & -> & Hl & Hall). cbn [app] in H.
  step H as cur g3 E2. step H as rest g4 E3. step H as u4 g5 E4.
  step H as u5 g6 E5. step H as u6 g7 E6.
  destruct l as [|[p0 dev] l']; [discriminate H|].
  injection H as <- _ _ _.
  exists (map fst ((p0, dev) :: l')). split; [reflexivity|].
  cbn [List.length] in Hl. split; [lia|].
  split; [unfold len; rewrite length_map; cbn [List.length]; lia|].
  intros k p Hk. rewrite nth_error_map in Hk.
  destruct (nth_error ((p0, dev) :: l') k) as [[q dq]|] eqn:Ek; [|discriminate Hk].
  injection Hk as <-. destruct (Hall k _ Ek) as (fields & Hf & Hn).
  rewrite Z.add_0_l in Hn. cbn [fst] in Hf. eauto.
Qed.

Lemma parse_players_numbered_witness :
  exists records,
    dict_get sample_up_output "players" = VList records
    /\ 1 <= 1
    /\ len records = 1
    /\ forall k p, nth_error records k = Some p ->
         exists fields, p = VDict fields
                        /\ dict_get fields "number" = VInt (Z.of_nat k).
Proof.
  apply (parse_players_numbered 8 1 USERPATCH15 (flt "11.76")
           (BytesIO_of sample_up_players) (mkBytesIO sample_up_players 922)
           (dict_get sample_up_output "players") (dict_get sample_up_output "mod")
           (dict_get sample_up_output "device")).
  vm_compute. reflexivity.
Defined.

Lemma bind_value {A B} (c : M A) (k : A -> M B) d a d' :
  c d = Ok (a, d') -> bind c k d = k a d'.
Proof. intros H. unfold bind. now rewrite H. Qed.

(** X20: the points marker is missing.  After the players,
    [parse_players] looks for the points version in the rest of the
    header and reads up to it.  When the marker is absent [find] answers
    -1, [read(-1)] takes the stream to its end, and the first read of the
    points block fails there with struct.error. *)
Theorem parse_players_without_points_marker (fuel : nat) (num_players : Z)
    (version : Version) (save : float) (header h1 h2 : BytesIO)
    (mod_ : val) (players : list (val * val)) :
  parse_mod num_players version header = Ok (mod_, h1) ->
  for_range num_players
    (fun number players =>
       p <- parse_player fuel number num_players save ;;
       ret (players ++ [p])) [] h1 = Ok (players, h2) ->
  0 <= position h2 -> 1 <= num_players ->
  find (if fge save (flt "61.5") then [x66; x66; x06; x40] else [x00; x00; x00; x40])
       (remaining h2) 0 = -1 ->
  exists msg,
    parse_players_from_gaia fuel num_players version save header
    = Raise (Exn struct_error msg).
Proof.
  intros Hmod Hloop Hp Hn Hfind. exists "".
  unfold parse_players_from_gaia.
  rewrite (bind_value _ _ _ _ _ Hmod), (bind_value _ _ _ _ _ Hloop).
  unfold bind, tell.
  cbv beta iota zeta. rewrite read_all_eq by assumption. cbv beta iota zeta.
  unfold seek. cbn [getvalue].
  replace (position h2 <? 0) with false by (symmetry; apply Z.ltb_ge; lia).
  cbv beta iota.
  match goal with |- context [find ?a (remaining h2) 0] =>
    assert (find a (remaining h2) 0 = -1) as -> by exact Hfind
  end.
  unfold read_, bind. rewrite read_fits by lia. cbn [getvalue position orb Z.ltb Z.compare].
  unfold ret, repeat_, for_range.
  destruct (Z.to_nat num_players) as [|n] eqn:E; [lia|].
  cbn [for_]. unfold bind.
  pose proof (len_nonneg (getvalue h2)) as HL.
  rewrite (unpack_truncated "<f" 4) by (cbn; first [reflexivity | lia]).
  reflexivity.
Qed.

Lemma parse_players_without_points_marker_witness :
  exists msg,
    parse_players_from_gaia 8 1 USERPATCH15 (flt "11.76") (BytesIO_of sample_players_lost)
    = Raise (Exn struct_error msg).
Proof.
  apply (parse_players_without_points_marker 8 1 USERPATCH15 (flt "11.76")
           (BytesIO_of sample_players_lost) (BytesIO_of sample_players_lost)
           (mkBytesIO sample_players_lost 892)
           (VTuple [VInt 1; VStr (u "5.1.0")])
           [(VDict [("number", VInt 0); ("type", VInt 0);
                    ("name", VBytes [x47; x41; x49; x41]);
                    ("diplomacy", VList (repeat (VInt 0) 9));
                    ("civilization_id", VInt 0); ("color_id", VInt 0);
                    ("objects", VList []);
                    ("position", VDict [("x", VFloat (S754_zero false));
                                        ("y", VFloat (S754_zero false))])],
             VInt 0)]);
    vm_compute; first [reflexivity | discriminate].
Defined.

(* ================================================================== *)
(** ** The map                                                         *)
(* ================================================================== *)

(** What [unpack] returns satisfies what every decoding of its format
    satisfies. *)
Lemma unpack_returns fmt native items (P : val -> Prop) :
  parse_format fmt = Some (native, items) ->
  (forall chunk, P (match decode native items 0 chunk with
                    | [v] => v
                    | output => VTuple output
                    end)) ->
  returns (unpack fmt) P.
Proof.
  intros Hfmt HP d v d' H. unfold unpack, calcsize in H. rewrite Hfmt in H.
  step H as chunk d1 R. step H as output d2 S. apply lift_Ok in S as [S ->].
  unfold struct_unpack in S. rewrite Hfmt in S.
  destruct (len chunk =? _); [|discriminate S]. injection S as <-.
  specialize (HP chunk).
  destruct (decode native items 0 chunk) as [|v0 [|v1 l]]; injection H as <- _; exact HP.
Qed.

Lemma tile_returns (version : Version) (save : float) :
  returns (unpack (if Version_eqb version DE
                   then if fge save (flt "62.0") then "<bxxb6x" else "<bxb6x"
                   else "<xbbx"))
    (fun t => exists terrain elevation, t = VTuple [VInt terrain; VInt elevation]).
Proof.
  destruct (Version_eqb version DE); [destruct (fge save (flt "62.0"))|];
    (eapply unpack_returns; [reflexivity|]); intros chunk; eexists _, _; reflexivity.
Qed.

(** X21: the dimension and the tiles of the map.  In a parsed map,
    [dimension] is the first word of the block (after eight bytes for a
    DE file) and [tiles] has one pair of integers for each of the
    [size_x * size_y] tiles, [size_y] being the second word. *)
Theorem parse_map_tiles (version : Version) (save : float) (data data' : BytesIO)
    (map_ : dict) :
  let buffer := getvalue data in
  let q := position data + (if Version_eqb version DE then 8 else 0) in
  let size_x := le_uint (slice buffer q (q + 4)) in
  let size_y := le_uint (slice buffer (q + 4) (q + 8)) in
  0 <= position data ->
  parse_map version save data = Ok (VDict map_, data') ->
  dict_get map_ "dimension" = VInt size_x
  /\ exists tiles,
       dict_get map_ "tiles" = VList tiles
       /\ len tiles = size_x * size_y
       /\ Forall (fun t => exists terrain elevation,
                      t = VTuple [VInt terrain; VInt elevation]) tiles.
Proof.
  intros buffer q size_x size_y Hp H. unfold parse_map in H.
  step H as tile_format d1 E1.
  assert (Hd1 : getvalue d1 = buffer /\ 0 <= position d1
                /\ (position d1 = q \/ len buffer <= position d1)
                /\ tile_format = if Version_eqb version DE
                                 then if fge save (flt "62.0") then "<bxxb6x" else "<bxb6x"
                                 else "<xbbx").
  { unfold q. destruct (Version_eqb version DE).
    - step E1 as u0 d0 R. injection E1 as <- <-.
      destruct (skips_read_ 8 ltac:(lia)) as [_ S].
      destruct (S data Hp) as (x & Sx & B & P & Mv). rewrite R in Sx.
      destruct u0. injection Sx as <-.
      split; [exact B|]. split; [lia|]. split; [|reflexivity].
      fold buffer in Mv. destruct Mv; [left | right]; lia.
    - injection E1 as <- <-.
      split; [reflexivity|]. split; [assumption|]. split; [left; lia | reflexivity]. }
  destruct Hd1 as (B1 & P1 & Q1 & ->).
  step H as v d2 U.
  destruct (unpack_eq "<III" false [(1, CI); (1, CI); (1, CI)] d1 v d2 eq_refl
              ltac:(vm_compute; discriminate) P1 U) as (B2 & P2 & F2 & V2).
  change (end_offset false [(1, CI); (1, CI); (1, CI)] 0) with 12 in *.
  specialize (F2 ltac:(lia)). rewrite B1 in *.
  assert (Hq : position d1 = q) by (destruct Q1; [assumption | lia]).
  rewrite Hq in *.
  change (decode false [(1, CI); (1, CI); (1, CI)] 0 ?c)
    with [VInt (le_uint (slice c 0 4)); VInt (le_uint (slice c 4 8));
          VInt (le_uint (slice c 8 12))] in V2.
  cbv iota in V2.
  rewrite (slice_slice _ _ 12 0 4), (slice_slice _ _ 12 4 8) in V2 by lia.
  rewrite Z.add_0_r in V2. fold size_x size_y in V2. subst v. cbv iota beta in H.
  set (zone_num := le_uint _) in H. clearbody zone_num.
  assert (Hx : 0 <= size_x) by apply le_uint_bounds.
  assert (Hy : 0 <= size_y) by apply le_uint_bounds.
  clearbody size_x size_y.
  match type of H with
  | ?c d2 = _ =>
      assert (R : returns c
                    (fun v => forall map_, v = VDict map_ ->
                       dict_get map_ "dimension" = VInt size_x
                       /\ exists tiles,
                            dict_get map_ "tiles" = VList tiles
                            /\ len tiles = size_x * size_y
                            /\ Forall (fun t => exists terrain elevation,
                                           t = VTuple [VInt terrain; VInt elevation])
                                 tiles))
  end.
  { to_loop. eapply returns_bind.
    { apply (returns_for_appends
               (fun t => exists terrain elevation,
                    t = VTuple [VInt terrain; VInt elevation])).
      intros i s. eapply returns_bind; [apply tile_returns|].
      cbv beta. intros t Ht. apply returns_ret. eauto. }
    cbv beta. intros tiles (l & -> & Hl & Hall). to_return. apply returns_ret.
    intros m0 [= <-]. cbn [dict_get String.eqb Ascii.eqb Bool.eqb app].
    split; [reflexivity|]. exists l. split; [reflexivity|].
    split; [unfold len; rewrite Hl; nia | assumption]. }
  exact (R _ _ _ H map_ eq_refl).
Qed.

Lemma parse_map_tiles_witness :
  dict_get (record_of (value_of (parse_map DE (flt "37") (BytesIO_of sample_de_map))))
           "dimension"
  = VInt (le_uint (slice sample_de_map (0 + 8) (0 + 8 + 4)))
  /\ exists tiles,
       dict_get (record_of (value_of (parse_map DE (flt "37") (BytesIO_of sample_de_map))))
                "tiles" = VList tiles
       /\ len tiles = le_uint (slice sample_de_map (0 + 8) (0 + 8 + 4))
                      * le_uint (slice sample_de_map (0 + 8 + 4) (0 + 8 + 8))
       /\ Forall (fun t => exists terrain elevation,
                      t = VTuple [VInt terrain; VInt elevation]) tiles.
Proof.
  apply (parse_map_tiles DE (flt "37") (BytesIO_of sample_de_map)
           (mkBytesIO sample_de_map 2109)).
  - vm_compute. discriminate.
  - vm_compute. reflexivity.
Defined.

(* ================================================================== *)
(** ** String blocks, the settings anchor, the metadata                *)
(* ================================================================== *)

Lemma split_not_empty (sep : Z) (s : str) : split sep s <> [].
Proof.
  induction s as [|c r IH]; cbn [split]; [discriminate|].
  destruct (c =? sep); [discriminate|]. destruct (split sep r); discriminate.
Qed.

(** X22: where a string block ends.  When [string_block] returns, the
    last four bytes it read are a word inside the open interval
    (0, 255); the cursor has moved by at least those four bytes and is
    inside the buffer; and every entry it returns has at least one
    field. *)
Theorem string_block_ends_on_marker (d d' : BytesIO) (strings : list (list str)) :
  0 <= position d ->
  string_block d = Ok (strings, d') ->
  getvalue d' = getvalue d
  /\ position d + 4 <= position d' <= len (getvalue d)
  /\ 0 < le_uint (slice (getvalue d) (position d' - 4) (position d')) < 255
  /\ Forall (fun entry => entry <> []) strings.
Proof.
  unfold string_block. generalize (S (List.length (getvalue d))) as fuel.
  intros fuel.
  assert (Hacc : Forall (fun entry : list str => entry <> []) []) by constructor.
  revert Hacc. generalize (@nil (list str)) as acc. revert d.
  induction fuel as [|fuel IH]; intros d acc Hacc Hp H; [discriminate H|].
  rewrite string_block_loop_unfold in H.
  destruct (unpack "<I" d) as [[v d1]| |] eqn:U; try discriminate H.
  destruct (unpack_u32 d v d1 Hp U) as (B1 & P1 & F1 & ->).
  set (crc := le_uint _) in *.
  destruct ((crc <? 255) && (0 <? crc)) eqn:E.
  - injection H as <- <-. apply andb_true_iff in E as [E1 E2].
    apply Z.ltb_lt in E1. apply Z.ltb_lt in E2.
    split; [assumption|]. split; [lia|]. split; [|assumption].
    rewrite P1. replace (position d + 4 - 4) with (position d) by lia.
    fold crc. lia.
  - step H as s d2 S1. destruct (de_string_mono _ _ _ S1) as [B2 P2].
    step H as text d3 T. apply lift_Ok in T as [_ ->].
    destruct (IH d2 (acc ++ [split 58 text])
                ltac:(apply Forall_app; split;
                      [assumption | constructor; [apply split_not_empty | constructor]])
                ltac:(lia) H) as (B3 & P3 & M3 & A3).
    rewrite B2, B1 in *. split; [assumption|]. split; [lia|]. split; assumption.
Qed.

Lemma string_block_ends_on_marker_witness :
  getvalue (mkBytesIO (getvalue sample_block_0) 15) = getvalue sample_block_0
  /\ position sample_block_0 + 4 <= 15 <= len (getvalue sample_block_0)
  /\ 0 < le_uint (slice (getvalue sample_block_0) (15 - 4) 15) < 255
  /\ Forall (fun entry => entry <> []) [[u "a"; u "b"]].
Proof.
  apply (string_block_ends_on_marker sample_block_0
           (mkBytesIO (getvalue sample_block_0) 15) [[u "a"; u "b"]]).
  - vm_compute. discriminate.
  - vm_compute. reflexivity.
Defined.

Lemma is_prefix_firstn (sub l : bytes) :
  is_prefix sub l = true -> firstn (List.length sub) l = sub.
Proof.
  revert l. induction sub as [|x sub IH]; intros l; [reflexivity|].
  destruct l as [|y l]; cbn [is_prefix]; [discriminate|].
  intros H. apply andb_true_iff in H as [Hx Hr]. apply Byte.byte_dec_bl in Hx.
  subst y. cbn [List.length firstn]. f_equal. now apply IH.
Qed.

Lemma find_from_sound (sub : bytes) (s : bytes) : forall j i,
  0 <= j -> find_from sub s j = i -> 0 <= i ->
  j <= i <= j + len s /\ is_prefix sub (skipn (Z.to_nat (i - j)) s) = true.
Proof.
  induction s as [|x s IH]; intros j i Hj H Hi; cbn [find_from] in H.
  - destruct (is_prefix sub []) eqn:E; [|lia]. subst i.
    rewrite Z.sub_diag. split; [cbn; lia | exact E].
  - assert (Hl : len (x :: s) = len s + 1) by (unfold len; cbn [List.length]; lia).
    pose proof (len_nonneg s).
    destruct (is_prefix sub (x :: s)) eqn:E.
    + subst i. rewrite Z.sub_diag. split; [lia | exact E].
    + destruct (IH (j + 1) i ltac:(lia) H Hi) as [Hle Hpre]. split; [lia|].
      replace (Z.to_nat (i - j)) with (S (Z.to_nat (i - (j + 1)))) by lia. exact Hpre.
Qed.

(** Where [find] from the start succeeds, the pattern is. *)
Lemma find_sound (sub data : bytes) (i : Z) :
  find sub data 0 = i -> 0 <= i ->
  slice data i (i + len sub) = sub.
Proof.
  unfold find. change (0 <? 0) with false. cbv iota zeta.
  pose proof (len_nonneg data) as HL.
  replace (len data <? 0) with false by (symmetry; apply Z.ltb_ge; lia).
  cbn [Z.to_nat skipn]. intros H Hi.
  destruct (find_from_sound sub data 0 i ltac:(lia) H Hi) as [Hb Hpre].
  rewrite Z.sub_0_r in Hpre. apply is_prefix_firstn in Hpre.
  assert (Hfit : i + len sub <= len data).
  { apply (f_equal (@List.length byte)) in Hpre.
    rewrite length_firstn, length_skipn in Hpre. unfold len in *. lia. }
  pose proof (len_nonneg sub).
  rewrite slice_eq by lia.
  replace (Z.min (i + len sub) (len data)) with (i + len sub) by lia.
  replace (Z.min i (len data)) with i by lia.
  replace (Z.to_nat (i + len sub - i)) with (List.length sub) by (unfold len; lia).
  exact Hpre.
Qed.

(** X23: the settings anchor, when it is there.  [parse_scenario] puts
    the cursor right after the first occurrence of the settings version
    in the rest of the header for a DE file, and five bytes after the
    first occurrence of [9a 99 99 99 99 99 f9 3f] for any other. *)
Theorem settings_anchor_found (version : Version) (save : float) (data : BytesIO) :
  let p := position data in
  let i := find (settings_needle version save) (remaining data) 0 in
  0 <= p <= len (getvalue data) ->
  0 <= i ->
  slice (getvalue data) (p + i) (p + i + 8) = settings_needle version save
  /\ settings_anchor version save data
     = Ok (tt, mkBytesIO (getvalue data)
                 (p + i + 8 + (if Version_eqb version DE then 0 else 5))).
Proof.
  intros p i Hp Hi. unfold p in *. clear p.
  assert (Hl : len (remaining data) = len (getvalue data) - position data).
  { unfold remaining. rewrite len_skipn. lia. }
  assert (Hn : len (settings_needle version save) = 8).
  { unfold settings_needle. destruct (Version_eqb version DE); [|reflexivity].
    unfold pack_d. apply len_le_bytes. }
  pose proof (find_sound _ _ i eq_refl Hi) as Hs. rewrite Hn in Hs.
  assert (Hfit : i + 8 <= len (remaining data)).
  { apply (f_equal (@len byte)) in Hs. rewrite Hn, len_slice in Hs by lia. lia. }
  split.
  - rewrite <- Hs. unfold remaining.
    rewrite (slice_eq (skipn _ _)) by lia. rewrite slice_eq by lia.
    fold (remaining data). rewrite Hl.
    replace (Z.min (i + 8) (len (getvalue data) - position data)) with (i + 8) by lia.
    replace (Z.min i (len (getvalue data) - position data)) with i by lia.
    replace (Z.min (position data + i + 8) (len (getvalue data)))
      with (position data + i + 8) by lia.
    replace (Z.min (position data + i) (len (getvalue data)))
      with (position data + i) by lia.
    unfold remaining. rewrite skipn_skipn. f_equal; [lia | f_equal; lia].
  - unfold settings_anchor, bind. rewrite read_all_eq by lia.
    unfold seek_cur. cbn [getvalue position]. fold i.
    assert (E : forall a b : Z, a = b ->
                @Ok (unit * BytesIO) (tt, mkBytesIO (getvalue data) a)
                = Ok (tt, mkBytesIO (getvalue data) b)) by (now intros a b ->).
    unfold i, settings_needle in *.
    destruct (Version_eqb version DE); rewrite Hl; apply E; lia.
Qed.

Lemma settings_anchor_found_witness :
  slice sample_up_header (25615 + 3) (25615 + 3 + 8)
  = settings_needle USERPATCH15 (flt "11.76")
  /\ at_position (settings_anchor USERPATCH15 (flt "11.76")
                    (mkBytesIO sample_up_header 25615))
     = Ok (tt, 25615 + 3 + 8 + 5).
Proof.
  destruct (settings_anchor_found USERPATCH15 (flt "11.76")
              (mkBytesIO sample_up_header 25615)
              ltac:(vm_compute; split; discriminate)
              ltac:(vm_compute; discriminate)) as [Hs Ha].
  split.
  - vm_compute. reflexivity.
  - rewrite Ha. vm_compute. reflexivity.
Defined.

(** X24: a file with AI players.  When the first word of the metadata
    is above zero the file holds AI data: without [skip_ai],
    [parse_metadata] refuses it; with [skip_ai] it looks for the first
    run of 4096 zero bytes in the rest of the header and fails when
    there is none.  Both failures are RuntimeError. *)
Theorem parse_metadata_ai (save : float) (header h1 : BytesIO) (ai : Z) :
  unpack "<I" header = Ok (VInt ai, h1) ->
  0 < ai -> 0 <= position h1 ->
  parse_metadata save false header
  = Raise (Exn RuntimeError "don't know how to parse ai")
  /\ (search (literal (repeat x00 4096)) (remaining h1) = None ->
      parse_metadata save true header
      = Raise (Exn RuntimeError "could not find ai end")).
Proof.
  intros U Hai Hp.
  assert (E : (0 <? ai) = true) by now apply Z.ltb_lt.
  split.
  - unfold parse_metadata. rewrite (bind_value _ _ _ _ _ U). cbv beta iota.
    rewrite E. reflexivity.
  - intros Hnone. unfold parse_metadata. rewrite (bind_value _ _ _ _ _ U).
    cbv beta iota. rewrite E. unfold when, negb, bind, tell.
    rewrite read_all_eq by assumption. now rewrite Hnone.
Qed.

Lemma parse_metadata_ai_witness :
  parse_metadata (flt "11.76") false (BytesIO_of (u32 1 ++ zeros 10))
  = Raise (Exn RuntimeError "don't know how to parse ai")
  /\ parse_metadata (flt "11.76") true (BytesIO_of (u32 1 ++ zeros 10))
     = Raise (Exn RuntimeError "could not find ai end").
Proof.
  destruct (parse_metadata_ai (flt "11.76") (BytesIO_of (u32 1 ++ zeros 10))
              (mkBytesIO (u32 1 ++ zeros 10) 4) 1
              ltac:(vm_compute; reflexivity) ltac:(vm_compute; reflexivity)
              ltac:(vm_compute; discriminate)) as [Hrefuse Hsearch].
  split; [exact Hrefuse | apply Hsearch; vm_compute; reflexivity].
Defined.

(* ================================================================== *)
(** ** The extract and dump tools                                      *)
(* ================================================================== *)

Import Cli.

(** [x, = struct.unpack('<I', b)] wants exactly four bytes. *)
Lemma unpack_word_eq (b : bytes) :
  unpack_word b = if len b =? 4 then Ok (le_uint b) else Raise (Exn struct_error "").
Proof.
  unfold unpack_word, struct_unpack.
  change (parse_format "<I") with (Some (false, [(1, CI)])). cbv beta iota.
  change (end_offset false [(1, CI)] 0) with 4.
  destruct (len b =? 4) eqn:L; [| reflexivity].
  apply Z.eqb_eq in L.
  change (decode false [(1, CI)] 0 b) with [VInt (le_uint (slice b 0 4))].
  cbn [and_then]. now rewrite <- L, slice_all.
Qed.

(** The first [n] bytes of a file that has them. *)
Lemma len_slice_head (raw : bytes) a b :
  0 <= a -> a <= b -> b <= len raw -> len (slice raw a b) = b - a.
Proof. intros. rewrite len_slice by lia. lia. Qed.

(** A slice up to the end and the rest make the whole. *)
Lemma slice_slice_from {A} (data : list A) a b :
  0 <= a -> a <= b -> slice data a b ++ slice_from data b = slice_from data a.
Proof.
  intros Ha Hab. rewrite slice_eq by lia. unfold slice_from.
  rewrite !clamp_index_len by lia.
  pose proof (len_nonneg data) as HL. set (L := len data) in *.
  set (a' := Z.min a L). set (b' := Z.min b L).
  replace (Z.to_nat b') with (Z.to_nat (b' - a') + Z.to_nat a')%nat by lia.
  rewrite <- skipn_skipn. apply firstn_skipn.
Qed.

Lemma slice_from_0 {A} (data : list A) : slice_from data 0 = data.
Proof.
  unfold slice_from. rewrite clamp_index_len by lia.
  pose proof (len_nonneg data). now replace (Z.min 0 (len data)) with 0 by lia.
Qed.

(** What [split_header] returned. *)
Lemma split_header_inv raw h chapter compressed body :
  split_header raw = Ok (Returned (h, chapter, compressed, body)) ->
  8 <= len raw /\ h = le_uint (slice raw 0 4) /\ h <= len raw
  /\ body = slice_from raw h
  /\ ((le_uint (slice raw 4 8) < 100000000 /\ chapter = slice raw 4 8
       /\ compressed = slice raw 8 h)
      \/ (100000000 <= le_uint (slice raw 4 8) /\ chapter = []
          /\ compressed = slice raw 4 h)).
Proof.
  unfold split_header. intros H.
  destruct (len raw <? 4) eqn:L4; [discriminate |]. apply Z.ltb_ge in L4.
  rewrite unpack_word_eq, len_slice_head in H by lia.
  change (4 - 0 =? 4) with true in H. cbn [and_then] in H.
  destruct (len raw <? le_uint (slice raw 0 4)) eqn:Lh; [discriminate |].
  apply Z.ltb_ge in Lh.
  rewrite unpack_word_eq in H.
  destruct (len (slice raw 4 8) =? 4) eqn:L8; [| discriminate].
  apply Z.eqb_eq in L8. rewrite len_slice in L8 by lia.
  cbn [and_then] in H.
  destruct (le_uint (slice raw 4 8) <? 100000000) eqn:C;
    injection H as <- <- <- <-; repeat split; try lia; try reflexivity.
  - left. apply Z.ltb_lt in C. now repeat split.
  - right. apply Z.ltb_ge in C. now repeat split.
Qed.

(** X25: when [split_header] returns and the header length covers the
    prefix it found (the length word and, if present, the chapter
    address), the four parts laid end to end are the file, and the body
    is the one [get_body] of dump.py returns. *)
Theorem split_header_partition raw h chapter compressed body :
  split_header raw = Ok (Returned (h, chapter, compressed, body)) ->
  4 + len chapter <= h ->
  slice raw 0 4 ++ chapter ++ compressed ++ body = raw
  /\ len (slice raw 0 4) + len chapter + len compressed = h
  /\ get_body raw = Ok body.
Proof.
  intros H Hh.
  destruct (split_header_inv _ _ _ _ _ H) as (L8 & Eh & Hle & -> & Hcase).
  assert (Hbody : get_body raw = Ok (slice_from raw h)).
  { unfold get_body. rewrite unpack_word_eq, len_slice_head by lia.
    change (4 - 0 =? 4) with true. cbn [and_then]. now rewrite <- Eh. }
  destruct Hcase as [(C & -> & ->) | (C & -> & ->)].
  - rewrite len_slice_head in Hh by lia.
    repeat split; [| | exact Hbody].
    + rewrite slice_slice_from, slice_slice_from, slice_slice_from, slice_from_0 by lia.
      reflexivity.
    + rewrite !len_slice_head by lia. lia.
  - change (len []) with 0 in *. cbn [app].
    repeat split; [| | exact Hbody].
    + rewrite slice_slice_from, slice_slice_from, slice_from_0 by lia. reflexivity.
    + rewrite !len_slice_head by lia. lia.
Qed.

Lemma split_header_partition_witness :
  slice (u32 10 ++ u32 1 ++ [xaa; xbb; xcc]) 0 4 ++ u32 1 ++ [xaa; xbb] ++ [xcc]
  = u32 10 ++ u32 1 ++ [xaa; xbb; xcc]
  /\ len (slice (u32 10 ++ u32 1 ++ [xaa; xbb; xcc]) 0 4) + len (u32 1) + len [xaa; xbb] = 10
  /\ get_body (u32 10 ++ u32 1 ++ [xaa; xbb; xcc]) = Ok [xcc].
Proof.
  exact (split_header_partition (u32 10 ++ u32 1 ++ [xaa; xbb; xcc]) 10 (u32 1)
           [xaa; xbb] [xcc]
           ltac:(vm_compute; reflexivity) ltac:(vm_compute; discriminate)).
Defined.

(** X26: on a file of fewer than eight bytes [split_header] never
    returns: it exits with status 1 when the file has fewer than four
    bytes or the header length exceeds the file, and otherwise the peek
    at the chapter address raises struct.error. *)
Theorem split_header_short_file (raw : bytes) :
  len raw < 8 ->
  split_header raw
  = if (len raw <? 4) || (len raw <? le_uint (slice raw 0 4))
    then Ok (Exited 1)
    else Raise (Exn struct_error "").
Proof.
  intros Hshort. unfold split_header.
  destruct (len raw <? 4) eqn:L4; [reflexivity |]. apply Z.ltb_ge in L4.
  rewrite unpack_word_eq, len_slice_head by lia.
  change (4 - 0 =? 4) with true. cbn [and_then orb].
  destruct (len raw <? le_uint (slice raw 0 4)) eqn:Lh; [reflexivity |].
  rewrite unpack_word_eq, len_slice by lia.
  replace (Z.min 8 (len raw) - Z.min 4 (len raw) =? 4) with false
    by (symmetry; apply Z.eqb_neq; lia).
  reflexivity.
Qed.

Lemma split_header_short_file_witness :
  split_header (u32 4) = Raise (Exn struct_error "").
Proof.
  exact (split_header_short_file (u32 4) ltac:(vm_compute; reflexivity)).
Defined.

(** A slice of the first bytes of a file. *)
Lemma slice_head {A} (data : list A) n a b :
  0 <= a -> a <= b -> b <= n -> n <= len data ->
  slice (slice data 0 n) a b = slice data a b.
Proof.
  intros Ha Hab Hbn Hn.
  exact (slice_slice data 0 n a b ltac:(lia) Ha Hab Hbn ltac:(lia)).
Qed.

(** [struct.unpack('<II', raw[:8])] on a file of eight bytes or more. *)
Lemma unpack_two_words (raw : bytes) :
  8 <= len raw ->
  struct_unpack "<II" (slice raw 0 8)
  = Ok [VInt (le_uint (slice raw 0 4)); VInt (le_uint (slice raw 4 8))].
Proof.
  intros L8. unfold struct_unpack.
  change (parse_format "<II") with (Some (false, [(1, CI); (1, CI)])). cbv beta iota.
  change (end_offset false [(1, CI); (1, CI)] 0) with 8.
  rewrite len_slice_head by lia. change (8 - 0 =? 8) with true. cbv beta iota.
  change (decode false [(1, CI); (1, CI)] 0 ?c)
    with [VInt (le_uint (slice c 0 4)); VInt (le_uint (slice c 4 8))].
  now rewrite !slice_head by lia.
Qed.

(** [decompress] of header.py on a file whose header length is at least
    the eight bytes of the prefix. *)
Lemma decompress_eq (inflate : bytes -> option bytes) (raw : bytes) :
  8 <= len raw ->
  8 <= le_uint (slice raw 0 4) <= len raw ->
  decompress inflate (BytesIO_of raw)
  = match inflate (slice raw 8 (le_uint (slice raw 0 4))) with
    | Some header => Ok (BytesIO_of header, mkBytesIO raw (le_uint (slice raw 0 4)))
    | None => Raise (Exn zlib_error "")
    end.
Proof.
  intros L8 Hh. unfold decompress. cbv zeta.
  pose proof (unpack_at "<II" false [(1, CI); (1, CI)] (BytesIO_of raw) eq_refl) as U.
  cbv zeta in U. change (end_offset false [(1, CI); (1, CI)] 0) with 8 in U.
  cbn [BytesIO_of position getvalue] in U.
  specialize (U ltac:(lia) ltac:(lia) ltac:(lia) ltac:(lia)).
  unfold bind at 1. rewrite U.
  change (decode false [(1, CI); (1, CI)] 0 ?c)
    with [VInt (le_uint (slice c 0 4)); VInt (le_uint (slice c 4 8))].
  cbv beta iota.
  change (0 + 8) with 8. rewrite slice_head by lia.
  set (h := le_uint (slice raw 0 4)) in *.
  assert (Hword : 0 <= h < 2 ^ 56).
  { apply le_uint_fits. pose proof (len_slice_le raw 0 4). lia. }
  unfold bind.
  rewrite (read_slice (h - 8) (mkBytesIO raw 8)) by (cbn [position getvalue]; lia).
  cbn [position getvalue].
  replace (8 + Z.min (h - 8) (Z.max 0 (len raw - 8))) with h by lia.
  replace (8 + (h - 8)) with h by lia.
  destruct (inflate (slice raw 8 h)); reflexivity.
Qed.

(** [get_header] of dump.py on a file of eight bytes or more. *)
Lemma get_header_eq (inflate : bytes -> option bytes) (raw : bytes) :
  8 <= len raw ->
  get_header inflate raw
  = Ok (match inflate (slice raw 8 (le_uint (slice raw 0 4))) with
        | Some header => Returned header
        | None => Exited 1
        end).
Proof.
  intros L8. unfold get_header.
  replace (len raw <? 8) with false by (symmetry; apply Z.ltb_ge; lia).
  rewrite unpack_two_words by lia. cbn [and_then].
  destruct (inflate (slice raw 8 (le_uint (slice raw 0 4)))); reflexivity.
Qed.

(** X27: on a file that [split_header] splits with a chapter address and
    a header length of at least eight, extract.py, dump.py and
    [decompress] of header.py inflate the same bytes: either all three
    fail, or the parser's header is the one [get_header] returns and the
    one [extract] writes after the first eight bytes of the file. *)
Theorem tools_inflate_the_same_bytes (inflate : bytes -> option bytes) raw h chapter
    compressed body :
  split_header raw = Ok (Returned (h, chapter, compressed, body)) ->
  chapter <> [] -> 8 <= h ->
  match inflate compressed with
  | Some header =>
      decompress inflate (BytesIO_of raw) = Ok (BytesIO_of header, mkBytesIO raw h)
      /\ get_header inflate raw = Ok (Returned header)
      /\ extract inflate raw = Ok (Returned (slice raw 0 8 ++ header, body))
  | None =>
      decompress inflate (BytesIO_of raw) = Raise (Exn zlib_error "")
      /\ get_header inflate raw = Ok (Exited 1)
      /\ extract inflate raw = Ok (Exited 1)
  end.
Proof.
  intros H Hchapter Hh.
  destruct (split_header_inv _ _ _ _ _ H) as (L8 & Eh & Hle & Eb & Hcase).
  destruct Hcase as [(C & Ec & Ez) | (_ & Ec & _)]; [| contradiction].
  pose proof (decompress_eq inflate raw L8 ltac:(lia)) as D.
  pose proof (get_header_eq inflate raw L8) as G.
  rewrite <- Eh, <- Ez in D, G.
  unfold extract, decompress_header_data. rewrite H. cbn [and_then].
  destruct (inflate compressed) as [header |]; repeat split; try assumption.
  rewrite Ec, app_assoc, <- (slice_app raw 0 4 8) by lia. reflexivity.
Qed.

Lemma tools_inflate_the_same_bytes_witness :
  decompress stored (BytesIO_of (u32 10 ++ u32 1 ++ [xaa; xbb; xcc]))
  = Ok (BytesIO_of [xaa; xbb], mkBytesIO (u32 10 ++ u32 1 ++ [xaa; xbb; xcc]) 10)
  /\ get_header stored (u32 10 ++ u32 1 ++ [xaa; xbb; xcc]) = Ok (Returned [xaa; xbb])
  /\ extract stored (u32 10 ++ u32 1 ++ [xaa; xbb; xcc])
     = Ok (Returned (slice (u32 10 ++ u32 1 ++ [xaa; xbb; xcc]) 0 8 ++ [xaa; xbb], [xcc])).
Proof.
  exact (tools_inflate_the_same_bytes stored (u32 10 ++ u32 1 ++ [xaa; xbb; xcc]) 10
           (u32 1) [xaa; xbb] [xcc]
           ltac:(vm_compute; reflexivity) ltac:(vm_compute; discriminate)
           ltac:(vm_compute; discriminate)).
Defined.

(** X28: when the second word of the file is 100,000,000 or more,
    [split_header] takes it for the start of the compressed stream while
    [decompress] of header.py and [get_header] of dump.py still skip it:
    extract.py inflates the parser's bytes with those four in front. *)
Theorem extract_without_chapter_address (inflate : bytes -> option bytes) raw h
    compressed body :
  split_header raw = Ok (Returned (h, [], compressed, body)) ->
  8 <= h ->
  compressed = slice raw 4 8 ++ slice raw 8 h
  /\ len (slice raw 4 8) = 4
  /\ extract inflate raw
     = Ok (match inflate compressed with
           | Some header => Returned (slice raw 0 4 ++ header, body)
           | None => Exited 1
           end)
  /\ decompress inflate (BytesIO_of raw)
     = match inflate (slice raw 8 h) with
       | Some header => Ok (BytesIO_of header, mkBytesIO raw h)
       | None => Raise (Exn zlib_error "")
       end
  /\ get_header inflate raw
     = Ok (match inflate (slice raw 8 h) with
           | Some header => Returned header
           | None => Exited 1
           end).
Proof.
  intros H Hh.
  destruct (split_header_inv _ _ _ _ _ H) as (L8 & Eh & Hle & Eb & Hcase).
  assert (L4 : len (slice raw 4 8) = 4) by (rewrite len_slice_head; lia).
  destruct Hcase as [(_ & Ec & _) | (C & _ & Ez)].
  { rewrite <- Ec in L4. discriminate L4. }
  pose proof (decompress_eq inflate raw L8 ltac:(lia)) as D.
  pose proof (get_header_eq inflate raw L8) as G.
  rewrite <- Eh in D, G.
  repeat split; try assumption.
  - rewrite Ez. apply slice_app; lia.
  - unfold extract, decompress_header_data. rewrite H. cbn [and_then].
    destruct (inflate compressed); reflexivity.
Qed.

Lemma extract_without_chapter_address_witness :
  [xff; xff; xff; xff; xaa; xbb] = slice (u32 10 ++ [xff; xff; xff; xff; xaa; xbb; xcc]) 4 8
                                   ++ slice (u32 10 ++ [xff; xff; xff; xff; xaa; xbb; xcc]) 8 10
  /\ extract stored (u32 10 ++ [xff; xff; xff; xff; xaa; xbb; xcc])
     = Ok (Returned (slice (u32 10 ++ [xff; xff; xff; xff; xaa; xbb; xcc]) 0 4
                     ++ [xff; xff; xff; xff; xaa; xbb], [xcc]))
  /\ get_header stored (u32 10 ++ [xff; xff; xff; xff; xaa; xbb; xcc])
     = Ok (Returned (slice (u32 10 ++ [xff; xff; xff; xff; xaa; xbb; xcc]) 8 10)).
Proof.
  pose proof (extract_without_chapter_address stored
                (u32 10 ++ [xff; xff; xff; xff; xaa; xbb; xcc]) 10
                [xff; xff; xff; xff; xaa; xbb] [xcc]
                ltac:(vm_compute; reflexivity) ltac:(vm_compute; discriminate))
    as (E1 & _ & E2 & _ & E3).
  exact (conj E1 (conj E2 E3)).
Defined.

(* ================================================================== *)
(** ** The device of a parsed header                                   *)
(* ================================================================== *)

(** Before save version 37 [parse_player] reads no device. *)
Lemma parse_player_device (fuel : nat) (player_number num_players : Z) (save : float) :
  fge save (flt "37") = false ->
  returns (parse_player fuel player_number num_players save)
    (fun p => snd p = VInt 0).
Proof.
  intros Hsave. unfold parse_player. rewrite Hsave.
  apply returns_then. intros player.
  apply (returns_bind _ _ (fun device => device = VInt 0)); [now apply returns_ret|].
  intros device ->. now apply returns_ret.
Qed.

(** X29: a header saved before version 37 parses to device 0: the
    device byte is only read from player blocks of save version 37 or
    later. *)
Theorem parse_device_before_37 (inflate : bytes -> option bytes)
    (get_version : str -> float -> Z -> result Version)
    (fuel : nat) (data : BytesIO) (out : dict) (save : float) :
  parse inflate get_version fuel data = Ok (VDict out) ->
  dict_get out "save_version" = VFloat save ->
  fge save (flt "37") = false ->
  dict_get out "device" = VInt 0.
Proof.
  intros H Hsave Hold.
  destruct (parse_stages _ _ _ _ _ H)
    as (header & data1 & data2 & version & game & save' & log & de & hd & metadata
        & num_players & map_ & players & mod_ & device & scenario & lobby
        & h0 & h1 & h2 & h3 & h4 & h5 & h6 & h7
        & _ & _ & _ & _ & _ & _ & _ & Hp & _ & _ & ->).
  change (dict_get _ "save_version") with (VFloat save') in Hsave.
  injection Hsave as ->.
  change (dict_get _ "device") with device.
  unfold parse_players in Hp.
  step Hp as u0 g E0. unfold parse_players_from_gaia in Hp.
  step Hp as m g1 Em. step Hp as ps g2 E1.
  apply (returns_for_indexed (fun _ (p : val * val) => snd p = VInt 0)) in E1.
  2:{ intros i s. eapply returns_bind; [apply parse_player_device; exact Hold|].
      cbv beta. intros p Hp'. apply returns_ret. eauto. }
  destruct E1 as (l & -> & Hl & Hall). cbn [app] in Hp.
  step Hp as cur g3 E2. step Hp as rest g4 E3. step Hp as u4 g5 E4.
  step Hp as u5 g6 E5. step Hp as u6 g7 E6.
  destruct l as [|[p0 dev] l']; [discriminate Hp|].
  injection Hp as _ _ <- _.
  exact (Hall 0%nat (p0, dev) eq_refl).
Qed.

Lemma parse_device_before_37_witness :
  dict_get sample_up_output "device" = VInt 0.
Proof.
  exact (parse_device_before_37 stored sample_get_version 8 sample_up_file sample_up_output
           (flt "11.76") sample_up_parsed
           ltac:(vm_compute; reflexivity) ltac:(vm_compute; reflexivity)).
Defined.
